(** * Morphx: a shallow embedding of [app.py] and its verified properties

    The Flask views of [src/Morphx/app.py] are embedded as functions from
    a request and a world (database tables, upload directory, login
    session, flashed messages) to a response and a new world.

    Conventions of the embedding:
    - a table is the list of its rows in rowid order; a fresh primary key
      is one more than the largest key in the table (SQLite's rowid rule,
      the store [config.py] selects by default);
    - [db.session.add] followed by [db.session.commit] is one insertion
      that checks the [unique=True] columns and the [UniqueConstraint] of
      the model classes; a violated constraint is the unhandled
      [IntegrityError], i.e. a 500 response and an unchanged store;
    - Python strings are Rocq strings of code points below 256;
    - [datetime.utcnow()] is read from the request environment as a
      number of microseconds; the random salt drawn by
      [generate_password_hash] is read from the environment too;
    - what depends on the machine the application runs on is read from
      the [Host] of the environment: the integer [timestamp()] makes of
      a naive time, and whether the file system takes a file name;
    - an exception no view handles is the response 500 and an unchanged
      world: the [IntegrityError] of a commit, the [OverflowError] of a
      key the store cannot hold, the [OSError] of a file that cannot be
      written;
    - the library functions the views call ([secure_filename],
      [generate_password_hash], [check_password_hash],
      [send_from_directory]) are the fields of the class [Werkzeug];
      every view is parametric in them. *)

From Stdlib Require Import Ascii String.
From stdpp Require Import base decidable option numbers list sorting strings pretty gmap.

Local Open Scope string_scope.
Local Open Scope Z_scope.

(** ** Python string methods used by the views *)

Module Py.

(** [str.isspace] on one code point below 256. *)
Definition isspace (c : ascii) : bool :=
  let n := Z.of_N (N_of_ascii c) in
  ((9 <=? n) && (n <=? 13)) || ((28 <=? n) && (n <=? 32))
  || (n =? 133) || (n =? 160).

Fixpoint lstrip (s : string) : string :=
  match s with
  | EmptyString => EmptyString
  | String c t => if isspace c then lstrip t else s
  end.

Definition rstrip (s : string) : string :=
  String.rev (lstrip (String.rev s)).

(** [s.strip()] *)
Definition strip (s : string) : string := rstrip (lstrip s).

(** [str.lower] on one code point below 256: A-Z and the capital
    letters of Latin-1 (0xC0-0xDE without the multiplication sign). *)
Definition lower_char (c : ascii) : ascii :=
  let n := Z.of_N (N_of_ascii c) in
  if ((65 <=? n) && (n <=? 90))
     || ((192 <=? n) && (n <=? 222) && negb (n =? 215))
  then ascii_of_N (Z.to_N (n + 32)) else c.

Fixpoint lower (s : string) : string :=
  match s with
  | EmptyString => EmptyString
  | String c t => String (lower_char c) (lower t)
  end.

(** [c in s] *)
Fixpoint contains (c : ascii) (s : string) : bool :=
  match s with
  | EmptyString => false
  | String d t => bool_decide (c = d) || contains c t
  end.

(** [s.rfind(c)]: the index of the last occurrence, [-1] without one. *)
Fixpoint rfind (c : ascii) (s : string) : Z :=
  match s with
  | EmptyString => -1
  | String d t =>
      let r := rfind c t in
      if 0 <=? r then r + 1
      else if bool_decide (c = d) then 0 else -1
  end.

(** [s[i:]] and [s[:i]] for [0 <= i]. *)
Fixpoint drop (i : nat) (s : string) : string :=
  match i, s with
  | O, _ => s
  | S j, EmptyString => EmptyString
  | S j, String _ t => drop j t
  end.

Fixpoint take (i : nat) (s : string) : string :=
  match i, s with
  | O, _ => EmptyString
  | S j, EmptyString => EmptyString
  | S j, String c t => String c (take j t)
  end.

(** [s.rsplit(c, 1)]: the two parts around the last [c]. Python
    returns the one-element list [[s]] when [c] does not occur; that
    is [None] here. *)
Definition rsplit1 (c : ascii) (s : string) : option (string * string) :=
  let i := rfind c s in
  if 0 <=? i then Some (take (Z.to_nat i) s, drop (Z.to_nat (i + 1)) s)
  else None.

(** [all(ch == c for ch in s)] *)
Fixpoint all_char (c : ascii) (s : string) : bool :=
  match s with
  | EmptyString => true
  | String d t => bool_decide (d = c) && all_char c t
  end.

(** [os.path.splitext] of [posixpath]: the extension starts at the last
    dot of the last path component; leading dots of that component do
    not start an extension. *)
Definition splitext (p : string) : string * string :=
  let sepIndex := rfind "/" p in
  let dotIndex := rfind "." p in
  if sepIndex <? dotIndex then
    let filenameIndex := sepIndex + 1 in
    let before :=
      take (Z.to_nat (dotIndex - filenameIndex))
           (drop (Z.to_nat filenameIndex) p) in
    if all_char "." before then (p, EmptyString)
    else (take (Z.to_nat dotIndex) p, drop (Z.to_nat dotIndex) p)
  else (p, EmptyString).

(** [int(x)] of a float with the value [micros / 10^6]: truncation
    towards zero. It is [int(dt.timestamp())] for the naive time [dt] of
    [micros] microseconds only on a host whose local zone is UTC, and as
    long as the float keeps the microseconds apart from the next second
    (the years 1970 to 2242); only [utc_host] below uses it. *)
Definition int_of_micros (micros : Z) : Z := micros ÷ 1000000.

(** [len(os.fsencode(s))] on a host with a UTF-8 file system encoding:
    a code point from 128 on takes two bytes. *)
Fixpoint fsencode_len (s : string) : nat :=
  match s with
  | EmptyString => O
  | String c t =>
      let bytes := if Z.of_N (N_of_ascii c) <? 128 then 1%nat else 2%nat in
      (bytes + fsencode_len t)%nat
  end.

(** [str(n)] for an integer, as the f-string prints it. *)
Definition str_of_int (n : Z) : string := pretty n.

End Py.

(** ** The library functions the views import *)

(** [secure_filename] sanitises a client file name;
    [generate_password_hash] computes a salted digest, the salt being
    random and given here as an argument; [check_password_hash] tells
    whether a password fits a digest. [send_from_directory], which flask
    hands on to [werkzeug.utils], is given the content of the directory
    and the path of the URL: it returns the content of the file the path
    names there, and [None] where it raises [NotFound] (a path that
    leaves the directory, or no such file). *)
Class Werkzeug := {
  secure_filename : string → string;
  generate_password_hash : string → string → string;
  check_password_hash : string → string → bool;
  send_from_directory : gmap string string → string → option string
}.

(** ** config.py *)

Record Config := {
  ADMIN_USERNAME : string;
  ADMIN_PASSWORD : string;
  ADMIN_EMAIL : string
}.

(** The values [config.py] takes when the environment sets none. *)
Definition default_config : Config :=
  {| ADMIN_USERNAME := "admin";
     ADMIN_PASSWORD := "Admin@12345";
     ADMIN_EMAIL := "admin@amrita.edu" |}.

(** ** The model classes: one record per table row *)

Module User.
Record t := mk {
  id : nat;
  username : string;
  email : string;
  password_hash : string;
  is_admin : bool;
  blocked : bool;
  avatar_url : string;
  created_at : Z
}.
Definition set_blocked (b : bool) (u : t) : t :=
  mk (id u) (username u) (email u) (password_hash u) (is_admin u) b
     (avatar_url u) (created_at u).
Definition set_avatar_url (a : string) (u : t) : t :=
  mk (id u) (username u) (email u) (password_hash u) (is_admin u)
     (blocked u) a (created_at u).
End User.

Module Post.
Record t := mk {
  id : nat;
  content : string;
  image_url : string;
  user_id : nat;
  created_at : Z;
  is_deleted : bool
}.
Definition set_is_deleted (b : bool) (p : t) : t :=
  mk (id p) (content p) (image_url p) (user_id p) (created_at p) b.
End Post.

Module Comment.
Record t := mk {
  id : nat;
  content : string;
  user_id : nat;
  post_id : nat;
  created_at : Z;
  is_deleted : bool
}.
End Comment.

Module Like.
Record t := mk {
  id : nat;
  user_id : nat;
  post_id : nat;
  created_at : Z
}.
End Like.

Global Instance User_eq_dec : EqDecision User.t.
Proof. solve_decision. Defined.
Global Instance Post_eq_dec : EqDecision Post.t.
Proof. solve_decision. Defined.
Global Instance Comment_eq_dec : EqDecision Comment.t.
Proof. solve_decision. Defined.
Global Instance Like_eq_dec : EqDecision Like.t.
Proof. solve_decision. Defined.

(** ** The store *)

Record DB := {
  users : list User.t;
  posts : list Post.t;
  comments : list Comment.t;
  likes : list Like.t
}.

Definition set_users (us : list User.t) (d : DB) : DB :=
  {| users := us; posts := posts d; comments := comments d; likes := likes d |}.
Definition set_posts (ps : list Post.t) (d : DB) : DB :=
  {| users := users d; posts := ps; comments := comments d; likes := likes d |}.
Definition set_comments (cs : list Comment.t) (d : DB) : DB :=
  {| users := users d; posts := posts d; comments := cs; likes := likes d |}.
Definition set_likes (ls : list Like.t) (d : DB) : DB :=
  {| users := users d; posts := posts d; comments := comments d; likes := ls |}.

(** The primary key the store gives to a new row. *)
Definition fresh_id (ids : list nat) : nat := S (max_list ids).

(** The outcome of [db.session.commit()] after an insertion: the new row
    and the new store, or the [IntegrityError] of a violated uniqueness
    constraint. *)
Inductive Commit (A : Type) : Type :=
| Committed (row : A) (d : DB)
| IntegrityError.
Arguments Committed {A} row d.
Arguments IntegrityError {A}.

(** [User.query.filter_by(username=name).first()] *)
Definition user_by_username (name : string) (d : DB) : option User.t :=
  find (λ u, bool_decide (User.username u = name)) (users d).

(** [User.query.get(uid)], as far as it returns: the row of that key. *)
Definition get_user (uid : nat) (d : DB) : option User.t :=
  find (λ u, bool_decide (User.id u = uid)) (users d).

(** [Post.query.get(pid)], as far as it returns: the row of that key. *)
Definition get_post (pid : nat) (d : DB) : option Post.t :=
  find (λ p, bool_decide (Post.id p = pid)) (posts d).

(** The largest integer SQLite stores, and so the largest key of a row. *)
Definition MAX_INTEGER : Z := 2 ^ 63 - 1.

(** The outcome of [Model.query.get_or_404(ident)]: the row, the
    [NotFound] that flask answers with 404, or the [OverflowError] that
    [sqlite3] raises when it is to bind an integer above [MAX_INTEGER]
    to the query (Python int too large to convert to SQLite INTEGER). *)
Inductive Lookup (A : Type) : Type :=
| Found (row : A)
| NotFound
| OverflowError.
Arguments Found {A} row.
Arguments NotFound {A}.
Arguments OverflowError {A}.

(** [Model.query.get_or_404(ident)], [row] being the row of the key
    [ident] if the table has one. The [<int:...>] converter of a route
    accepts any run of digits, so [ident] has no bound. The keys of the
    rows are integers of the store: no row has a key above
    [MAX_INTEGER], and on the tables of the store it makes no difference
    that the row is looked for before the bound is tested. *)
Definition get_or_404 {A : Type} (row : option A) (ident : nat) : Lookup A :=
  match row with
  | Some r => Found r
  | None =>
      if bool_decide (Z.of_nat ident ≤ MAX_INTEGER) then NotFound
      else OverflowError
  end.

(** The same with the bound tested first, as [sqlite3] does. *)
Definition get_or_404_bound_first {A : Type} (row : option A) (ident : nat)
    : Lookup A :=
  if bool_decide (Z.of_nat ident ≤ MAX_INTEGER) then
    match row with
    | Some r => Found r
    | None => NotFound
    end
  else OverflowError.

(** All primary keys are integers of the store. *)
Definition keys_in_range (d : DB) : Prop :=
  (∀ u, u ∈ users d → Z.of_nat (User.id u) ≤ MAX_INTEGER)
  ∧ (∀ p, p ∈ posts d → Z.of_nat (Post.id p) ≤ MAX_INTEGER).

(** The SQL condition [(User.username == name) | (User.email == mail)]
    on one row; it is also what the two [unique=True] columns of [User]
    forbid a new row to meet. *)
Definition user_clash (name mail : string) (u : User.t) : bool :=
  bool_decide (User.username u = name) || bool_decide (User.email u = mail).

(** [db.session.add(User(...)); db.session.commit()]. The columns
    [username] and [email] are [unique=True]; [blocked], [avatar_url] and
    [created_at] take their column defaults. *)
Definition add_user (name mail pw_hash : string) (admin : bool) (now : Z)
    (d : DB) : Commit User.t :=
  if existsb (user_clash name mail) (users d)
  then IntegrityError
  else
    let row := User.mk (fresh_id (User.id <$> users d)) name mail pw_hash
                       admin false "" now in
    Committed row (set_users (users d ++ [row]) d).

(** [db.session.add(Post(...)); db.session.commit()] *)
Definition add_post (text image : string) (owner : nat) (now : Z)
    (d : DB) : Post.t * DB :=
  let row := Post.mk (fresh_id (Post.id <$> posts d)) text image owner now
                     false in
  (row, set_posts (posts d ++ [row]) d).

(** [db.session.add(Comment(...)); db.session.commit()] *)
Definition add_comment (text : string) (owner pid : nat) (now : Z)
    (d : DB) : Comment.t * DB :=
  let row := Comment.mk (fresh_id (Comment.id <$> comments d)) text owner pid
                        now false in
  (row, set_comments (comments d ++ [row]) d).

(** [db.session.add(Like(...)); db.session.commit()], under the
    constraint [uq_user_post_like]. *)
Definition add_like (owner pid : nat) (now : Z) (d : DB) : Commit Like.t :=
  if existsb (λ l, bool_decide (Like.user_id l = owner)
                   && bool_decide (Like.post_id l = pid)) (likes d)
  then IntegrityError
  else
    let row := Like.mk (fresh_id (Like.id <$> likes d)) owner pid now in
    Committed row (set_likes (likes d ++ [row]) d).

(** [Like.query.filter_by(user_id=uid, post_id=pid).first()] *)
Definition like_by (uid pid : nat) (d : DB) : option Like.t :=
  find (λ l, bool_decide (Like.user_id l = uid)
             && bool_decide (Like.post_id l = pid)) (likes d).

(** [db.session.delete(existing); db.session.commit()]: the row with the
    primary key of [existing] goes. *)
Definition delete_like (existing : Like.t) (d : DB) : DB :=
  set_likes (filter (λ l, Like.id l ≠ Like.id existing) (likes d)) d.

(** [post.likes], loaded after the commit: the likes of the post. *)
Definition post_likes (pid : nat) (d : DB) : list Like.t :=
  filter (λ l, Like.post_id l = pid) (likes d).

(** [post.comments] *)
Definition post_comments (pid : nat) (d : DB) : list Comment.t :=
  filter (λ c, Comment.post_id c = pid) (comments d).

(** [post.is_deleted = b; db.session.commit()] for the post with the
    primary key [pid]. *)
Definition update_is_deleted (pid : nat) (b : bool) (d : DB) : DB :=
  set_posts
    ((λ p, if bool_decide (Post.id p = pid) then Post.set_is_deleted b p
           else p) <$> posts d) d.

(** [user.blocked = b; db.session.commit()] *)
Definition update_blocked (uid : nat) (b : bool) (d : DB) : DB :=
  set_users
    ((λ u, if bool_decide (User.id u = uid) then User.set_blocked b u
           else u) <$> users d) d.

(** [current_user.avatar_url = url; db.session.commit()] *)
Definition update_avatar_url (uid : nat) (url : string) (d : DB) : DB :=
  set_users
    ((λ u, if bool_decide (User.id u = uid) then User.set_avatar_url url u
           else u) <$> users d) d.

(** [ORDER BY post.created_at DESC]: newest first. Rows of equal time
    come in an order SQL leaves open; here it is the one the merge sort
    gives, and nothing below depends on it. *)
Definition created_desc (p q : Post.t) : Prop :=
  Post.created_at q ≤ Post.created_at p.

Global Instance created_desc_dec : RelDecision created_desc.
Proof. intros p q. unfold created_desc. apply _. Defined.

(** [Post.query.filter_by(is_deleted=False)
        .order_by(Post.created_at.desc()).all()] *)
Definition feed_query (d : DB) : list Post.t :=
  merge_sort created_desc (filter (λ p, Post.is_deleted p = false) (posts d)).

(** The constraints the model classes declare: primary keys, the unique
    columns of [User], and [uq_user_post_like]. *)
Record db_constraints (d : DB) : Prop := {
  user_pk : NoDup (User.id <$> users d);
  user_username_unique : NoDup (User.username <$> users d);
  user_email_unique : NoDup (User.email <$> users d);
  post_pk : NoDup (Post.id <$> posts d);
  comment_pk : NoDup (Comment.id <$> comments d);
  like_pk : NoDup (Like.id <$> likes d);
  uq_user_post_like :
    NoDup ((λ l, (Like.user_id l, Like.post_id l)) <$> likes d)
}.

(** ** Requests, responses and the world a view runs in *)

(** A [werkzeug.FileStorage]: the client's file name and the bytes. *)
Record FileStorage := {
  filename : string;
  stream : string
}.

Inductive Method := GET | POST.

Record Request := {
  method : Method;
  form : list (string * string);
  files : list (string * FileStorage)
}.

(** What the views take from the machine the application runs on.
    [int_timestamp now] is the value of [int(dt.timestamp())] for the
    naive time [dt] that [datetime.utcnow()] returned at [now]:
    [timestamp()] reads [dt] as a local time of the host's zone and
    returns a float. [can_save name] tells whether the file system
    creates a file of that name in [static/uploads]; where it does not
    (a name longer than it allows, for one), [file_storage.save] raises
    [OSError]. *)
Record Host := {
  int_timestamp : Z → Z;
  can_save : string → bool
}.

(** The request environment: the clock and the salt of this request,
    and the host. *)
Record Env := {
  utcnow : Z;
  salt : string;
  host : Host
}.

Inductive Json :=
| JBool (b : bool)
| JNum (n : nat)
| JStr (s : string).

Inductive Response :=
| redirect (endpoint : string)
| render_template (template : string) (ctx_posts : list Post.t)
| jsonify (body : list (string * Json)) (status : nat)
| abort (status : nat).

(** [uploads] is the directory [static/uploads]: file name to content.
    [session] is the user id flask-login keeps in the session cookie;
    [flashes] are the flashed (message, category) pairs. *)
Record World := {
  db : DB;
  uploads : gmap string string;
  session : option nat;
  flashes : list (string * string)
}.

Definition set_db (d : DB) (w : World) : World :=
  {| db := d; uploads := uploads w; session := session w;
     flashes := flashes w |}.
Definition set_uploads (u : gmap string string) (w : World) : World :=
  {| db := db w; uploads := u; session := session w; flashes := flashes w |}.
Definition set_session (s : option nat) (w : World) : World :=
  {| db := db w; uploads := uploads w; session := s; flashes := flashes w |}.

(** [flash(message, category)] *)
Definition flash (message category : string) (w : World) : World :=
  {| db := db w; uploads := uploads w; session := session w;
     flashes := flashes w ++ [(message, category)] |}.

(** [request.form.get(key)]: the first value of the key. *)
Definition form_get (key : string) (req : Request) : option string :=
  snd <$> find (λ kv, bool_decide (fst kv = key)) (form req).

(** [request.files.get(key)] *)
Definition files_get (key : string) (req : Request) : option FileStorage :=
  snd <$> find (λ kv, bool_decide (fst kv = key)) (files req).

(** [x or default] for an optional string: [None] and [""] are falsy. *)
Definition or_else (x : option string) (default : string) : string :=
  match x with
  | Some s => if bool_decide (s = "") then default else s
  | None => default
  end.

(** [(request.form.get(key) or "").strip()] *)
Definition form_field (key : string) (req : Request) : string :=
  Py.strip (or_else (form_get key req) "").

(** The truth value of an optional [FileStorage]: [None] is falsy, and a
    [FileStorage] is as true as its file name. *)
Definition truthy_file (f : option FileStorage) : bool :=
  match f with
  | Some fs => negb (bool_decide (filename fs = ""))
  | None => false
  end.

(** [load_user] and [current_user]: the row of the session's user id, if
    there is one. *)
Definition load_user (uid : nat) (w : World) : option User.t :=
  get_user uid (db w).

Definition current_user (w : World) : option User.t :=
  session w ≫= λ uid, load_user uid w.

(** [login_user(user)] and [logout_user()] *)
Definition login_user (user : User.t) (w : World) : World :=
  set_session (Some (User.id user)) w.

Definition logout_user (w : World) : World := set_session None w.

(** What flask-login answers for an anonymous caller of a
    [@login_required] view, with [login_view = "login"]. *)
Definition unauthorized (w : World) : Response * World :=
  (redirect "login", flash "Please log in to access this page." "message" w).

(** [@login_required] *)
Definition login_required
    (view : User.t → World → Response * World) (w : World)
    : Response * World :=
  match current_user w with
  | Some u => view u w
  | None => unauthorized w
  end.

(** What a call of [save_image] comes to: the string it returns and the
    world it leaves, or the [OSError] of [file_storage.save]. *)
Inductive Saved : Type :=
| Returns (url : string) (w : World)
| OSError.

Definition ALLOWED_IMAGE_EXTENSIONS : list string :=
  ["png"; "jpg"; "jpeg"; "gif"; "webp"].

Definition allowed_image (filename : string) : bool :=
  Py.contains "." filename
  && match Py.rsplit1 "." filename with
     | Some (_, ext) => bool_decide (Py.lower ext ∈ ALLOWED_IMAGE_EXTENSIONS)
     | None => false
     end.

Section Views.
Context `{Werkzeug} (cfg : Config).

(** The name [save_image] stores a sanitised file name under,
    [timestamp] being the value of [int(datetime.utcnow().timestamp())]. *)
Definition safe_name (filename : string) (timestamp : Z) : string :=
  let '(name, ext) := Py.splitext filename in
  name +:+ "_" +:+ Py.str_of_int timestamp +:+ ext.

(** [save_image] returns a string, having written to the upload
    directory or not, unless [file_storage.save] raises. *)
Definition save_image (file_storage : option FileStorage) (env : Env)
    (w : World) : Saved :=
  match file_storage with
  | None => Returns "" w
  | Some fs =>
      if bool_decide (filename fs = "") then Returns "" w
      else
        let filename := secure_filename (filename fs) in
        if negb (allowed_image filename) then Returns "" w
        else
          let safe :=
            safe_name filename (int_timestamp (host env) (utcnow env)) in
          if can_save (host env) safe then
            Returns ("/static/uploads/" +:+ safe)
                    (set_uploads (<[safe := stream fs]> (uploads w)) w)
          else OSError
  end.

Definition index (w : World) : Response * World :=
  match current_user w with
  | None => (redirect "login", w)
  | Some _ => (render_template "index.html" (feed_query (db w)), w)
  end.

Definition register (req : Request) (env : Env) (w : World)
    : Response * World :=
  match method req with
  | POST =>
      let username := form_field "username" req in
      let email := Py.lower (form_field "email" req) in
      let password := or_else (form_get "password" req) "" in
      if bool_decide (username = "") || bool_decide (email = "")
         || bool_decide (password = "")
      then (redirect "register", flash "All fields are required." "error" w)
      else if existsb (user_clash username email) (users (db w))
      then (redirect "register",
            flash "Username or Email already exists." "error" w)
      else
        let password_hash := generate_password_hash (salt env) password in
        match add_user username email password_hash false (utcnow env)
                       (db w) with
        | Committed _ d =>
            (redirect "login",
             flash "Registration successful. Please login." "success"
                   (set_db d w))
        | IntegrityError => (abort 500, w)
        end
  | GET => (render_template "register.html" [], w)
  end.

(** Lines 155-163 of [login]: the check of the password and of the
    blocked flag, once [user] is known. *)
Definition login_check (user : option User.t) (password : string)
    (w : World) : Response * World :=
  match user with
  | Some user =>
      if check_password_hash (User.password_hash user) password then
        if User.blocked user && negb (User.is_admin user) then
          (redirect "login",
           flash "Your account is blocked. Contact admin." "error" w)
        else
          (redirect "index",
           flash "Login successful." "success" (login_user user w))
      else
        (redirect "login", flash "Invalid username or password." "error" w)
  | None =>
      (redirect "login", flash "Invalid username or password." "error" w)
  end.

Definition login (req : Request) (env : Env) (w : World)
    : Response * World :=
  match method req with
  | POST =>
      let username := form_field "username" req in
      let password := or_else (form_get "password" req) "" in
      let role := Py.strip (or_else (form_get "role" req) "user") in
      if bool_decide (role = "admin") then
        if negb (bool_decide (username = ADMIN_USERNAME cfg)) then
          (redirect "login", flash "Invalid admin credentials." "error" w)
        else
          match user_by_username (ADMIN_USERNAME cfg) (db w) with
          | Some user => login_check (Some user) password w
          | None =>
              match add_user (ADMIN_USERNAME cfg) (ADMIN_EMAIL cfg)
                      (generate_password_hash (salt env)
                                              (ADMIN_PASSWORD cfg))
                      true (utcnow env) (db w) with
              | Committed user d =>
                  login_check (Some user) password (set_db d w)
              | IntegrityError => (abort 500, w)
              end
          end
      else login_check (user_by_username username (db w)) password w
  | GET => (render_template "login.html" [], w)
  end.

Definition logout : World → Response * World :=
  login_required (λ _ w,
    (redirect "login", flash "Logged out." "info" (logout_user w))).

Definition upload_avatar (req : Request) (env : Env)
    : World → Response * World :=
  login_required (λ cu w,
    let file := files_get "avatar" req in
    match save_image file env w with
    | OSError => (abort 500, w)
    | Returns url w1 =>
        if bool_decide (url = "") then
          (redirect "profile", flash "Invalid image format." "error" w1)
        else
          (redirect "profile",
           flash "Avatar updated." "success"
                 (set_db (update_avatar_url (User.id cu) url (db w1)) w1))
    end).

Definition create_post (req : Request) (env : Env)
    : World → Response * World :=
  login_required (λ cu w,
    match method req with
    | POST =>
        let content := form_field "content" req in
        let image := files_get "image" req in
        if bool_decide (content = "") && negb (truthy_file image) then
          (redirect "create_post",
           flash "Write something or add an image." "error" w)
        else
          match (if truthy_file image then save_image image env w
                 else Returns "" w) with
          | OSError => (abort 500, w)
          | Returns image_url w1 =>
              let '(_, d) :=
                add_post content image_url (User.id cu) (utcnow env)
                         (db w1) in
              (redirect "index",
               flash "Post created." "success" (set_db d w1))
          end
    | GET => (render_template "create_post.html" [], w)
    end).

Definition like_post (post_id : nat) (env : Env)
    : World → Response * World :=
  login_required (λ cu w,
    match get_or_404 (get_post post_id (db w)) post_id with
    | OverflowError => (abort 500, w)
    | NotFound => (abort 404, w)
    | Found post =>
        if Post.is_deleted post then
          (jsonify [("ok", JBool false); ("message", JStr "Post removed")]
                   400, w)
        else
          match like_by (User.id cu) post_id (db w) with
          | Some existing =>
              let d := delete_like existing (db w) in
              (jsonify [("ok", JBool true); ("liked", JBool false);
                        ("count", JNum (length (post_likes post_id d)))]
                       200,
               set_db d w)
          | None =>
              match add_like (User.id cu) post_id (utcnow env) (db w) with
              | Committed _ d =>
                  (jsonify [("ok", JBool true); ("liked", JBool true);
                            ("count",
                             JNum (length (post_likes post_id d)))]
                           200,
                   set_db d w)
              | IntegrityError => (abort 500, w)
              end
          end
    end).

Definition comment_post (post_id : nat) (req : Request) (env : Env)
    : World → Response * World :=
  login_required (λ cu w,
    match get_or_404 (get_post post_id (db w)) post_id with
    | OverflowError => (abort 500, w)
    | NotFound => (abort 404, w)
    | Found post =>
        if Post.is_deleted post then
          (redirect "index", flash "Post removed." "error" w)
        else
          let content := form_field "content" req in
          if bool_decide (content = "") then
            (redirect "index", flash "Comment cannot be empty." "error" w)
          else
            let '(_, d) :=
              add_comment content (User.id cu) post_id (utcnow env)
                          (db w) in
            (redirect "index", flash "Comment added." "success"
                                     (set_db d w))
    end).

(** [admin_only()], asked inside a [@login_required] view. *)
Definition admin_only (cu : User.t) : bool := User.is_admin cu.

Definition admin_block_user (user_id : nat) : World → Response * World :=
  login_required (λ cu w,
    if negb (admin_only cu) then (jsonify [("ok", JBool false)] 403, w)
    else
      match get_or_404 (get_user user_id (db w)) user_id with
      | OverflowError => (abort 500, w)
      | NotFound => (abort 404, w)
      | Found user =>
          if User.is_admin user then
            (jsonify [("ok", JBool false);
                      ("message", JStr "Cannot block admin")] 400, w)
          else
            (jsonify [("ok", JBool true)] 200,
             set_db (update_blocked user_id true (db w)) w)
      end).

Definition admin_unblock_user (user_id : nat) : World → Response * World :=
  login_required (λ cu w,
    if negb (admin_only cu) then (jsonify [("ok", JBool false)] 403, w)
    else
      match get_or_404 (get_user user_id (db w)) user_id with
      | OverflowError => (abort 500, w)
      | NotFound => (abort 404, w)
      | Found user =>
          (jsonify [("ok", JBool true)] 200,
           set_db (update_blocked user_id false (db w)) w)
      end).

Definition admin_delete_post (post_id : nat) : World → Response * World :=
  login_required (λ cu w,
    if negb (admin_only cu) then (jsonify [("ok", JBool false)] 403, w)
    else
      match get_or_404 (get_post post_id (db w)) post_id with
      | OverflowError => (abort 500, w)
      | NotFound => (abort 404, w)
      | Found post =>
          (jsonify [("ok", JBool true)] 200,
           set_db (update_is_deleted post_id true (db w)) w)
      end).

Definition admin_restore_post (post_id : nat) : World → Response * World :=
  login_required (λ cu w,
    if negb (admin_only cu) then (jsonify [("ok", JBool false)] 403, w)
    else
      match get_or_404 (get_post post_id (db w)) post_id with
      | OverflowError => (abort 500, w)
      | NotFound => (abort 404, w)
      | Found post =>
          (jsonify [("ok", JBool true)] 200,
           set_db (update_is_deleted post_id false (db w)) w)
      end).

(** [init_db()], after [db.create_all()]. An [IntegrityError] of the
    commit is [None]. *)
Definition init_db (env : Env) (d : DB) : option DB :=
  match user_by_username (ADMIN_USERNAME cfg) d with
  | Some _ => Some d
  | None =>
      match add_user (ADMIN_USERNAME cfg) (ADMIN_EMAIL cfg)
              (generate_password_hash (salt env) (ADMIN_PASSWORD cfg))
              true (utcnow env) d with
      | Committed _ d' => Some d'
      | IntegrityError => None
      end
  end.

End Views.

(** The row [login] and [init_db] insert for the administrator. *)
Definition admin_row `{Werkzeug} (cfg : Config) (env : Env) (d : DB)
    : User.t :=
  User.mk (fresh_id (User.id <$> users d)) (ADMIN_USERNAME cfg)
          (ADMIN_EMAIL cfg)
          (generate_password_hash (salt env) (ADMIN_PASSWORD cfg))
          true false "" (utcnow env).

(** ** A runnable instance of the werkzeug functions

    [secure_filename] follows werkzeug on ASCII file names of a POSIX
    host: path separators become spaces, runs of white space become one
    underscore, every character outside [A-Za-z0-9_.-] is dropped, and
    dots and underscores are stripped from both ends. Code points from
    128 on are dropped. The digest is a stand-in that only has the
    layout [method$salt$hash] of a werkzeug digest.
    [send_from_directory] serves a directory of plain files, without
    subdirectories, as the views fill it. The instance serves
    to run the views on concrete requests; the general theorems hold for
    every instance of [Werkzeug]. *)
Module Stub.

Definition is_filename_char (c : ascii) : bool :=
  let n := Z.of_N (N_of_ascii c) in
  ((48 <=? n) && (n <=? 57)) || ((65 <=? n) && (n <=? 90))
  || ((97 <=? n) && (n <=? 122)) || (n =? 95) || (n =? 46) || (n =? 45).

(** ["_".join(s.split())], with [pending] telling that a run of white
    space follows a word already written. *)
Fixpoint join_words (started pending : bool) (s : string) : string :=
  match s with
  | EmptyString => EmptyString
  | String c t =>
      if Py.isspace c || bool_decide (c = "/"%char)
      then join_words started started t
      else if pending then String "_" (String c (join_words true false t))
      else String c (join_words true false t)
  end.

Fixpoint keep (f : ascii → bool) (s : string) : string :=
  match s with
  | EmptyString => EmptyString
  | String c t => if f c then String c (keep f t) else keep f t
  end.

Fixpoint lstrip_chars (f : ascii → bool) (s : string) : string :=
  match s with
  | EmptyString => EmptyString
  | String c t => if f c then lstrip_chars f t else s
  end.

Definition strip_chars (f : ascii → bool) (s : string) : string :=
  String.rev (lstrip_chars f (String.rev (lstrip_chars f s))).

Definition is_dot_or_underscore (c : ascii) : bool :=
  bool_decide (c = "."%char) || bool_decide (c = "_"%char).

Definition secure_filename (s : string) : string :=
  let ascii_only := keep (λ c, Z.of_N (N_of_ascii c) <? 128) s in
  strip_chars is_dot_or_underscore
    (keep is_filename_char (join_words false false ascii_only)).

Definition generate_password_hash (salt password : string) : string :=
  "plain$" +:+ salt +:+ "$" +:+ password.

(** The text after the first [c], if [c] occurs. *)
Fixpoint after_first (c : ascii) (s : string) : option string :=
  match s with
  | EmptyString => None
  | String d t => if bool_decide (d = c) then Some t else after_first c t
  end.

Definition check_password_hash (pwhash password : string) : bool :=
  match after_first "$" pwhash ≫= after_first "$" with
  | Some hashval => bool_decide (hashval = password)
  | None => false
  end.

(** [path.split("/")] *)
Fixpoint components (path : string) : list string :=
  match path with
  | EmptyString => [EmptyString]
  | String c t =>
      if bool_decide (c = "/"%char) then EmptyString :: components t
      else
        match components t with
        | comp :: rest => String c comp :: rest
        | [] => [String c EmptyString]
        end
  end.

(** One round of the loop of [posixpath.normpath] on a relative path;
    [new_comps] is kept with its last element first. *)
Definition push_component (new_comps : list string) (comp : string)
    : list string :=
  if bool_decide (comp = "") || bool_decide (comp = ".") then new_comps
  else if bool_decide (comp = "..") then
    match new_comps with
    | [] => [comp]
    | last :: rest =>
        if bool_decide (last = "..") then comp :: new_comps else rest
    end
  else comp :: new_comps.

(** [posixpath.normpath] on a relative path. *)
Definition normpath (path : string) : string :=
  match rev (foldl push_component [] (components path)) with
  | [] => "."
  | comps => String.concat "/" comps
  end.

(** [send_from_directory] on a directory without subdirectories:
    [safe_join] normalises the path and refuses one that is absolute or
    leaves the directory; what is left names a file only if it is a
    plain name of the directory. *)
Definition send_from_directory (directory : gmap string string)
    (path : string) : option string :=
  if String.prefix "/" path then None
  else
    let filename := normpath path in
    if bool_decide (filename = "..") || String.prefix "../" filename
    then None
    else if Py.contains "/" filename || bool_decide (filename = ".")
    then None
    else directory !! filename.

Definition werkzeug : Werkzeug :=
  Build_Werkzeug secure_filename generate_password_hash
                 check_password_hash send_from_directory.

End Stub.

(** ** Worlds and requests used in the examples *)

Definition empty_db : DB :=
  {| users := []; posts := []; comments := []; likes := [] |}.

Definition empty_world : World :=
  {| db := empty_db; uploads := ∅; session := None; flashes := [] |}.

Definition post_request (fields : list (string * string)) : Request :=
  {| method := POST; form := fields; files := [] |}.

Definition upload_request (fields : list (string * string))
    (name : string) (file : FileStorage) : Request :=
  {| method := POST; form := fields; files := [(name, file)] |}.

(** A POSIX host in the zone UTC, where [timestamp()] reads the naive
    UTC time as what it is, on a file system whose names hold 255 bytes
    ([NAME_MAX]). *)
Definition utc_host : Host :=
  {| int_timestamp := Py.int_of_micros;
     can_save := λ name, bool_decide (Py.fsencode_len name ≤ 255)%nat |}.

Definition at_time (micros : Z) : Env :=
  {| utcnow := micros; salt := "s"; host := utc_host |}.

(** The views at the default configuration and the runnable werkzeug. *)
Definition run_register := @register Stub.werkzeug.
Definition run_login := @login Stub.werkzeug default_config.
Definition run_create_post := @create_post Stub.werkzeug.
Definition run_save_image := @save_image Stub.werkzeug.

(** The scenario of the specification: alice registers, logs in, writes
    a post. *)
Definition alice_world : World :=
  let w1 := (run_register
               (post_request [("username", "alice"); ("email", "a@x.com");
                              ("password", "pw1")])
               (at_time 1000000) empty_world).2 in
  let w2 := (run_login
               (post_request [("username", "alice"); ("password", "pw1");
                              ("role", "user")])
               (at_time 2000000) w1).2 in
  (run_create_post (post_request [("content", "hello")]) (at_time 3000000)
                   w2).2.

(** Alice has liked her post. *)
Definition liked_world : World :=
  (like_post 1 (at_time 4000000) alice_world).2.

(** The smallest id that is no integer of the store: the id of the
    request [POST /like/9223372036854775808]. *)
Definition overflow_id : nat := Z.to_nat (MAX_INTEGER + 1).

(** A file name of 260 letters, more than a file name of [utc_host]
    holds. *)
Definition long_name : string :=
  String.concat "" (replicate 26 "abcdefghij").

(** A moderator has soft-deleted the post. *)
Definition removed_world : World :=
  set_db (update_is_deleted 1 true (db alice_world)) alice_world.

(** Alice, logged in, submits a post form without text and with a file
    that is not an image. *)
Definition rejected_image_request : Request :=
  upload_request [("content", "   ")] "image"
                 {| filename := "notes.exe"; stream := "MZ" |}.

(** Bob registered with the address that [config.py] reserves for the
    administrator, in a store that has no administrator yet. *)
Definition admin_email_taken_world : World :=
  (run_register
     (post_request [("username", "bob"); ("email", "admin@amrita.edu");
                    ("password", "pw2")])
     (at_time 1000000) empty_world).2.

Definition admin_login_request (password : string) : Request :=
  post_request [("username", "admin"); ("password", password);
                ("role", "admin")].

(** Alice has been blocked and holds no session. *)
Definition blocked_world : World :=
  set_session None (set_db (update_blocked 1 true (db alice_world)) alice_world).

(** Two posts by alice; the administrator, provisioned by the first
    admin login, holds the session. *)
Definition admin_session_world : World :=
  let w1 := (run_create_post (post_request [("content", "again")])
                             (at_time 3500000) alice_world).2 in
  (run_login (admin_login_request "Admin@12345") (at_time 4000000) w1).2.

(** The administrator has soft-deleted the first post. *)
Definition moderated_world : World :=
  (admin_delete_post 1 admin_session_world).2.

Definition admin_account : User.t :=
  User.mk 2 "admin" "admin@amrita.edu" "plain$s$Admin@12345" true false ""
          4000000.

(** A store whose administrator carries the blocked flag; no view sets
    it on an administrator, the row is written by hand. *)
Definition blocked_admin_world : World :=
  set_session None
    (set_db (update_blocked 2 true (db admin_session_world))
            admin_session_world).

(** ** The views that only read *)

(** What a view hands back: a response as above, one of the two pages
    whose template is given more than a list of posts, or the content of
    a file. *)
Inductive Page :=
| response (r : Response)
| profile_html (total_posts total_comments total_likes : nat)
| admin_html (listed_users : list User.t) (listed_posts : list Post.t)
| sent_file (content : string).

Definition to_page (rw : Response * World) : Page * World :=
  (response rw.1, rw.2).

Definition about (w : World) : Response * World :=
  (render_template "about.html" [], w).

(** [Post.query.filter_by(user_id=uid, is_deleted=False).count()] *)
Definition count_live_posts (uid : nat) (d : DB) : nat :=
  length (filter (λ p, Post.user_id p = uid ∧ Post.is_deleted p = false)
                 (posts d)).

(** [Comment.query.filter_by(user_id=uid, is_deleted=False).count()] *)
Definition count_live_comments (uid : nat) (d : DB) : nat :=
  length (filter (λ c, Comment.user_id c = uid ∧ Comment.is_deleted c = false)
                 (comments d)).

(** [Like.query.filter_by(user_id=uid).count()] *)
Definition count_likes (uid : nat) (d : DB) : nat :=
  length (filter (λ l, Like.user_id l = uid) (likes d)).

Definition profile (w : World) : Page * World :=
  match current_user w with
  | None => to_page (unauthorized w)
  | Some cu =>
      (profile_html (count_live_posts (User.id cu) (db w))
                    (count_live_comments (User.id cu) (db w))
                    (count_likes (User.id cu) (db w)),
       w)
  end.

(** [ORDER BY user.created_at DESC] *)
Definition user_created_desc (u v : User.t) : Prop :=
  User.created_at v ≤ User.created_at u.

Global Instance user_created_desc_dec : RelDecision user_created_desc.
Proof. intros u v. unfold user_created_desc. apply _. Defined.

Definition admin (w : World) : Page * World :=
  match current_user w with
  | None => to_page (unauthorized w)
  | Some cu =>
      if negb (admin_only cu) then
        (response (redirect "index"), flash "Admin only." "error" w)
      else
        (admin_html (merge_sort user_created_desc (users (db w)))
                    (merge_sort created_desc (posts (db w))),
         w)
  end.

(** [/static/uploads/<path:filename>], for a request without the
    headers of a conditional or partial request. The view has no
    [@login_required] and does not ask for the user. *)
Definition uploaded_file `{Werkzeug} (filename : string) (w : World)
    : Page * World :=
  match send_from_directory (uploads w) filename with
  | Some content => (sent_file content, w)
  | None => (response (abort 404), w)
  end.

(** ** The routes *)

(** One constructor per [@app.route] of [app.py], with what the request
    carries. *)
Inductive Call :=
| call_index
| call_about
| call_register (req : Request) (env : Env)
| call_login (req : Request) (env : Env)
| call_logout
| call_profile
| call_upload_avatar (req : Request) (env : Env)
| call_create_post (req : Request) (env : Env)
| call_like_post (post_id : nat) (env : Env)
| call_comment_post (post_id : nat) (req : Request) (env : Env)
| call_admin
| call_admin_block_user (user_id : nat)
| call_admin_unblock_user (user_id : nat)
| call_admin_delete_post (post_id : nat)
| call_admin_restore_post (post_id : nat)
| call_uploaded_file (filename : string).

Definition serve `{Werkzeug} (cfg : Config) (c : Call) (w : World)
    : Page * World :=
  match c with
  | call_index => to_page (index w)
  | call_about => to_page (about w)
  | call_register req env => to_page (register req env w)
  | call_login req env => to_page (login cfg req env w)
  | call_logout => to_page (logout w)
  | call_profile => profile w
  | call_upload_avatar req env => to_page (upload_avatar req env w)
  | call_create_post req env => to_page (create_post req env w)
  | call_like_post post_id env => to_page (like_post post_id env w)
  | call_comment_post post_id req env =>
      to_page (comment_post post_id req env w)
  | call_admin => admin w
  | call_admin_block_user user_id => to_page (admin_block_user user_id w)
  | call_admin_unblock_user user_id => to_page (admin_unblock_user user_id w)
  | call_admin_delete_post post_id => to_page (admin_delete_post post_id w)
  | call_admin_restore_post post_id => to_page (admin_restore_post post_id w)
  | call_uploaded_file filename => uploaded_file filename w
  end.

(** Which routes have a statement that writes to a table, to the upload
    directory or to the session. *)
Definition writes_users (c : Call) : bool :=
  match c with
  | call_register _ _ | call_login _ _ | call_upload_avatar _ _
  | call_admin_block_user _ | call_admin_unblock_user _ => true
  | _ => false
  end.

Definition writes_posts (c : Call) : bool :=
  match c with
  | call_create_post _ _ | call_admin_delete_post _
  | call_admin_restore_post _ => true
  | _ => false
  end.

Definition writes_comments (c : Call) : bool :=
  match c with call_comment_post _ _ _ => true | _ => false end.

Definition writes_likes (c : Call) : bool :=
  match c with call_like_post _ _ => true | _ => false end.

Definition writes_uploads (c : Call) : bool :=
  match c with
  | call_upload_avatar _ _ | call_create_post _ _ => true
  | _ => false
  end.

Definition writes_session (c : Call) : bool :=
  match c with call_login _ _ | call_logout => true | _ => false end.

(** What [update_blocked] does to one row. *)
Definition blocked_as (uid : nat) (b : bool) (v : User.t) : User.t :=
  if bool_decide (User.id v = uid) then User.set_blocked b v else v.

(** What [update_avatar_url] does to one row. *)
Definition avatar_as (uid : nat) (url : string) (v : User.t) : User.t :=
  if bool_decide (User.id v = uid) then User.set_avatar_url url v else v.

(** The routes an anonymous caller is let into: [about], [register],
    [login] and [uploaded_file] have no [@login_required] and do not ask
    for the user. *)
Definition open_to_anonymous (c : Call) : bool :=
  match c with
  | call_about | call_register _ _ | call_login _ _
  | call_uploaded_file _ => true
  | _ => false
  end.

(** The four moderation routes. *)
Definition moderation_route (c : Call) : bool :=
  match c with
  | call_admin_block_user _ | call_admin_unblock_user _
  | call_admin_delete_post _ | call_admin_restore_post _ => true
  | _ => false
  end.

(** The world after a sequence of requests. *)
Definition serve_all `{Werkzeug} (cfg : Config) (cs : list Call) (w : World)
    : World :=
  foldl (λ w c, (serve cfg c w).2) w cs.

(** The worlds the application gets to: from the empty store and no
    session, by [init_db] (which [__main__] runs at start-up; here it may
    run at any time) and by serving requests. *)
Inductive reachable `{Werkzeug} (cfg : Config) : World → Prop :=
| reachable_empty : reachable cfg empty_world
| reachable_init_db (env : Env) (w : World) (d : DB) :
    reachable cfg w → init_db cfg env (db w) = Some d →
    reachable cfg (set_db d w)
| reachable_serve (c : Call) (w : World) :
    reachable cfg w → reachable cfg (serve cfg c w).2.

(** Every account with the admin flag has the configured admin name. *)
Definition admins_named (cfg : Config) (d : DB) : Prop :=
  ∀ u, u ∈ users d → User.is_admin u = true →
       User.username u = ADMIN_USERNAME cfg.

(** No account with the admin flag is blocked. *)
Definition admins_unblocked (d : DB) : Prop :=
  ∀ u, u ∈ users d → User.is_admin u = true → User.blocked u = false.

(** The three properties of a store that go together through every
    request. *)
Definition store_invariant (cfg : Config) (d : DB) : Prop :=
  db_constraints d ∧ admins_named cfg d ∧ admins_unblocked d.

(** The id in the session, if any, is the id of an account. *)
Definition session_valid (w : World) : Prop :=
  ∀ sid, session w = Some sid → sid ∈ User.id <$> users (db w).

(** The columns of a user and of a post that no view assigns after the
    insertion. *)
Definition user_core (u : User.t)
    : nat * string * string * string * bool * Z :=
  (User.id u, User.username u, User.email u, User.password_hash u,
   User.is_admin u, User.created_at u).

Definition post_core (p : Post.t) : nat * string * string * nat * Z :=
  (Post.id p, Post.content p, Post.image_url p, Post.user_id p,
   Post.created_at p).

(** Alice has registered and not logged in yet. *)
Definition alice_registered_world : World :=
  (run_register
     (post_request [("username", "alice"); ("email", "a@x.com");
                    ("password", "pw1")])
     (at_time 1000000) empty_world).2.

Definition alice_login_request : Request :=
  post_request [("username", "alice"); ("password", "pw1"); ("role", "user")].

Definition alice_account : User.t :=
  User.mk 1 "alice" "a@x.com" "plain$s$pw1" false false "" 1000000.

(** Carol registers and logs in on the store where alice has liked her
    post. *)
Definition carol_register_request : Request :=
  post_request [("username", "carol"); ("email", "c@x.com");
                ("password", "pw3")].

Definition carol_login_request : Request :=
  post_request [("username", "carol"); ("password", "pw3")].

Definition liked_carol_world : World :=
  let w1 := (run_register carol_register_request (at_time 4100000)
                          liked_world).2 in
  (run_login carol_login_request (at_time 4200000) w1).2.

Definition carol_account : User.t :=
  User.mk 2 "carol" "c@x.com" "plain$s$pw3" false false "" 4100000.

(** The store [init_db] leaves at the first start. *)
Definition booted_db : DB :=
  {| users := [User.mk 1 "admin" "admin@amrita.edu" "plain$s$Admin@12345"
                       true false "" 500000];
     posts := []; comments := []; likes := [] |}.

(** Carol, a second member, logged in on the store of [alice_world]. *)
Definition carol_world : World :=
  let w1 := (run_register
               (post_request [("username", "carol"); ("email", "c@x.com");
                              ("password", "pw3")])
               (at_time 3100000) alice_world).2 in
  (run_login (post_request [("username", "carol"); ("password", "pw3")])
             (at_time 3200000) w1).2.

(** * Properties *)

(** ** The string methods on sample inputs *)

Example normpath_ex : Stub.normpath "a//b/./../cat.png" = "a/cat.png".
Proof. reflexivity. Qed.

Example send_from_directory_ex :
  Stub.send_from_directory (<["cat.png" := "bytes"]> ∅) "x/../cat.png"
  = Some "bytes"
  ∧ Stub.send_from_directory (<["cat.png" := "bytes"]> ∅) "../app.py" = None
  ∧ Stub.send_from_directory (<["cat.png" := "bytes"]> ∅) "dog.png" = None.
Proof. vm_compute. done. Qed.

Example strip_ex : Py.strip "  al ice " = "al ice".
Proof. reflexivity. Qed.

Example strip_blank_ex : Py.strip "   " = "".
Proof. reflexivity. Qed.

Example lower_ex : Py.lower "A@X.Com" = "a@x.com".
Proof. reflexivity. Qed.

Example rsplit1_ex : Py.rsplit1 "." "a.tar.GZ" = Some ("a.tar", "GZ").
Proof. reflexivity. Qed.

Example rsplit1_no_dot_ex : Py.rsplit1 "." "png" = None.
Proof. reflexivity. Qed.

Example splitext_ex : Py.splitext "cat.png" = ("cat", ".png").
Proof. reflexivity. Qed.

Example splitext_leading_dot_ex : Py.splitext ".png" = (".png", "").
Proof. reflexivity. Qed.

Example splitext_path_ex : Py.splitext "a.b/..c.d" = ("a.b/..c", ".d").
Proof. reflexivity. Qed.

Example str_of_int_ex : Py.str_of_int 1700000000 = "1700000000".
Proof. reflexivity. Qed.

Example int_of_micros_ex : Py.int_of_micros 1700000000999999 = 1700000000.
Proof. reflexivity. Qed.

Example allowed_image_ex :
  allowed_image "cat.PNG" = true ∧ allowed_image "cat.exe" = false
  ∧ allowed_image "png" = false ∧ allowed_image "a.png.txt" = false.
Proof. by vm_compute. Qed.

Example secure_filename_ex :
  Stub.secure_filename "../../etc/pass wd.PNG" = "etc_pass_wd.PNG"
  ∧ Stub.secure_filename "my cat.png" = "my_cat.png"
  ∧ Stub.secure_filename "_.png" = "png".
Proof. by vm_compute. Qed.

(** The scenario of the specification, run on the views. *)
Example scenario_ex :
  (index alice_world).1
    = render_template "index.html" [Post.mk 1 "hello" "" 1 3000000 false]
  ∧ (like_post 1 (at_time 4000000) alice_world).1
    = jsonify [("ok", JBool true); ("liked", JBool true); ("count", JNum 1)]
              200
  ∧ (like_post 1 (at_time 5000000) liked_world).1
    = jsonify [("ok", JBool true); ("liked", JBool false); ("count", JNum 0)]
              200.
Proof. by vm_compute. Qed.

(** ** Lookups in a table *)

Section FindLemmas.
Context {A : Type}.
Implicit Types (f : A → bool) (l : list A).

Lemma find_none_iff f l :
  find f l = None ↔ ∀ x, x ∈ l → f x = false.
Proof.
  induction l as [|a l IH]; simpl.
  - split; [intros _ x Hx; by apply elem_of_nil in Hx | done].
  - destruct (f a) eqn:Ha.
    + split; [done | intros Hall].
      specialize (Hall a (list_elem_of_here _ _)). congruence.
    + rewrite IH. split.
      * intros Hall x [->|Hx]%elem_of_cons; auto.
      * intros Hall x Hx. apply Hall. by apply list_elem_of_further.
Qed.

Lemma find_existsb_false f l : find f l = None → existsb f l = false.
Proof.
  induction l as [|a l IH]; simpl; [done|].
  destruct (f a); [done | auto].
Qed.

Lemma existsb_false_find f l : existsb f l = false → find f l = None.
Proof.
  induction l as [|a l IH]; simpl; [done|].
  destruct (f a); [done | auto].
Qed.

Lemma find_some_elem f l x : find f l = Some x → x ∈ l ∧ f x = true.
Proof.
  induction l as [|a l IH]; simpl; [done|].
  destruct (f a) eqn:Ha.
  - intros [= ->]. split; [apply list_elem_of_here | done].
  - intros [Hx Hf]%IH. split; [by apply list_elem_of_further | done].
Qed.

Lemma find_snoc_none f l x :
  find f l = None → find f (l ++ [x]) = if f x then Some x else None.
Proof.
  induction l as [|a l IH]; simpl; [done|].
  destruct (f a); [done | auto].
Qed.

Lemma find_app_some f l k x : find f l = Some x → find f (l ++ k) = Some x.
Proof.
  induction l as [|a l IH]; simpl; [done|].
  destruct (f a); [done | auto].
Qed.

Lemma find_is_some f l x : x ∈ l → f x = true → is_Some (find f l).
Proof.
  intros Hx Hf. destruct (find f l) eqn:Hfind; [by eexists|].
  rewrite find_none_iff in Hfind. specialize (Hfind x Hx). congruence.
Qed.

(** A key that occurs once finds its row. *)
Lemma find_unique_key {K} `{EqDecision K} (key : A → K) l x :
  NoDup (key <$> l) → x ∈ l →
  find (λ y, bool_decide (key y = key x)) l = Some x.
Proof.
  induction l as [|a l IH]; simpl.
  - intros _ Hx. by apply elem_of_nil in Hx.
  - rewrite NoDup_cons. intros [Ha Hnd] [->|Hx]%elem_of_cons.
    + by rewrite bool_decide_eq_true_2.
    + rewrite bool_decide_eq_false_2; [auto|].
      intros Heq. apply Ha. rewrite Heq. by apply list_elem_of_fmap_2.
Qed.
End FindLemmas.

(** ** Fresh primary keys *)

Lemma fresh_id_not_in (ids : list nat) : fresh_id ids ∉ ids.
Proof.
  intros Hin. apply max_list_elem_of_le in Hin. unfold fresh_id in Hin. lia.
Qed.

Lemma filter_fresh_like (ls : list Like.t) :
  filter (λ l, Like.id l ≠ fresh_id (Like.id <$> ls)) ls = ls.
Proof.
  assert (Hfresh := fresh_id_not_in (Like.id <$> ls)).
  revert Hfresh. generalize (fresh_id (Like.id <$> ls)) as n.
  induction ls as [|l ls IH]; intros n Hn; [done|].
  rewrite fmap_cons, not_elem_of_cons in Hn. destruct Hn as [Hne Hn].
  rewrite filter_cons_True by done. f_equal. by apply IH.
Qed.

(** ** Worlds: what the setters keep *)

Lemma set_db_id (w : World) : set_db (db w) w = w.
Proof. by destruct w. Qed.

Lemma set_likes_id (d : DB) : set_likes (likes d) d = d.
Proof. by destruct d. Qed.

Lemma current_user_set_likes (ls : list Like.t) (w : World) :
  current_user (set_db (set_likes ls (db w)) w) = current_user w.
Proof. done. Qed.

(** ** Likes *)

Lemma add_like_fresh (uid pid : nat) (now : Z) (d : DB) :
  like_by uid pid d = None →
  add_like uid pid now d =
    let row := Like.mk (fresh_id (Like.id <$> likes d)) uid pid now in
    Committed row (set_likes (likes d ++ [row]) d).
Proof.
  unfold like_by, add_like. intros Hnone.
  by rewrite (find_existsb_false _ _ Hnone).
Qed.

(** ** [get_or_404] *)

Lemma get_or_404_missing {A : Type} (ident : nat) :
  Z.of_nat ident ≤ MAX_INTEGER → get_or_404 (@None A) ident = NotFound.
Proof. intros Hle. unfold get_or_404. by rewrite bool_decide_eq_true_2. Qed.

Lemma get_or_404_overflow {A : Type} (ident : nat) :
  MAX_INTEGER < Z.of_nat ident → get_or_404 (@None A) ident = OverflowError.
Proof.
  intros Hlt. unfold get_or_404. rewrite bool_decide_eq_false_2; [done|lia].
Qed.

Lemma get_or_404_found {A : Type} (row : option A) (ident : nat) (r : A) :
  get_or_404 row ident = Found r → row = Some r.
Proof.
  unfold get_or_404. destruct row; [by intros [= ->]|]. by case_bool_decide.
Qed.

(** On a store whose keys are integers of SQLite, the lookup answers as
    [sqlite3] does, which tests the bound before it looks for the row. *)
Lemma get_or_404_bound_first_post (pid : nat) (d : DB) :
  keys_in_range d →
  get_or_404 (get_post pid d) pid
  = get_or_404_bound_first (get_post pid d) pid.
Proof.
  intros [_ Hposts]. unfold get_or_404, get_or_404_bound_first, get_post.
  destruct (find _ (posts d)) as [p|] eqn:Hfind; [|by case_bool_decide].
  apply find_some in Hfind as [Hin Hid].
  apply bool_decide_eq_true_1 in Hid. subst pid.
  rewrite bool_decide_eq_true_2; [done|]. apply Hposts, list_elem_of_In, Hin.
Qed.

Lemma get_or_404_bound_first_user (uid : nat) (d : DB) :
  keys_in_range d →
  get_or_404 (get_user uid d) uid
  = get_or_404_bound_first (get_user uid d) uid.
Proof.
  intros [Husers _]. unfold get_or_404, get_or_404_bound_first, get_user.
  destruct (find _ (users d)) as [u|] eqn:Hfind; [|by case_bool_decide].
  apply find_some in Hfind as [Hin Hid].
  apply bool_decide_eq_true_1 in Hid. subst uid.
  rewrite bool_decide_eq_true_2; [done|]. apply Husers, list_elem_of_In, Hin.
Qed.

(** The id of the request [POST /like/9223372036854775808]. *)
Lemma overflow_id_above : MAX_INTEGER < Z.of_nat overflow_id.
Proof. unfold overflow_id, MAX_INTEGER. lia. Qed.

Section LikeProperties.
Context (pid : nat) (w : World) (cu : User.t) (post : Post.t).
Hypothesis Hcu : current_user w = Some cu.

Lemma like_post_missing (env : Env) :
  get_post pid (db w) = None → Z.of_nat pid ≤ MAX_INTEGER →
  like_post pid env w = (abort 404, w).
Proof.
  intros Hpost Hle. unfold like_post, login_required.
  by rewrite Hcu, Hpost, get_or_404_missing.
Qed.

Lemma like_post_overflow (env : Env) :
  get_post pid (db w) = None → MAX_INTEGER < Z.of_nat pid →
  like_post pid env w = (abort 500, w).
Proof.
  intros Hpost Hlt. unfold like_post, login_required.
  by rewrite Hcu, Hpost, get_or_404_overflow.
Qed.

Lemma like_post_removed (env : Env) :
  get_post pid (db w) = Some post → Post.is_deleted post = true →
  like_post pid env w =
    (jsonify [("ok", JBool false); ("message", JStr "Post removed")] 400, w).
Proof.
  intros Hpost Hdel. unfold like_post, login_required.
  rewrite Hcu, Hpost. cbn [get_or_404]. by rewrite Hdel.
Qed.

Hypothesis Hpost : get_post pid (db w) = Some post.
Hypothesis Hlive : Post.is_deleted post = false.

(** The first toggle of a user without a like inserts one. *)
Lemma like_post_creates (env : Env) :
  like_by (User.id cu) pid (db w) = None →
  let row := Like.mk (fresh_id (Like.id <$> likes (db w))) (User.id cu) pid
                     (utcnow env) in
  like_post pid env w =
    (jsonify [("ok", JBool true); ("liked", JBool true);
              ("count", JNum (S (length (post_likes pid (db w)))))] 200,
     set_db (set_likes (likes (db w) ++ [row]) (db w)) w).
Proof.
  intros Hnone row. unfold like_post, login_required.
  rewrite Hcu, Hpost. cbn [get_or_404].
  rewrite Hlive, Hnone, add_like_fresh by done.
  cbv zeta. fold row. repeat f_equal.
  unfold post_likes. simpl. rewrite filter_app, filter_cons_True by done.
  rewrite filter_nil, length_app. simpl. lia.
Qed.

(** The toggle of a user with a like deletes the row found. *)
Lemma like_post_removes (env : Env) (existing : Like.t) :
  like_by (User.id cu) pid (db w) = Some existing →
  let d := delete_like existing (db w) in
  like_post pid env w =
    (jsonify [("ok", JBool true); ("liked", JBool false);
              ("count", JNum (length (post_likes pid d)))] 200,
     set_db d w).
Proof.
  intros Hsome d. unfold like_post, login_required.
  rewrite Hcu, Hpost. cbn [get_or_404]. by rewrite Hlive, Hsome.
Qed.
End LikeProperties.

(** C1, as amended: for a user who holds no like on an existing post
    that is not soft-deleted, two calls of [like_post] in succession
    answer liked=true with the count raised by one, then liked=false with
    the count the post had before the first call; after the second call
    the user holds no like on the post, and the likes table, and with it
    the whole world, is what it was. *)
Theorem toggle_like_twice_restores
    (pid : nat) (env1 env2 : Env) (w : World) (cu : User.t) (post : Post.t) :
  current_user w = Some cu →
  get_post pid (db w) = Some post →
  Post.is_deleted post = false →
  like_by (User.id cu) pid (db w) = None →
  let n := length (post_likes pid (db w)) in
  let first := like_post pid env1 w in
  let second := like_post pid env2 first.2 in
  first.1 = jsonify [("ok", JBool true); ("liked", JBool true);
                     ("count", JNum (S n))] 200
  ∧ second.1 = jsonify [("ok", JBool true); ("liked", JBool false);
                        ("count", JNum n)] 200
  ∧ like_by (User.id cu) pid (db second.2) = None
  ∧ likes (db second.2) = likes (db w)
  ∧ second.2 = w.
Proof.
  intros Hcu Hpost Hlive Hnone n first second.
  subst first second.
  rewrite (like_post_creates pid w cu post Hcu Hpost Hlive env1 Hnone).
  cbv zeta. simpl fst. simpl snd.
  set (row := Like.mk (fresh_id (Like.id <$> likes (db w))) (User.id cu) pid
                      (utcnow env1)).
  set (w1 := set_db (set_likes (likes (db w) ++ [row]) (db w)) w).
  assert (Hfound : like_by (User.id cu) pid (db w1) = Some row).
  { unfold like_by, w1. simpl. unfold like_by in Hnone.
    rewrite (find_snoc_none _ _ row Hnone). simpl.
    by rewrite !bool_decide_eq_true_2. }
  assert (Hdel : delete_like row (set_likes (likes (db w) ++ [row]) (db w))
                 = db w).
  { unfold delete_like. simpl. rewrite filter_app, filter_fresh_like.
    rewrite filter_cons_False by (simpl; tauto).
    rewrite filter_nil, app_nil_r. by destruct (db w). }
  rewrite (like_post_removes pid w1 cu post Hcu Hpost Hlive env2 row Hfound).
  cbv zeta. simpl fst. simpl snd. rewrite Hdel.
  split_and!; try done.
  unfold w1. simpl. by destruct w.
Qed.

(** Witness of C1: alice toggles her like on her post twice. *)
Lemma toggle_like_twice_restores_witness :
  let first := like_post 1 (at_time 4000000) alice_world in
  let second := like_post 1 (at_time 5000000) first.2 in
  first.1 = jsonify [("ok", JBool true); ("liked", JBool true);
                     ("count", JNum 1)] 200
  ∧ second.1 = jsonify [("ok", JBool true); ("liked", JBool false);
                        ("count", JNum 0)] 200
  ∧ like_by 1 1 (db second.2) = None
  ∧ likes (db second.2) = likes (db alice_world)
  ∧ second.2 = alice_world.
Proof.
  apply (toggle_like_twice_restores 1 (at_time 4000000) (at_time 5000000)
           alice_world
           (User.mk 1 "alice" "a@x.com" "plain$s$pw1" false false "" 1000000)
           (Post.mk 1 "hello" "" 1 3000000 false));
    reflexivity.
Defined.

(** C1, as stated, fails for a user who already holds a like: the first
    call removes it and the second creates one, so the second response
    reports liked=true and the user holds a like afterwards. *)
Lemma toggle_like_twice_counterexample :
  let w := liked_world in
  let first := like_post 1 (at_time 5000000) w in
  let second := like_post 1 (at_time 6000000) first.2 in
  current_user w = Some (User.mk 1 "alice" "a@x.com" "plain$s$pw1" false
                                 false "" 1000000)
  ∧ get_post 1 (db w) = Some (Post.mk 1 "hello" "" 1 3000000 false)
  ∧ second.1 = jsonify [("ok", JBool true); ("liked", JBool true);
                        ("count", JNum 1)] 200
  ∧ like_by 1 1 (db second.2) = Some (Like.mk 1 1 1 6000000).
Proof. vm_compute. done. Qed.

(** Within the integers of the store the refusals of [like_post] are
    the ones of the specification: for an authenticated caller and a
    post id up to [MAX_INTEGER], which is 2^63 - 1, [like_post] on an
    id without a post aborts with 404, and on a soft-deleted post
    answers 400 with ok=false and "Post removed"; these are the two
    cases of the specification's NotFoundError (missing or soft-deleted
    entity). In both the world is returned as it was: no like is
    created or removed. *)
Lemma like_post_not_found
    (pid : nat) (env : Env) (w : World) (cu : User.t) :
  current_user w = Some cu →
  Z.of_nat pid ≤ MAX_INTEGER →
  (get_post pid (db w) = None → like_post pid env w = (abort 404, w))
  ∧ (∀ post, get_post pid (db w) = Some post → Post.is_deleted post = true →
       like_post pid env w =
         (jsonify [("ok", JBool false); ("message", JStr "Post removed")] 400,
          w))
  ∧ ((get_post pid (db w) = None
      ∨ ∃ post, get_post pid (db w) = Some post
                ∧ Post.is_deleted post = true) →
     likes (db (like_post pid env w).2) = likes (db w)).
Proof.
  intros Hcu Hle. split_and!.
  - intros Hnone. by apply like_post_missing with cu.
  - intros post. by apply like_post_removed with cu.
  - intros [Hnone | (post & Hpost & Hdel)].
    + by rewrite (like_post_missing pid w cu Hcu env Hnone Hle).
    + by rewrite (like_post_removed pid w cu post Hcu env Hpost Hdel).
Qed.

(** Post 7 does not exist, and post 1 is soft-deleted in
    [removed_world]. *)
Lemma like_post_not_found_witness :
  like_post 7 (at_time 4000000) removed_world = (abort 404, removed_world)
  ∧ like_post 1 (at_time 4000000) removed_world =
      (jsonify [("ok", JBool false); ("message", JStr "Post removed")] 400,
       removed_world)
  ∧ likes (db (like_post 1 (at_time 4000000) removed_world).2) =
      likes (db removed_world).
Proof.
  assert (H7 : Z.of_nat 7 ≤ MAX_INTEGER) by (unfold MAX_INTEGER; lia).
  assert (H1 : Z.of_nat 1 ≤ MAX_INTEGER) by (unfold MAX_INTEGER; lia).
  pose proof (like_post_not_found 7 (at_time 4000000) removed_world
                (User.mk 1 "alice" "a@x.com" "plain$s$pw1" false false ""
                         1000000) eq_refl H7) as (Hmissing & _ & _).
  pose proof (like_post_not_found 1 (at_time 4000000) removed_world
                (User.mk 1 "alice" "a@x.com" "plain$s$pw1" false false ""
                         1000000) eq_refl H1) as (_ & Hremoved & Hframe).
  split_and!.
  - apply Hmissing. reflexivity.
  - apply (Hremoved (Post.mk 1 "hello" "" 1 3000000 true)); reflexivity.
  - apply Hframe. right.
    exists (Post.mk 1 "hello" "" 1 3000000 true). split; reflexivity.
Defined.

(** C2, the failing input: alice sends
    [POST /like/9223372036854775808]. No post has that id, which is
    above [MAX_INTEGER]; [sqlite3] cannot bind it to the query of
    [get_or_404], and the unhandled [OverflowError] is the response
    500, not the 404 of a missing post. The world is returned as it
    was. *)
Theorem like_post_overflow_is_unhandled :
  current_user alice_world
  = Some (User.mk 1 "alice" "a@x.com" "plain$s$pw1" false false "" 1000000)
  ∧ get_post overflow_id (db alice_world) = None
  ∧ like_post overflow_id (at_time 4000000) alice_world
    = (abort 500, alice_world)
  ∧ like_post overflow_id (at_time 4000000) alice_world
    ≠ (abort 404, alice_world).
Proof.
  assert (Hcu : current_user alice_world
                = Some (User.mk 1 "alice" "a@x.com" "plain$s$pw1" false false
                                "" 1000000)) by reflexivity.
  assert (Hposts : posts (db alice_world)
                   = [Post.mk 1 "hello" "" 1 3000000 false]) by reflexivity.
  assert (Hnone : get_post overflow_id (db alice_world) = None).
  { unfold get_post. rewrite Hposts. cbn [find Post.id].
    rewrite bool_decide_eq_false_2; [done|].
    unfold overflow_id, MAX_INTEGER. lia. }
  pose proof (like_post_overflow overflow_id alice_world _ Hcu
                (at_time 4000000) Hnone overflow_id_above) as Hlike.
  split_and!; [done|done|done|].
  rewrite Hlike. intros Heq. discriminate Heq.
Qed.

(** ** Strings *)

Lemma string_app_cons (c : ascii) (s t : string) :
  String c s +:+ t = String c (s +:+ t).
Proof. reflexivity. Qed.

Lemma string_app_nil_l (s : string) : "" +:+ s = s.
Proof. reflexivity. Qed.

Lemma string_length_app (s t : string) :
  String.length (s +:+ t) = (String.length s + String.length t)%nat.
Proof.
  induction s as [|c s IH]; [done|].
  rewrite string_app_cons. simpl. by rewrite IH.
Qed.

(** Cancellation of a common suffix. *)
Lemma string_app_inv_tail (e s t : string) : s +:+ e = t +:+ e → s = t.
Proof.
  revert t. induction s as [|c s IH]; intros [|d t] Heq.
  - done.
  - apply (f_equal String.length) in Heq.
    rewrite !string_length_app in Heq. simpl in Heq. lia.
  - apply (f_equal String.length) in Heq.
    rewrite !string_length_app in Heq. simpl in Heq. lia.
  - rewrite !string_app_cons in Heq. injection Heq as -> Heq.
    f_equal. by apply IH.
Qed.

Lemma rfind_contains (c : ascii) (s : string) :
  (0 <=? Py.rfind c s) = Py.contains c s.
Proof.
  induction s as [|d s IH]; simpl; [done|].
  rewrite <- IH. destruct (0 <=? Py.rfind c s) eqn:Hr.
  - rewrite orb_true_r. apply Z.leb_le. apply Z.leb_le in Hr. lia.
  - rewrite orb_false_r. by case_bool_decide.
Qed.

Lemma rfind_lower_bound (c : ascii) (s : string) : -1 ≤ Py.rfind c s.
Proof.
  induction s as [|d s IH]; simpl; [done|].
  destruct (0 <=? Py.rfind c s) eqn:Hr.
  - apply Z.leb_le in Hr. lia.
  - case_bool_decide; lia.
Qed.

(** [rsplit1] cuts at the last occurrence: the parts give the string
    back, and the second part is free of the separator. *)
Lemma rsplit1_spec (c : ascii) (s stem ext : string) :
  Py.rsplit1 c s = Some (stem, ext) →
  s = stem +:+ String c ext ∧ Py.contains c ext = false.
Proof.
  unfold Py.rsplit1. revert stem ext.
  induction s as [|d s IH]; intros stem ext; simpl; [done|].
  destruct (0 <=? Py.rfind c s) eqn:Hr.
  - apply Z.leb_le in Hr.
    replace (0 <=? Py.rfind c s + 1) with true
      by (symmetry; apply Z.leb_le; lia).
    replace (Z.to_nat (Py.rfind c s + 1)) with (S (Z.to_nat (Py.rfind c s)))
      by lia.
    replace (Z.to_nat (Py.rfind c s + 1 + 1))
      with (S (Z.to_nat (Py.rfind c s + 1))) by lia.
    simpl. intros [= <- <-].
    destruct (IH _ _ eq_refl) as [Hs Hext]. split; [|done].
    rewrite string_app_cons. by rewrite <- Hs.
  - case_bool_decide as Hcd; simpl; [|done].
    intros [= <- <-]. subst d. split; [done|].
    by rewrite <- rfind_contains.
Qed.

(** X18: [allowed_image] accepts exactly the names that have a dot and
    whose text after the last dot is, in lower case, one of png, jpg,
    jpeg, gif, webp: the case of the extension does not matter, a name
    without a dot is refused, and only the last extension counts. *)
Lemma allowed_image_iff (name : string) :
  allowed_image name = true ↔
  ∃ stem ext, name = stem +:+ "." +:+ ext ∧ Py.contains "." ext = false
              ∧ Py.lower ext ∈ ALLOWED_IMAGE_EXTENSIONS.
Proof.
  unfold allowed_image. split.
  - intros [_ Hext]%andb_true_iff.
    destruct (Py.rsplit1 "." name) as [[stem ext]|] eqn:Hsplit; [|done].
    apply bool_decide_eq_true_1 in Hext.
    destruct (rsplit1_spec _ _ _ _ Hsplit) as [-> Hfree]. by exists stem, ext.
  - intros (stem & ext & -> & Hfree & Hext).
    assert (Hsplit : Py.rsplit1 "." (stem +:+ "." +:+ ext) = Some (stem, ext)).
    { clear Hext. unfold Py.rsplit1.
      induction stem as [|d stem IH];
        rewrite ?string_app_cons, ?string_app_nil_l in *; simpl.
      - rewrite rfind_contains, Hfree. simpl. done.
      - destruct (0 <=? Py.rfind "." (stem +:+ String "." ext)) eqn:Hr;
          [|done].
        injection IH as IH1 IH2. apply Z.leb_le in Hr.
        replace (0 <=? Py.rfind "." (stem +:+ String "." ext) + 1) with true
          by (symmetry; apply Z.leb_le; lia).
        replace (Z.to_nat (Py.rfind "." (stem +:+ String "." ext) + 1))
          with (S (Z.to_nat (Py.rfind "." (stem +:+ String "." ext))))
          by lia.
        replace (Z.to_nat (Py.rfind "." (stem +:+ String "." ext) + 1 + 1))
          with (S (Z.to_nat (Py.rfind "." (stem +:+ String "." ext) + 1)))
          by lia.
        simpl. by rewrite IH1, IH2. }
    rewrite Hsplit, bool_decide_eq_true_2 by done.
    rewrite andb_true_r, <- rfind_contains.
    unfold Py.rsplit1 in Hsplit.
    by destruct (0 <=? Py.rfind "." (stem +:+ "." +:+ ext)).
Qed.

(** ** Media intake *)

Section SaveImage.
Context `{Werkzeug}.

Lemma save_image_missing (env : Env) (w : World) :
  save_image None env w = Returns "" w.
Proof. done. Qed.

Lemma save_image_empty_filename (fs : FileStorage) (env : Env) (w : World) :
  filename fs = "" → save_image (Some fs) env w = Returns "" w.
Proof. intros Hname. unfold save_image. by rewrite bool_decide_eq_true_2. Qed.

Lemma save_image_rejected (fs : FileStorage) (env : Env) (w : World) :
  allowed_image (secure_filename (filename fs)) = false →
  save_image (Some fs) env w = Returns "" w.
Proof.
  intros Hext. unfold save_image. rewrite Hext. simpl.
  by case_bool_decide.
Qed.

Lemma save_image_stored (fs : FileStorage) (env : Env) (w : World) :
  filename fs ≠ "" →
  allowed_image (secure_filename (filename fs)) = true →
  let safe := safe_name (secure_filename (filename fs))
                        (int_timestamp (host env) (utcnow env)) in
  can_save (host env) safe = true →
  save_image (Some fs) env w =
    Returns ("/static/uploads/" +:+ safe)
            (set_uploads (<[safe := stream fs]> (uploads w)) w).
Proof.
  intros Hname Hext safe Hsave. unfold save_image.
  rewrite bool_decide_eq_false_2, Hext by done. cbn [negb]. fold safe.
  by rewrite Hsave.
Qed.

(** The one case in which [save_image] does not return. *)
Lemma save_image_raises (fs : FileStorage) (env : Env) (w : World) :
  filename fs ≠ "" →
  allowed_image (secure_filename (filename fs)) = true →
  can_save (host env)
           (safe_name (secure_filename (filename fs))
                      (int_timestamp (host env) (utcnow env))) = false →
  save_image (Some fs) env w = OSError.
Proof.
  intros Hname Hext Hsave. unfold save_image.
  rewrite bool_decide_eq_false_2, Hext by done. cbn [negb].
  by rewrite Hsave.
Qed.

(** What [save_image] comes to, whatever it is given. *)
Lemma save_image_cases (file : option FileStorage) (env : Env) (w : World) :
  save_image file env w = OSError
  ∨ save_image file env w = Returns "" w
  ∨ ∃ fs safe,
      file = Some fs
      ∧ safe = safe_name (secure_filename (filename fs))
                         (int_timestamp (host env) (utcnow env))
      ∧ save_image file env w =
          Returns ("/static/uploads/" +:+ safe)
                  (set_uploads (<[safe := stream fs]> (uploads w)) w).
Proof.
  destruct file as [fs|]; [|right; left; done].
  unfold save_image. case_bool_decide; [right; left; done|].
  destruct (allowed_image _); cbn [negb]; [|right; left; done].
  destruct (can_save _ _); [|left; done].
  right; right. by eexists fs, _.
Qed.

(** For one sanitised name the stored name depends on the integer
    timestamp only, and on it injectively. *)
Lemma safe_name_inj (name : string) (t1 t2 : Z) :
  safe_name name t1 = safe_name name t2 ↔ t1 = t2.
Proof.
  unfold safe_name. destruct (Py.splitext name) as [stem ext].
  split; [|by intros ->].
  intros Heq. apply (inj (String.app stem)) in Heq.
  apply (inj (String.app "_")) in Heq.
  apply string_app_inv_tail in Heq.
  unfold Py.str_of_int in Heq. by apply (inj pretty) in Heq.
Qed.
End SaveImage.

(** C3, as amended: [save_image] returns the empty string, and stores
    nothing, when the blob is missing, when its file name is empty, or
    when the sanitised file name has no extension that is, in lower
    case, one of png, jpg, jpeg, gif, webp. Otherwise the stored name is
    the sanitised name with the integer timestamp of the host,
    [int(datetime.utcnow().timestamp())], put before the extension;
    where the file system of the host takes that name, [save_image]
    stores the bytes under it, changes nothing else, and returns the
    non-empty path of that file under /static/uploads/; where it does
    not, [file_storage.save] raises. Two calls with the same file name
    that return a path return distinct paths exactly when the integer
    timestamps of the two calls differ; with one timestamp they return
    the same path. *)
Theorem save_image_spec `{Werkzeug}
    (file_storage : option FileStorage) (env : Env) (w : World) :
  (file_storage = None → save_image file_storage env w = Returns "" w)
  ∧ (∀ fs, file_storage = Some fs →
       filename fs = ""
       ∨ allowed_image (secure_filename (filename fs)) = false →
       save_image file_storage env w = Returns "" w)
  ∧ (∀ fs, file_storage = Some fs →
       filename fs ≠ "" →
       allowed_image (secure_filename (filename fs)) = true →
       let safe := safe_name (secure_filename (filename fs))
                             (int_timestamp (host env) (utcnow env)) in
       (can_save (host env) safe = true →
          ∃ w1, save_image file_storage env w
                = Returns ("/static/uploads/" +:+ safe) w1
                ∧ "/static/uploads/" +:+ safe ≠ ""
                ∧ uploads w1 !! safe = Some (stream fs)
                ∧ (∀ other, other ≠ safe →
                     uploads w1 !! other = uploads w !! other)
                ∧ db w1 = db w)
       ∧ (can_save (host env) safe = false →
            save_image file_storage env w = OSError)
       ∧ ∀ fs' env' w' url w1 url' w1',
           filename fs' = filename fs →
           save_image file_storage env w = Returns url w1 →
           save_image (Some fs') env' w' = Returns url' w1' →
           url' = url ↔
           int_timestamp (host env') (utcnow env')
           = int_timestamp (host env) (utcnow env)).
Proof.
  split_and!.
  - intros ->. apply save_image_missing.
  - intros fs -> [Hname | Hext].
    + by apply save_image_empty_filename.
    + by apply save_image_rejected.
  - intros fs -> Hname Hext safe. split_and!.
    + intros Hsave.
      exists (set_uploads (<[safe := stream fs]> (uploads w)) w).
      rewrite (save_image_stored fs env w Hname Hext Hsave). fold safe.
      cbn [uploads db set_uploads]. split_and!; try done.
      * apply lookup_insert_eq.
      * intros other Hother. by apply lookup_insert_ne.
    + intros Hsave. by apply save_image_raises.
    + intros fs' env' w' url w1 url' w1' Hsame Hfirst Hsecond.
      assert (Hname' : filename fs' ≠ "") by (by rewrite Hsame).
      assert (Hext' : allowed_image (secure_filename (filename fs')) = true)
        by (by rewrite Hsame).
      destruct (can_save (host env) safe) eqn:Hsave; last first.
      { by rewrite (save_image_raises fs env w Hname Hext Hsave) in Hfirst. }
      rewrite (save_image_stored fs env w Hname Hext Hsave) in Hfirst.
      destruct (can_save (host env')
                  (safe_name (secure_filename (filename fs'))
                             (int_timestamp (host env') (utcnow env'))))
        eqn:Hsave'; last first.
      { by rewrite (save_image_raises fs' env' w' Hname' Hext' Hsave')
          in Hsecond. }
      rewrite (save_image_stored fs' env' w' Hname' Hext' Hsave') in Hsecond.
      injection Hfirst as <- _. injection Hsecond as <- _.
      rewrite Hsame, <- (safe_name_inj (secure_filename (filename fs))).
      split; [intros Heq | by intros ->].
      by apply (inj (String.app "/static/uploads/")) in Heq.
Qed.

(** Witness of C3: a missing blob, an empty file name, an .exe file and
    a .PNG file, on a host in UTC. *)
Lemma save_image_spec_witness :
  run_save_image None (at_time 1700000000100000) empty_world
    = Returns "" empty_world
  ∧ run_save_image (Some {| filename := ""; stream := "x" |})
                   (at_time 1700000000100000) empty_world
    = Returns "" empty_world
  ∧ run_save_image (Some {| filename := "setup.exe"; stream := "x" |})
                   (at_time 1700000000100000) empty_world
    = Returns "" empty_world
  ∧ ∃ w1, run_save_image (Some {| filename := "my cat.PNG"; stream := "x" |})
                         (at_time 1700000000100000) empty_world
          = Returns "/static/uploads/my_cat_1700000000.PNG" w1
          ∧ uploads w1 !! "my_cat_1700000000.PNG" = Some "x".
Proof.
  split_and!.
  - apply (proj1 (@save_image_spec Stub.werkzeug None
                    (at_time 1700000000100000) empty_world)).
    reflexivity.
  - apply (proj1 (proj2 (@save_image_spec Stub.werkzeug
                           (Some {| filename := ""; stream := "x" |})
                           (at_time 1700000000100000) empty_world))
                 {| filename := ""; stream := "x" |}); [reflexivity|].
    left. reflexivity.
  - apply (proj1 (proj2 (@save_image_spec Stub.werkzeug
                           (Some {| filename := "setup.exe"; stream := "x" |})
                           (at_time 1700000000100000) empty_world))
                 {| filename := "setup.exe"; stream := "x" |});
      [reflexivity|].
    right. reflexivity.
  - assert (Hname : filename {| filename := "my cat.PNG"; stream := "x" |}
                    ≠ "") by discriminate.
    destruct (proj1 (proj2 (proj2 (@save_image_spec Stub.werkzeug
                              (Some {| filename := "my cat.PNG";
                                       stream := "x" |})
                              (at_time 1700000000100000) empty_world))
                    {| filename := "my cat.PNG"; stream := "x" |}
                    eq_refl Hname eq_refl) eq_refl)
      as (w1 & Hsaved & _ & Hstored & _).
    exists w1. split; [exact Hsaved | exact Hstored].
Defined.

(** C3, as stated, fails: two uploads of cat.png within one second get
    the same reference path, and the second file replaces the first. *)
Lemma save_image_same_second_counterexample :
  let w1 := set_uploads (<["cat_1700000000.png" := "one"]> ∅) empty_world in
  let w2 := set_uploads (<["cat_1700000000.png" := "two"]> (uploads w1)) w1 in
  run_save_image (Some {| filename := "cat.png"; stream := "one" |})
                 (at_time 1700000000100000) empty_world
  = Returns "/static/uploads/cat_1700000000.png" w1
  ∧ run_save_image (Some {| filename := "cat.png"; stream := "two" |})
                   (at_time 1700000000900000) w1
    = Returns "/static/uploads/cat_1700000000.png" w2
  ∧ uploads w1 !! "cat_1700000000.png" = Some "one"
  ∧ uploads w2 !! "cat_1700000000.png" = Some "two".
Proof. vm_compute. done. Qed.

(** ** Inserting users *)

Lemma user_clash_true (name mail : string) (u : User.t) :
  user_clash name mail u = true ↔ User.username u = name ∨ User.email u = mail.
Proof.
  unfold user_clash. rewrite orb_true_iff, !bool_decide_eq_true. done.
Qed.

Lemma existsb_user_clash_true (name mail : string) (us : list User.t) :
  existsb (user_clash name mail) us = true ↔
  ∃ u, u ∈ us ∧ (User.username u = name ∨ User.email u = mail).
Proof.
  rewrite existsb_exists. split.
  - intros (u & Hin%list_elem_of_In & Hclash%user_clash_true). by exists u.
  - intros (u & Hin%list_elem_of_In & Hclash%user_clash_true). by exists u.
Qed.

Lemma existsb_user_clash_false (name mail : string) (us : list User.t) :
  existsb (user_clash name mail) us = false ↔
  ∀ u, u ∈ us → User.username u ≠ name ∧ User.email u ≠ mail.
Proof.
  rewrite <- not_true_iff_false, existsb_user_clash_true. split.
  - intros Hno u Hin. split; intros Heq; apply Hno; exists u; auto.
  - intros Hall (u & Hin & [Heq | Heq]); by destruct (Hall u Hin).
Qed.

Lemma add_user_fresh (name mail pw_hash : string) (admin : bool) (now : Z)
    (d : DB) :
  (∀ u, u ∈ users d → User.username u ≠ name ∧ User.email u ≠ mail) →
  add_user name mail pw_hash admin now d =
    let row := User.mk (fresh_id (User.id <$> users d)) name mail pw_hash
                       admin false "" now in
    Committed row (set_users (users d ++ [row]) d).
Proof.
  intros Hfree%existsb_user_clash_false. unfold add_user. by rewrite Hfree.
Qed.

Lemma add_user_clash (name mail pw_hash : string) (admin : bool) (now : Z)
    (d : DB) (u : User.t) :
  u ∈ users d → User.username u = name ∨ User.email u = mail →
  add_user name mail pw_hash admin now d = IntegrityError.
Proof.
  intros Hin Hclash. unfold add_user.
  assert (existsb (user_clash name mail) (users d) = true) as ->; [|done].
  apply existsb_user_clash_true. by exists u.
Qed.

Lemma user_by_username_none (name : string) (d : DB) :
  user_by_username name d = None ↔
  ∀ u, u ∈ users d → User.username u ≠ name.
Proof.
  unfold user_by_username. rewrite find_none_iff.
  split; intros Hall u Hin; specialize (Hall u Hin); simpl in *.
  - by apply bool_decide_eq_false in Hall.
  - by apply bool_decide_eq_false.
Qed.

(** ** Posts *)

Section CreatePost.
Context `{Werkzeug}.
Context (req : Request) (env : Env) (w : World) (cu : User.t).
Hypothesis Hcu : current_user w = Some cu.
Hypothesis Hmethod : method req = POST.

Let content := form_field "content" req.
Let image := files_get "image" req.

(** Without text and without a file nothing is stored. *)
Lemma create_post_requires_content_or_image :
  content = "" → truthy_file image = false →
  create_post req env w =
    (redirect "create_post",
     flash "Write something or add an image." "error" w).
Proof.
  intros Hcontent Himage. unfold create_post, login_required.
  rewrite Hcu, Hmethod. fold content image.
  by rewrite Hcontent, Himage.
Qed.

(** With text or with a file exactly one post is appended, owned by
    the caller, unless the file cannot be written. *)
Lemma create_post_persists_one :
  content ≠ "" ∨ truthy_file image = true →
  (truthy_file image = true → save_image image env w ≠ OSError) →
  ∃ image_url,
    posts (db (create_post req env w).2) =
      (posts (db w)
       ++ [Post.mk (fresh_id (Post.id <$> posts (db w))) content image_url
                   (User.id cu) (utcnow env) false])%list
    ∧ (create_post req env w).1 = redirect "index".
Proof.
  intros Hsome Hsaved. unfold create_post, login_required.
  rewrite Hcu, Hmethod. fold content image.
  assert (bool_decide (content = "") && negb (truthy_file image) = false)
    as ->.
  { destruct Hsome as [Hc | Hi].
    - by rewrite bool_decide_eq_false_2.
    - rewrite Hi. apply andb_false_r. }
  destruct (truthy_file image).
  - destruct (save_image_cases image env w)
      as [Hraise | [Hsave | (fs & safe & _ & _ & Hsave)]].
    + by destruct Hsaved.
    + rewrite Hsave. exists "". done.
    + rewrite Hsave. eexists. done.
  - exists "". done.
Qed.

(** A file that cannot be written ends the request: [file_storage.save]
    raises before the post is made. *)
Lemma create_post_raises :
  truthy_file image = true → save_image image env w = OSError →
  create_post req env w = (abort 500, w).
Proof.
  intros Himage Hraise. unfold create_post, login_required.
  rewrite Hcu, Hmethod. fold content image.
  rewrite Himage, andb_false_r. by rewrite Hraise.
Qed.

(** A file that [save_image] rejects passes the guard all the same:
    without text the stored post has neither content nor image. *)
Lemma create_post_rejected_image (fs : FileStorage) :
  content = "" → image = Some fs → filename fs ≠ "" →
  allowed_image (secure_filename (filename fs)) = false →
  create_post req env w =
    (redirect "index",
     flash "Post created." "success"
       (set_db (set_posts
                  (posts (db w)
                   ++ [Post.mk (fresh_id (Post.id <$> posts (db w))) "" ""
                               (User.id cu) (utcnow env) false])
                  (db w)) w)).
Proof.
  intros Hcontent Himage Hname Hext. unfold create_post, login_required.
  rewrite Hcu, Hmethod. fold content image. rewrite Hcontent, Himage.
  unfold truthy_file. rewrite (bool_decide_eq_false_2 _ Hname).
  cbn [negb andb]. rewrite bool_decide_eq_true_2 by done. cbn [andb].
  by rewrite save_image_rejected.
Qed.
End CreatePost.

(** C4, the failing input: the form has no text and a file that
    [save_image] rejects. The guard of [create_post] looks at the file,
    not at the reference [save_image] returns, so the view stores a post
    whose content and image reference are both empty. *)
Theorem create_post_rejected_image_stores_empty_post :
  let result :=
    run_create_post rejected_image_request (at_time 4000000) alice_world in
  result.1 = redirect "index"
  ∧ posts (db result.2) =
      (posts (db alice_world) ++ [Post.mk 2 "" "" 1 4000000 false])%list
  ∧ flashes result.2 =
      (flashes alice_world ++ [("Post created.", "success")])%list.
Proof. vm_compute. done. Qed.

(** ** Login of the administrator *)

Section AdminLogin.
Context `{Werkzeug} (cfg : Config).
Context (req : Request) (env : Env) (w : World).
Hypothesis Hmethod : method req = POST.
Hypothesis Hrole : Py.strip (or_else (form_get "role" req) "user") = "admin".

Let username := form_field "username" req.
Let password := or_else (form_get "password" req) "".

(** Another name than the configured one is refused at once. *)
Lemma login_admin_wrong_username :
  username ≠ ADMIN_USERNAME cfg →
  login cfg req env w =
    (redirect "login", flash "Invalid admin credentials." "error" w).
Proof.
  intros Hname. unfold login. rewrite Hmethod, Hrole. fold username.
  by rewrite bool_decide_eq_true_2, bool_decide_eq_false_2.
Qed.

Let admin_row : User.t := admin_row cfg env (db w).

(** When neither the name nor the address of the administrator is
    taken, the account is committed first and the password is checked
    against it afterwards. *)
Lemma login_admin_provisions :
  username = ADMIN_USERNAME cfg →
  (∀ u, u ∈ users (db w) →
        User.username u ≠ ADMIN_USERNAME cfg
        ∧ User.email u ≠ ADMIN_EMAIL cfg) →
  login cfg req env w =
    login_check (Some admin_row) password
      (set_db (set_users (users (db w) ++ [admin_row]) (db w)) w).
Proof.
  intros Hname Hfree. unfold login. rewrite Hmethod, Hrole.
  fold username password.
  rewrite bool_decide_eq_true_2, bool_decide_eq_true_2 by done. simpl.
  assert (user_by_username (ADMIN_USERNAME cfg) (db w) = None) as ->.
  { apply user_by_username_none. intros u Hin. by destruct (Hfree u Hin). }
  by rewrite add_user_fresh.
Qed.

(** The committed account stays when the password is then refused. *)
Lemma login_admin_provision_survives_bad_password :
  username = ADMIN_USERNAME cfg →
  (∀ u, u ∈ users (db w) →
        User.username u ≠ ADMIN_USERNAME cfg
        ∧ User.email u ≠ ADMIN_EMAIL cfg) →
  check_password_hash
    (generate_password_hash (salt env) (ADMIN_PASSWORD cfg)) password
    = false →
  login cfg req env w =
    (redirect "login",
     flash "Invalid username or password." "error"
       (set_db (set_users (users (db w) ++ [admin_row]) (db w)) w)).
Proof.
  intros Hname Hfree Hbad. rewrite login_admin_provisions by done.
  unfold login_check. simpl. by rewrite Hbad.
Qed.

End AdminLogin.

(** C5, the failing input: no account has the administrator's name, but
    bob holds the administrator's address. The first admin login, with
    the right name and password, does not provision the account: the
    insertion violates the uniqueness of [email], the view answers 500
    and the store is unchanged. [register] looks for both the name and
    the address before it inserts; [login] looks for the name only. *)
Theorem login_admin_not_provisioned_when_email_taken :
  let w := admin_email_taken_world in
  let result := run_login (admin_login_request "Admin@12345")
                          (at_time 2000000) w in
  user_by_username "admin" (db w) = None
  ∧ result = (abort 500, w)
  ∧ user_by_username "admin" (db result.2) = None.
Proof. vm_compute. done. Qed.

(** C10, the failing input: the same store, and a password that is not
    the administrator's. No account is created and committed before the
    check of the password, and the login does not end in the message for
    bad credentials: the view answers 500 and the store is unchanged. *)
Theorem login_admin_bad_password_when_email_taken :
  let w := admin_email_taken_world in
  let result := run_login (admin_login_request "guess")
                          (at_time 2000000) w in
  user_by_username "admin" (db w) = None
  ∧ result.1 = abort 500
  ∧ users (db result.2) = users (db w)
  ∧ flashes result.2 = flashes w.
Proof. vm_compute. done. Qed.

(** ** The feed *)

Global Instance created_desc_total : Total created_desc.
Proof. intros p q. unfold created_desc. lia. Qed.

Global Instance created_desc_trans : Transitive created_desc.
Proof. intros p q r. unfold created_desc. lia. Qed.

Lemma feed_query_perm (d : DB) :
  feed_query d ≡ₚ filter (λ p, Post.is_deleted p = false) (posts d).
Proof. apply merge_sort_Permutation. Qed.

Lemma feed_query_sorted (d : DB) : StronglySorted created_desc (feed_query d).
Proof. apply StronglySorted_merge_sort; apply _. Qed.

Lemma elem_of_feed_query (d : DB) (p : Post.t) :
  p ∈ feed_query d ↔ p ∈ posts d ∧ Post.is_deleted p = false.
Proof. rewrite feed_query_perm, list_elem_of_filter. tauto. Qed.

(** In a strongly sorted feed every post is at least as new as every
    post after it. *)
Lemma feed_query_newest_first (d : DB) (i j : nat) (p q : Post.t) :
  feed_query d !! i = Some p → feed_query d !! j = Some q → (i < j)%nat →
  Post.created_at q ≤ Post.created_at p.
Proof.
  intros Hi Hj Hlt.
  assert (Hsorted := feed_query_sorted d).
  revert i j Hi Hj Hlt.
  induction Hsorted as [|a l Hsorted IH Hall]; intros i j Hi Hj Hlt.
  - done.
  - destruct i as [|i]; destruct j as [|j]; try lia; simpl in *.
    + injection Hi as ->. rewrite Forall_forall in Hall.
      apply Hall. by eapply list_elem_of_lookup_2.
    + apply (IH i j); [done | done | lia].
Qed.

Lemma update_is_deleted_elem (pid : nat) (b : bool) (d : DB) (p : Post.t) :
  p ∈ posts d → Post.id p = pid →
  Post.set_is_deleted b p ∈ posts (update_is_deleted pid b d).
Proof.
  intros Hin Hid. unfold update_is_deleted. simpl.
  apply list_elem_of_fmap. exists p. split; [|done].
  by rewrite bool_decide_eq_true_2.
Qed.

Lemma get_post_is_some (pid : nat) (d : DB) (p : Post.t) :
  p ∈ posts d → Post.id p = pid → is_Some (get_post pid d).
Proof.
  intros Hin Hid. unfold get_post.
  apply find_is_some with p; [done|]. by apply bool_decide_eq_true_2.
Qed.

Section Moderation.
Context (pid : nat) (w : World) (cu : User.t) (post : Post.t).
Hypothesis Hcu : current_user w = Some cu.
Hypothesis Hadmin : User.is_admin cu = true.
Hypothesis Hpost : get_post pid (db w) = Some post.

Lemma admin_delete_post_ok :
  admin_delete_post pid w =
    (jsonify [("ok", JBool true)] 200,
     set_db (update_is_deleted pid true (db w)) w).
Proof.
  unfold admin_delete_post, login_required, admin_only.
  by rewrite Hcu, Hadmin, Hpost.
Qed.

Lemma admin_restore_post_ok :
  admin_restore_post pid w =
    (jsonify [("ok", JBool true)] 200,
     set_db (update_is_deleted pid false (db w)) w).
Proof.
  unfold admin_restore_post, login_required, admin_only.
  by rewrite Hcu, Hadmin, Hpost.
Qed.
End Moderation.

(** C6: for an authenticated caller and every store, [index] renders
    exactly the posts whose [is_deleted] flag is false (as a permutation
    of those rows, so each once), newest first; no soft-deleted post is
    in the list; and once an administrator has restored a post with
    [admin_restore_post], the post, with the flag cleared, is in the
    list again. *)
Theorem index_lists_live_posts_newest_first (w : World) (cu : User.t) :
  current_user w = Some cu →
  ∃ feed,
    index w = (render_template "index.html" feed, w)
    ∧ feed ≡ₚ filter (λ p, Post.is_deleted p = false) (posts (db w))
    ∧ StronglySorted (λ p q, Post.created_at q ≤ Post.created_at p) feed
    ∧ (∀ i j p q, feed !! i = Some p → feed !! j = Some q → (i < j)%nat →
         Post.created_at q ≤ Post.created_at p)
    ∧ (∀ p, Post.is_deleted p = true → p ∉ feed)
    ∧ (∀ p, User.is_admin cu = true → p ∈ posts (db w) →
         let w' := (admin_restore_post (Post.id p) w).2 in
         ∃ feed',
           index w' = (render_template "index.html" feed', w')
           ∧ Post.set_is_deleted false p ∈ feed').
Proof.
  intros Hcu. exists (feed_query (db w)). split_and!.
  - unfold index. by rewrite Hcu.
  - apply feed_query_perm.
  - apply feed_query_sorted.
  - apply feed_query_newest_first.
  - intros p Hdel [_ Hlive]%elem_of_feed_query. congruence.
  - intros p Hadmin Hin w'.
    destruct (get_post_is_some (Post.id p) (db w) p Hin eq_refl)
      as [post Hpost].
    subst w'.
    rewrite (admin_restore_post_ok (Post.id p) w cu post Hcu Hadmin Hpost).
    cbn [snd].
    exists (feed_query (update_is_deleted (Post.id p) false (db w))). split.
    + unfold index.
      change (current_user (set_db _ w)) with
        (session w ≫= λ uid,
           get_user uid (update_is_deleted (Post.id p) false (db w))).
      unfold current_user, load_user in Hcu. unfold get_user in *.
      simpl. by rewrite Hcu.
    + apply elem_of_feed_query. split; [|done].
      by apply update_is_deleted_elem.
Qed.

(** ** Soft deletion *)

Lemma get_post_update_is_deleted (pid : nat) (b : bool) (d : DB) :
  get_post pid (update_is_deleted pid b d) =
    Post.set_is_deleted b <$> get_post pid d.
Proof.
  unfold get_post, update_is_deleted. simpl.
  induction (posts d) as [|q l IH]; [done|]. rewrite fmap_cons. simpl.
  destruct (decide (Post.id q = pid)) as [Hq | Hq].
  - by rewrite (bool_decide_eq_true_2 _ Hq), bool_decide_eq_true_2.
  - by rewrite (bool_decide_eq_false_2 _ Hq), (bool_decide_eq_false_2 _ Hq).
Qed.

(** C9: for an administrator and an existing post, [admin_delete_post]
    (at [deleted = true]) and [admin_restore_post] (at [deleted = false])
    answer ok and set the [is_deleted] flag of the post to [deleted];
    the other columns of the post keep their values, every other post
    row is unchanged and stays at its place, no post row is added or
    removed, and the users, comments and likes tables, in particular the
    comments and likes of the post, the upload directory and the session
    are unchanged. *)
Theorem soft_delete_and_restore_change_only_the_flag
    (deleted : bool) (pid : nat) (w : World) (cu : User.t) (post : Post.t) :
  current_user w = Some cu →
  User.is_admin cu = true →
  get_post pid (db w) = Some post →
  let result :=
    (if deleted then admin_delete_post else admin_restore_post) pid w in
  let w' := result.2 in
  result.1 = jsonify [("ok", JBool true)] 200
  ∧ get_post pid (db w') =
      Some (Post.mk (Post.id post) (Post.content post) (Post.image_url post)
                    (Post.user_id post) (Post.created_at post) deleted)
  ∧ (∀ i q, posts (db w) !! i = Some q → Post.id q ≠ pid →
       posts (db w') !! i = Some q)
  ∧ length (posts (db w')) = length (posts (db w))
  ∧ users (db w') = users (db w)
  ∧ comments (db w') = comments (db w)
  ∧ likes (db w') = likes (db w)
  ∧ post_comments pid (db w') = post_comments pid (db w)
  ∧ post_likes pid (db w') = post_likes pid (db w)
  ∧ uploads w' = uploads w
  ∧ session w' = session w.
Proof.
  intros Hcu Hadmin Hpost result w'.
  assert (Hresult : result = (jsonify [("ok", JBool true)] 200,
                              set_db (update_is_deleted pid deleted (db w)) w)).
  { subst result. destruct deleted.
    - by apply admin_delete_post_ok with cu post.
    - by apply admin_restore_post_ok with cu post. }
  subst w'. rewrite Hresult. cbn [fst snd db set_db uploads session].
  split_and!; try done.
  - by rewrite get_post_update_is_deleted, Hpost.
  - intros i q Hi Hq. unfold update_is_deleted. cbn [posts set_posts].
    rewrite list_lookup_fmap, Hi. simpl.
    by rewrite bool_decide_eq_false_2.
  - unfold update_is_deleted. cbn [posts set_posts]. apply length_fmap.
Qed.

(** ** Registration *)

Section Register.
Context `{Werkzeug}.
Context (req : Request) (env : Env) (w : World).
Hypothesis Hmethod : method req = POST.

Let username := form_field "username" req.
Let email := Py.lower (form_field "email" req).
Let password := or_else (form_get "password" req) "".

Lemma register_missing_field :
  username = "" ∨ email = "" ∨ password = "" →
  register req env w =
    (redirect "register", flash "All fields are required." "error" w).
Proof.
  intros Hempty. unfold register. rewrite Hmethod.
  fold username email password.
  assert (bool_decide (username = "") || bool_decide (email = "")
          || bool_decide (password = "") = true) as ->; [|done].
  rewrite !orb_true_iff, !bool_decide_eq_true. tauto.
Qed.

Hypothesis Husername : username ≠ "".
Hypothesis Hemail : email ≠ "".
Hypothesis Hpassword : password ≠ "".

Lemma register_fields_present :
  bool_decide (username = "") || bool_decide (email = "")
  || bool_decide (password = "") = false.
Proof. by rewrite !bool_decide_eq_false_2. Qed.

Lemma register_conflict (u : User.t) :
  u ∈ users (db w) →
  User.username u = username ∨ User.email u = email →
  register req env w =
    (redirect "register",
     flash "Username or Email already exists." "error" w).
Proof.
  intros Hin Hclash. unfold register. rewrite Hmethod.
  fold username email password. rewrite register_fields_present.
  assert (existsb (user_clash username email) (users (db w)) = true)
    as ->; [|done].
  apply existsb_user_clash_true. by exists u.
Qed.

Lemma register_success :
  (∀ u, u ∈ users (db w) →
        User.username u ≠ username ∧ User.email u ≠ email) →
  let row := User.mk (fresh_id (User.id <$> users (db w))) username email
                     (generate_password_hash (salt env) password)
                     false false "" (utcnow env) in
  register req env w =
    (redirect "login",
     flash "Registration successful. Please login." "success"
           (set_db (set_users (users (db w) ++ [row]) (db w)) w)).
Proof.
  intros Hfree row. unfold register. rewrite Hmethod.
  fold username email password. rewrite register_fields_present.
  rewrite (proj2 (existsb_user_clash_false _ _ _) Hfree).
  by rewrite add_user_fresh.
Qed.
End Register.

(** C7: a POST to [register], with the name trimmed, the address trimmed
    and lower-cased, and the password as sent.
    - If one of the three is empty the view answers with "All fields are
      required." and the store is unchanged.
    - If all are present and some account has that name or that address,
      it answers with "Username or Email already exists." and the store
      is unchanged.
    - Otherwise exactly one row is appended to the users table; it
      carries the name, the address, no admin flag, and in
      [password_hash] the digest [generate_password_hash] computes from
      the password, the only column that derives from the password.
      A later registration under the same name then meets the conflict
      and adds nothing. *)
Theorem register_validates_conflicts_and_hashes `{Werkzeug}
    (req : Request) (env : Env) (w : World) :
  method req = POST →
  let username := form_field "username" req in
  let email := Py.lower (form_field "email" req) in
  let password := or_else (form_get "password" req) "" in
  let result := register req env w in
  (username = "" ∨ email = "" ∨ password = "" →
     result = (redirect "register",
               flash "All fields are required." "error" w)
     ∧ db result.2 = db w)
  ∧ (username ≠ "" → email ≠ "" → password ≠ "" →
     (∀ u, u ∈ users (db w) →
           User.username u = username ∨ User.email u = email →
        result = (redirect "register",
                  flash "Username or Email already exists." "error" w)
        ∧ db result.2 = db w)
     ∧ ((∀ u, u ∈ users (db w) →
              User.username u ≠ username ∧ User.email u ≠ email) →
        result.1 = redirect "login"
        ∧ users (db result.2) =
            (users (db w)
             ++ [User.mk (fresh_id (User.id <$> users (db w))) username email
                   (generate_password_hash (salt env) password)
                   false false "" (utcnow env)])%list
        ∧ ∀ req' env',
            method req' = POST →
            form_field "username" req' = username →
            Py.lower (form_field "email" req') ≠ "" →
            or_else (form_get "password" req') "" ≠ "" →
            let again := register req' env' result.2 in
            again.1 = redirect "register"
            ∧ flashes again.2 =
                (flashes result.2
                 ++ [("Username or Email already exists.", "error")])%list
            ∧ db again.2 = db result.2)).
Proof.
  intros Hmethod username email password result. subst result. split.
  - intros Hempty. by rewrite register_missing_field.
  - intros Husername Hemail Hpassword. split.
    + intros u Hin Hclash.
      by rewrite (register_conflict req env w Hmethod Husername Hemail
                    Hpassword u Hin Hclash).
    + intros Hfree.
      rewrite (register_success req env w Hmethod Husername Hemail Hpassword
                 Hfree).
      cbn [fst snd db set_db users set_users].
      split_and!; try done.
      intros req' env' Hmethod' Hname' Hemail' Hpassword'.
      set (row := User.mk _ _ _ _ _ _ _ _).
      rewrite (register_conflict req' env' _ Hmethod') with (u := row).
      * done.
      * by rewrite Hname'.
      * done.
      * done.
      * cbn [db set_db users set_users]. apply elem_of_app. right.
        apply list_elem_of_here.
      * left. by rewrite Hname'.
Qed.

(** Witness of C7: on the store that holds alice, a form without
    password is refused, bob is stored, and alice cannot be registered a
    second time. *)
Lemma register_validates_conflicts_and_hashes_witness :
  let w := alice_world in
  run_register (post_request [("username", "carol"); ("email", "c@x.com")])
               (at_time 7000000) w
    = (redirect "register", flash "All fields are required." "error" w)
  ∧ run_register (post_request [("username", " alice "); ("email", "z@x.com");
                                ("password", "pw9")])
                 (at_time 7000000) w
    = (redirect "register",
       flash "Username or Email already exists." "error" w)
  ∧ users (db (run_register
                 (post_request [("username", "bob"); ("email", "B@x.com");
                                ("password", "pw2")])
                 (at_time 7000000) w).2)
    = (users (db w)
       ++ [User.mk 2 "bob" "b@x.com" "plain$s$pw2" false false "" 7000000])%list.
Proof.
  intros w. split_and!.
  - apply (proj1 (@register_validates_conflicts_and_hashes Stub.werkzeug
                    (post_request [("username", "carol");
                                   ("email", "c@x.com")])
                    (at_time 7000000) w eq_refl)).
    right. right. reflexivity.
  - apply (proj1 (proj2 (@register_validates_conflicts_and_hashes
                           Stub.werkzeug
                           (post_request [("username", " alice ");
                                          ("email", "z@x.com");
                                          ("password", "pw9")])
                           (at_time 7000000) w eq_refl)
                        ltac:(discriminate) ltac:(discriminate)
                        ltac:(discriminate))
                 (User.mk 1 "alice" "a@x.com" "plain$s$pw1" false false ""
                          1000000)).
    + apply list_elem_of_here.
    + left. reflexivity.
  - apply (proj2 (proj2 (@register_validates_conflicts_and_hashes
                           Stub.werkzeug
                           (post_request [("username", "bob");
                                          ("email", "B@x.com");
                                          ("password", "pw2")])
                           (at_time 7000000) w eq_refl)
                        ltac:(discriminate) ltac:(discriminate)
                        ltac:(discriminate))).
    intros u Hin. apply list_elem_of_singleton in Hin. subst u.
    split; discriminate.
Defined.

(** ** Login *)

Lemma user_by_username_unique (d : DB) (u : User.t) :
  NoDup (User.username <$> users d) → u ∈ users d →
  user_by_username (User.username u) d = Some u.
Proof. intros Hnodup Hin. by apply (find_unique_key User.username). Qed.

Section Login.
Context `{Werkzeug} (cfg : Config).
Context (req : Request) (env : Env) (w : World).
Hypothesis Hmethod : method req = POST.

Let username := form_field "username" req.
Let password := or_else (form_get "password" req) "".
Let role := Py.strip (or_else (form_get "role" req) "user").

(** Under another role than admin the account of the name is checked. *)
Lemma login_as_user :
  role ≠ "admin" →
  login cfg req env w =
    login_check (user_by_username username (db w)) password w.
Proof.
  intros Hrole. unfold login. rewrite Hmethod. fold username password role.
  by rewrite bool_decide_eq_false_2.
Qed.

(** Under the admin role and the configured name the existing account
    of that name is checked. *)
Lemma login_as_admin_existing (user : User.t) :
  role = "admin" → username = ADMIN_USERNAME cfg →
  user_by_username (ADMIN_USERNAME cfg) (db w) = Some user →
  login cfg req env w = login_check (Some user) password w.
Proof.
  intros Hrole Hname Huser. unfold login. rewrite Hmethod.
  fold username password role.
  rewrite bool_decide_eq_true_2, bool_decide_eq_true_2 by done. simpl.
  by rewrite Huser.
Qed.

Lemma login_check_blocked (user : User.t) (pw : string) (w0 : World) :
  check_password_hash (User.password_hash user) pw = true →
  User.blocked user = true → User.is_admin user = false →
  login_check (Some user) pw w0 =
    (redirect "login",
     flash "Your account is blocked. Contact admin." "error" w0).
Proof. intros Hpw Hblocked Hadmin. unfold login_check. by rewrite Hpw, Hblocked, Hadmin. Qed.

Lemma login_check_admin (user : User.t) (pw : string) (w0 : World) :
  check_password_hash (User.password_hash user) pw = true →
  User.is_admin user = true →
  login_check (Some user) pw w0 =
    (redirect "index",
     flash "Login successful." "success" (login_user user w0)).
Proof.
  intros Hpw Hadmin. unfold login_check. rewrite Hpw, Hadmin.
  by rewrite andb_false_r.
Qed.
End Login.

(** C8, as amended: let [u] be a blocked account and let the form carry
    its name and a password that fits its digest.
    - If [u] is no administrator, no session is established and the
      store is unchanged under every role; the answer is "Your account
      is blocked. Contact admin." when the role is not admin (or the
      name is the configured admin name), and "Invalid admin
      credentials." when the role is admin and the name is another.
    - If [u] carries the admin flag, the login succeeds under the same
      condition on the role and binds the session to [u]. *)
Theorem login_blocked_account `{Werkzeug} (cfg : Config)
    (req : Request) (env : Env) (w : World) (u : User.t) :
  method req = POST →
  NoDup (User.username <$> users (db w)) →
  u ∈ users (db w) →
  form_field "username" req = User.username u →
  check_password_hash (User.password_hash u)
                      (or_else (form_get "password" req) "") = true →
  User.blocked u = true →
  let role := Py.strip (or_else (form_get "role" req) "user") in
  let result := login cfg req env w in
  (User.is_admin u = false →
     session result.2 = session w
     ∧ db result.2 = db w
     ∧ (role ≠ "admin" ∨ User.username u = ADMIN_USERNAME cfg →
        result = (redirect "login",
                  flash "Your account is blocked. Contact admin." "error" w))
     ∧ (role = "admin" → User.username u ≠ ADMIN_USERNAME cfg →
        result = (redirect "login",
                  flash "Invalid admin credentials." "error" w)))
  ∧ (User.is_admin u = true →
     role ≠ "admin" ∨ User.username u = ADMIN_USERNAME cfg →
     result = (redirect "index",
               flash "Login successful." "success" (login_user u w))
     ∧ session result.2 = Some (User.id u)).
Proof.
  intros Hmethod Hnodup Hin Hname Hpw Hblocked role result.
  assert (Hfound := user_by_username_unique (db w) u Hnodup Hin).
  assert (Hcheck : role ≠ "admin" ∨ User.username u = ADMIN_USERNAME cfg →
                   result = login_check (Some u)
                              (or_else (form_get "password" req) "") w).
  { intros Hcond. subst result.
    destruct (decide (role = "admin")) as [Hrole | Hrole].
    - destruct Hcond as [? | Hadminname]; [done|].
      apply login_as_admin_existing; [done | done | congruence |].
      by rewrite <- Hadminname.
    - rewrite login_as_user by done. by rewrite Hname, Hfound. }
  split.
  - intros Hadmin.
    assert (Hwrong : role = "admin" → User.username u ≠ ADMIN_USERNAME cfg →
                     result = (redirect "login",
                               flash "Invalid admin credentials." "error" w)).
    { intros Hrole Hother. subst result.
      apply login_admin_wrong_username; [done | done | congruence]. }
    assert (Hblock : role ≠ "admin" ∨ User.username u = ADMIN_USERNAME cfg →
                     result = (redirect "login",
                               flash "Your account is blocked. Contact admin."
                                     "error" w)).
    { intros Hcond. rewrite (Hcheck Hcond).
      by apply login_check_blocked. }
    destruct (decide (role ≠ "admin" ∨ User.username u = ADMIN_USERNAME cfg))
      as [Hcond | Hcond].
    + split_and!; [by rewrite (Hblock Hcond) .. | done | done].
    + assert (role = "admin") as Hrole.
      { destruct (decide (role = "admin")); [done | tauto]. }
      assert (User.username u ≠ ADMIN_USERNAME cfg) as Hother by tauto.
      split_and!; [by rewrite (Hwrong Hrole Hother) .. | done | done].
  - intros Hadmin Hcond. rewrite (Hcheck Hcond).
    by rewrite login_check_admin.
Qed.

(** Witness of C8: blocked alice tries both roles with her password,
    and a blocked administrator logs in. *)
Lemma login_blocked_account_witness :
  (let w := blocked_world in
   run_login (post_request [("username", "alice"); ("password", "pw1")])
             (at_time 8000000) w
     = (redirect "login",
        flash "Your account is blocked. Contact admin." "error" w)
   ∧ run_login (post_request [("username", "alice"); ("password", "pw1");
                              ("role", "admin")])
               (at_time 8000000) w
     = (redirect "login", flash "Invalid admin credentials." "error" w))
  ∧ (let w := blocked_admin_world in
     let u := User.set_blocked true admin_account in
     run_login (admin_login_request "Admin@12345") (at_time 9000000) w
       = (redirect "index",
          flash "Login successful." "success" (login_user u w))
     ∧ session (run_login (admin_login_request "Admin@12345")
                          (at_time 9000000) w).2 = Some 2%nat).
Proof.
  split.
  - intros w.
    assert (Hnodup : NoDup (User.username <$> users (db w))).
    { apply NoDup_singleton. }
    assert (Hin : User.mk 1 "alice" "a@x.com" "plain$s$pw1" false true ""
                          1000000 ∈ users (db w)).
    { apply list_elem_of_here. }
    split.
    + apply (proj1 (@login_blocked_account Stub.werkzeug default_config
                      (post_request [("username", "alice");
                                     ("password", "pw1")])
                      (at_time 8000000) w _ eq_refl Hnodup Hin eq_refl eq_refl
                      eq_refl) eq_refl).
      left. discriminate.
    + apply (proj1 (@login_blocked_account Stub.werkzeug default_config
                      (post_request [("username", "alice");
                                     ("password", "pw1"); ("role", "admin")])
                      (at_time 8000000) w _ eq_refl Hnodup Hin eq_refl eq_refl
                      eq_refl) eq_refl); [reflexivity | discriminate].
  - intros w u.
    assert (Hnodup : NoDup (User.username <$> users (db w))).
    { apply NoDup_cons. split; [|apply NoDup_singleton].
      intros Hin%list_elem_of_singleton. discriminate Hin. }
    assert (Hin : u ∈ users (db w)).
    { apply list_elem_of_further, list_elem_of_here. }
    apply (proj2 (@login_blocked_account Stub.werkzeug default_config
                    (admin_login_request "Admin@12345")
                    (at_time 9000000) w u eq_refl Hnodup Hin eq_refl eq_refl
                    eq_refl) eq_refl).
    right. reflexivity.
Defined.

(** C8, as stated, fails under the admin role: blocked alice, with her
    own name and password, is turned away with the message for bad admin
    credentials, not with the one for blocked accounts. *)
Lemma login_blocked_admin_role_counterexample :
  let w := blocked_world in
  let result :=
    run_login (post_request [("username", "alice"); ("password", "pw1");
                             ("role", "admin")])
              (at_time 8000000) w in
  users (db w) = [User.mk 1 "alice" "a@x.com" "plain$s$pw1" false true ""
                          1000000]
  ∧ Stub.check_password_hash "plain$s$pw1" "pw1" = true
  ∧ result = (redirect "login", flash "Invalid admin credentials." "error" w)
  ∧ result ≠ (redirect "login",
              flash "Your account is blocked. Contact admin." "error" w).
Proof.
  split_and!; [vm_compute; reflexivity .. |].
  vm_compute. intros Heq. discriminate Heq.
Qed.

(** Witness of C6: the feed of [moderated_world]. *)
Lemma index_lists_live_posts_newest_first_witness :
  ∃ feed,
    index moderated_world = (render_template "index.html" feed, moderated_world)
    ∧ feed ≡ₚ filter (λ p, Post.is_deleted p = false)
                     (posts (db moderated_world))
    ∧ StronglySorted (λ p q, Post.created_at q ≤ Post.created_at p) feed
    ∧ (∀ i j p q, feed !! i = Some p → feed !! j = Some q → (i < j)%nat →
         Post.created_at q ≤ Post.created_at p)
    ∧ (∀ p, Post.is_deleted p = true → p ∉ feed)
    ∧ (∀ p, User.is_admin admin_account = true →
         p ∈ posts (db moderated_world) →
         let w' := (admin_restore_post (Post.id p) moderated_world).2 in
         ∃ feed',
           index w' = (render_template "index.html" feed', w')
           ∧ Post.set_is_deleted false p ∈ feed').
Proof.
  apply (index_lists_live_posts_newest_first moderated_world admin_account).
  reflexivity.
Defined.

(** Witness of C9: the administrator soft-deletes the first post. *)
Lemma soft_delete_and_restore_change_only_the_flag_witness :
  let result := admin_delete_post 1 admin_session_world in
  let w' := result.2 in
  result.1 = jsonify [("ok", JBool true)] 200
  ∧ get_post 1 (db w') = Some (Post.mk 1 "hello" "" 1 3000000 true)
  ∧ (∀ i q, posts (db admin_session_world) !! i = Some q → Post.id q ≠ 1%nat →
       posts (db w') !! i = Some q)
  ∧ length (posts (db w')) = length (posts (db admin_session_world))
  ∧ users (db w') = users (db admin_session_world)
  ∧ comments (db w') = comments (db admin_session_world)
  ∧ likes (db w') = likes (db admin_session_world)
  ∧ post_comments 1 (db w') = post_comments 1 (db admin_session_world)
  ∧ post_likes 1 (db w') = post_likes 1 (db admin_session_world)
  ∧ uploads w' = uploads admin_session_world
  ∧ session w' = session admin_session_world.
Proof.
  apply (soft_delete_and_restore_change_only_the_flag true 1
           admin_session_world admin_account
           (Post.mk 1 "hello" "" 1 3000000 false)); reflexivity.
Defined.

(** ** The declared constraints are kept by every write *)

(** The empty store meets the constraints, so every store the views
    reach from it does. *)
Lemma empty_db_constraints : db_constraints empty_db.
Proof. split; simpl; apply NoDup_nil_2. Qed.

Lemma NoDup_snoc_fresh {A} (l : list A) (x : A) :
  NoDup l → x ∉ l → NoDup (l ++ [x]).
Proof.
  intros Hnodup Hfresh. apply NoDup_app. split_and!; [done | | apply NoDup_singleton].
  intros y Hy Hyx%list_elem_of_singleton. by subst.
Qed.

Lemma NoDup_fmap_filter {A B} (f : A → B) (P : A → Prop)
    `{∀ x, Decision (P x)} (l : list A) :
  NoDup (f <$> l) → NoDup (f <$> filter P l).
Proof.
  intros Hnodup. apply (sublist_NoDup _ (f <$> l)); [done|].
  apply fmap_sublist, sublist_filter.
Qed.

Lemma add_user_keeps_constraints (name mail pw_hash : string) (admin : bool)
    (now : Z) (d d' : DB) (row : User.t) :
  db_constraints d →
  add_user name mail pw_hash admin now d = Committed row d' →
  db_constraints d'.
Proof.
  intros [] Hadd. unfold add_user in Hadd.
  destruct (existsb (user_clash name mail) (users d)) eqn:Hclash; [done|].
  injection Hadd as <- <-.
  rewrite existsb_user_clash_false in Hclash.
  split; simpl; try done; rewrite fmap_app; simpl; apply NoDup_snoc_fresh;
    try done.
  - apply fresh_id_not_in.
  - intros (u & Hname & Hin)%list_elem_of_fmap.
    by destruct (Hclash u Hin).
  - intros (u & Hmail & Hin)%list_elem_of_fmap.
    by destruct (Hclash u Hin).
Qed.

Lemma add_post_keeps_constraints (text image : string) (owner : nat)
    (now : Z) (d : DB) :
  db_constraints d → db_constraints (add_post text image owner now d).2.
Proof.
  intros []. split; simpl; try done.
  rewrite fmap_app. simpl. apply NoDup_snoc_fresh; [done|].
  apply fresh_id_not_in.
Qed.

Lemma add_comment_keeps_constraints (text : string) (owner pid : nat)
    (now : Z) (d : DB) :
  db_constraints d → db_constraints (add_comment text owner pid now d).2.
Proof.
  intros []. split; simpl; try done.
  rewrite fmap_app. simpl. apply NoDup_snoc_fresh; [done|].
  apply fresh_id_not_in.
Qed.

Lemma add_like_keeps_constraints (owner pid : nat) (now : Z) (d d' : DB)
    (row : Like.t) :
  db_constraints d →
  add_like owner pid now d = Committed row d' →
  db_constraints d'.
Proof.
  intros [] Hadd. unfold add_like in Hadd.
  destruct (existsb _ (likes d)) eqn:Hclash; [done|].
  injection Hadd as <- <-.
  apply existsb_false_find in Hclash. rewrite find_none_iff in Hclash.
  split; simpl; try done; rewrite fmap_app; simpl; apply NoDup_snoc_fresh;
    try done.
  - apply fresh_id_not_in.
  - intros (l & [= Howner Hpid] & Hin)%list_elem_of_fmap.
    specialize (Hclash l Hin). simpl in Hclash.
    by rewrite !bool_decide_eq_true_2 in Hclash.
Qed.

Lemma delete_like_keeps_constraints (existing : Like.t) (d : DB) :
  db_constraints d → db_constraints (delete_like existing d).
Proof.
  intros []. split; simpl; try done; by apply NoDup_fmap_filter.
Qed.

Lemma fmap_key_unchanged {A K} (key : A → K) (f : A → A) (l : list A) :
  (∀ x, key (f x) = key x) → key <$> (f <$> l) = key <$> l.
Proof.
  intros Hkey. rewrite <- list_fmap_compose. apply list_fmap_ext.
  intros i x _. apply Hkey.
Qed.

Lemma update_is_deleted_keeps_constraints (pid : nat) (b : bool) (d : DB) :
  db_constraints d → db_constraints (update_is_deleted pid b d).
Proof.
  intros []. split; simpl; try done.
  rewrite fmap_key_unchanged; [done|]. intros p. by case_bool_decide.
Qed.

Lemma update_blocked_keeps_constraints (uid : nat) (b : bool) (d : DB) :
  db_constraints d → db_constraints (update_blocked uid b d).
Proof.
  intros []. split; simpl; try done;
    (rewrite fmap_key_unchanged; [done|]); intros u; by case_bool_decide.
Qed.

Lemma update_avatar_url_keeps_constraints (uid : nat) (url : string) (d : DB) :
  db_constraints d → db_constraints (update_avatar_url uid url d).
Proof.
  intros []. split; simpl; try done;
    (rewrite fmap_key_unchanged; [done|]); intros u; by case_bool_decide.
Qed.

Lemma save_image_keeps_db `{Werkzeug} (file_storage : option FileStorage)
    (env : Env) (w w1 : World) (url : string) :
  save_image file_storage env w = Returns url w1 → db w1 = db w.
Proof.
  destruct (save_image_cases file_storage env w)
    as [-> | [-> | (fs & safe & _ & _ & ->)]]; [done| |];
    by intros [= _ <-].
Qed.

Create HintDb constraints.
#[export] Hint Resolve add_user_keeps_constraints add_like_keeps_constraints
  add_post_keeps_constraints add_comment_keeps_constraints
  delete_like_keeps_constraints update_is_deleted_keeps_constraints
  update_blocked_keeps_constraints update_avatar_url_keeps_constraints
  : constraints.

(** Case analysis on the branches of a view, each closed by the lemma of
    the write it performs. *)
Ltac keep_constraints :=
  intros;
  repeat (first [progress simpl | case_match]; try done);
  eauto with constraints.

Section ViewsKeepConstraints.
Context `{Werkzeug} (cfg : Config).
Context (w : World).
Hypothesis Hw : db_constraints (db w).

Lemma register_keeps_constraints (req : Request) (env : Env) :
  db_constraints (db (register req env w).2).
Proof. unfold register. keep_constraints. Qed.

Lemma login_keeps_constraints (req : Request) (env : Env) :
  db_constraints (db (login cfg req env w).2).
Proof. unfold login, login_check. keep_constraints. Qed.

Lemma like_post_keeps_constraints (pid : nat) (env : Env) :
  db_constraints (db (like_post pid env w).2).
Proof. unfold like_post, login_required, unauthorized. keep_constraints. Qed.

Lemma create_post_keeps_constraints (req : Request) (env : Env) :
  db_constraints (db (create_post req env w).2).
Proof.
  unfold create_post, login_required, unauthorized.
  destruct (current_user w) as [cu|]; [|done].
  destruct (method req); [done|].
  destruct (bool_decide _ && negb _); [done|].
  destruct (truthy_file _).
  - destruct (save_image _ env w) as [image_url w1|] eqn:Hsave; [|done].
    apply save_image_keeps_db in Hsave. simpl in *.
    rewrite Hsave. by apply add_post_keeps_constraints.
  - simpl. by apply add_post_keeps_constraints.
Qed.

Lemma comment_post_keeps_constraints (pid : nat) (req : Request) (env : Env) :
  db_constraints (db (comment_post pid req env w).2).
Proof.
  unfold comment_post, login_required, unauthorized. keep_constraints.
  by apply add_comment_keeps_constraints.
Qed.

Lemma admin_delete_post_keeps_constraints (pid : nat) :
  db_constraints (db (admin_delete_post pid w).2).
Proof.
  unfold admin_delete_post, login_required, unauthorized. keep_constraints.
Qed.

Lemma admin_restore_post_keeps_constraints (pid : nat) :
  db_constraints (db (admin_restore_post pid w).2).
Proof.
  unfold admin_restore_post, login_required, unauthorized. keep_constraints.
Qed.

Lemma admin_block_user_keeps_constraints (uid : nat) :
  db_constraints (db (admin_block_user uid w).2).
Proof.
  unfold admin_block_user, login_required, unauthorized. keep_constraints.
Qed.

Lemma admin_unblock_user_keeps_constraints (uid : nat) :
  db_constraints (db (admin_unblock_user uid w).2).
Proof.
  unfold admin_unblock_user, login_required, unauthorized. keep_constraints.
Qed.
End ViewsKeepConstraints.

(** ** Two toggles of a user who holds a like *)

Lemma filter_all {A} (P : A → Prop) `{∀ x, Decision (P x)} (l : list A) :
  (∀ x, x ∈ l → P x) → filter P l = l.
Proof.
  induction l as [|a l IH]; intros Hall; [done|].
  rewrite filter_cons_True by (apply Hall, list_elem_of_here).
  f_equal. apply IH. intros x Hx. by apply Hall, list_elem_of_further.
Qed.

(** Under the primary key, deleting a like removes that one row. *)
Lemma delete_like_split (existing : Like.t) (d : DB) :
  NoDup (Like.id <$> likes d) → existing ∈ likes d →
  ∃ l1 l2 : list Like.t,
    likes d = (l1 ++ existing :: l2)%list
    ∧ likes (delete_like existing d) = (l1 ++ l2)%list.
Proof.
  intros Hpk (l1 & l2 & Hsplit)%list_elem_of_split. exists l1, l2.
  split; [done|]. unfold delete_like. simpl. rewrite Hsplit in *.
  rewrite fmap_app, fmap_cons in Hpk.
  apply NoDup_app in Hpk as (_ & Hl1 & [Hl2 _]%NoDup_cons).
  rewrite filter_app, filter_cons_False by (simpl; tauto).
  f_equal; apply filter_all.
  - intros x Hx Heq. apply (Hl1 (Like.id x)).
    + by apply list_elem_of_fmap_2.
    + rewrite Heq. apply list_elem_of_here.
  - intros x Hx Heq. apply Hl2. rewrite <- Heq. by apply list_elem_of_fmap_2.
Qed.

(** Under [uq_user_post_like], the user has no like left after it. *)
Lemma like_by_after_delete (uid pid : nat) (existing : Like.t) (d : DB) :
  db_constraints d →
  like_by uid pid d = Some existing →
  like_by uid pid (delete_like existing d) = None.
Proof.
  intros [] Hfound. unfold like_by in *.
  apply find_some_elem in Hfound as [Hin Hpair].
  apply andb_true_iff in Hpair as [Hu%bool_decide_eq_true Hp%bool_decide_eq_true].
  destruct (delete_like_split existing d) as (l1 & l2 & Hsplit & ->);
    [done | done |].
  rewrite Hsplit in uq_user_post_like0.
  rewrite fmap_app, fmap_cons in uq_user_post_like0.
  apply NoDup_app in uq_user_post_like0 as (_ & Hl1 & [Hl2 _]%NoDup_cons).
  apply find_none_iff. intros l Hl. apply andb_false_iff.
  destruct (decide (Like.user_id l = uid)) as [Hlu|]; [|left; by apply bool_decide_eq_false].
  destruct (decide (Like.post_id l = pid)) as [Hlp|]; [|right; by apply bool_decide_eq_false].
  exfalso. apply elem_of_app in Hl as [Hl | Hl].
  - apply (Hl1 (Like.user_id l, Like.post_id l)).
    + by apply (list_elem_of_fmap_2 (λ l, (Like.user_id l, Like.post_id l))).
    + rewrite Hlu, Hlp, <- Hu, <- Hp. apply list_elem_of_here.
  - apply Hl2. rewrite Hu, Hp, <- Hlu, <- Hlp.
    by apply (list_elem_of_fmap_2 (λ l, (Like.user_id l, Like.post_id l))).
Qed.

(** X17: for a user who holds a like, under the declared constraints,
    the first toggle removes it and the second creates one: the first
    response reports liked=false and the count lowered by one, the
    second liked=true and the count before the first call, and the user
    holds a like again. *)
Lemma toggle_like_twice_from_liked
    (pid : nat) (env1 env2 : Env) (w : World) (cu : User.t) (post : Post.t)
    (existing : Like.t) :
  db_constraints (db w) →
  current_user w = Some cu →
  get_post pid (db w) = Some post →
  Post.is_deleted post = false →
  like_by (User.id cu) pid (db w) = Some existing →
  let n := length (post_likes pid (db w)) in
  let first := like_post pid env1 w in
  let second := like_post pid env2 first.2 in
  first.1 = jsonify [("ok", JBool true); ("liked", JBool false);
                     ("count", JNum (Nat.pred n))] 200
  ∧ second.1 = jsonify [("ok", JBool true); ("liked", JBool true);
                        ("count", JNum n)] 200
  ∧ is_Some (like_by (User.id cu) pid (db second.2)).
Proof.
  intros Hw Hcu Hpost Hlive Hfound n first second. subst first second.
  rewrite (like_post_removes pid w cu post Hcu Hpost Hlive env1 existing
             Hfound).
  cbv zeta. cbn [fst snd].
  set (d1 := delete_like existing (db w)).
  assert (Hnone : like_by (User.id cu) pid d1 = None)
    by by apply like_by_after_delete.
  assert (Hcount : n = S (length (post_likes pid d1))).
  { subst n d1. unfold post_likes.
    apply find_some_elem in Hfound as [Hin Hpair].
    apply andb_true_iff in Hpair as [_ Hp%bool_decide_eq_true].
    destruct (delete_like_split existing (db w)) as (l1 & l2 & -> & ->);
      [by destruct Hw | done |].
    rewrite !filter_app, filter_cons_True by done.
    rewrite !length_app. simpl. lia. }
  rewrite (like_post_creates pid (set_db d1 w) cu post Hcu Hpost Hlive env2
             Hnone).
  cbv zeta. cbn [fst snd db set_db likes set_likes].
  rewrite Hcount. split_and!; [done | done |].
  unfold like_by. cbn [likes set_likes]. unfold like_by in Hnone.
  rewrite (find_snoc_none _ _ _ Hnone). simpl.
  rewrite !bool_decide_eq_true_2 by done. by eexists.
Qed.

(** * Further properties of the views *)

(** ** What holds in every world the application reaches *)

Lemma NoDup_fmap_inj_on {A K} (key : A → K) (l : list A) (x y : A) :
  NoDup (key <$> l) → x ∈ l → y ∈ l → key x = key y → x = y.
Proof.
  induction l as [|a l IH]; intros Hnodup Hx Hy Hkey.
  - by apply elem_of_nil in Hx.
  - rewrite fmap_cons in Hnodup. apply NoDup_cons in Hnodup as [Ha Hnodup].
    apply elem_of_cons in Hx as [-> | Hx]; apply elem_of_cons in Hy as [-> | Hy].
    + done.
    + exfalso. apply Ha. rewrite Hkey. by apply list_elem_of_fmap_2.
    + exfalso. apply Ha. rewrite <- Hkey. by apply list_elem_of_fmap_2.
    + by apply IH.
Qed.

Lemma get_user_elem (uid : nat) (d : DB) (u : User.t) :
  get_user uid d = Some u → u ∈ users d ∧ User.id u = uid.
Proof.
  unfold get_user. intros [Hin Hid]%find_some_elem.
  by apply bool_decide_eq_true in Hid.
Qed.

Lemma get_user_unique (d : DB) (u : User.t) :
  NoDup (User.id <$> users d) → u ∈ users d → get_user (User.id u) d = Some u.
Proof. intros Hnodup Hin. by apply (find_unique_key User.id). Qed.

Section AdminInvariants.
Context `{Werkzeug} (cfg : Config).

Lemma add_user_keeps_admins_named (name mail pw_hash : string) (admin : bool)
    (now : Z) (d d' : DB) (row : User.t) :
  admins_named cfg d →
  admin = false ∨ name = ADMIN_USERNAME cfg →
  add_user name mail pw_hash admin now d = Committed row d' →
  admins_named cfg d'.
Proof.
  intros Hd Hnew Hadd. unfold add_user in Hadd.
  destruct (existsb _ _); [done|]. injection Hadd as <- <-.
  intros u [Hu | Hu%list_elem_of_singleton]%elem_of_app Hadmin.
  - by apply Hd.
  - subst u. simpl in *. destruct Hnew; congruence.
Qed.

Lemma add_user_keeps_admins_unblocked (name mail pw_hash : string)
    (admin : bool) (now : Z) (d d' : DB) (row : User.t) :
  admins_unblocked d →
  add_user name mail pw_hash admin now d = Committed row d' →
  admins_unblocked d'.
Proof.
  intros Hd Hadd. unfold add_user in Hadd.
  destruct (existsb _ _); [done|]. injection Hadd as <- <-.
  intros u [Hu | Hu%list_elem_of_singleton]%elem_of_app Hadmin.
  - by apply Hd.
  - by subst u.
Qed.

Lemma update_blocked_keeps_admins_named (uid : nat) (b : bool) (d : DB) :
  admins_named cfg d → admins_named cfg (update_blocked uid b d).
Proof.
  intros Hd u (v & -> & Hv)%list_elem_of_fmap Hadmin.
  destruct (bool_decide (User.id v = uid)); simpl in *; by apply Hd.
Qed.

Lemma update_avatar_url_keeps_admins_named (uid : nat) (url : string)
    (d : DB) :
  admins_named cfg d → admins_named cfg (update_avatar_url uid url d).
Proof.
  intros Hd u (v & -> & Hv)%list_elem_of_fmap Hadmin.
  destruct (bool_decide (User.id v = uid)); simpl in *; by apply Hd.
Qed.

Lemma update_avatar_url_keeps_admins_unblocked (uid : nat) (url : string)
    (d : DB) :
  admins_unblocked d → admins_unblocked (update_avatar_url uid url d).
Proof.
  intros Hd u (v & -> & Hv)%list_elem_of_fmap Hadmin.
  destruct (bool_decide (User.id v = uid)); simpl in *; by apply Hd.
Qed.

Lemma unblock_keeps_admins_unblocked (uid : nat) (d : DB) :
  admins_unblocked d → admins_unblocked (update_blocked uid false d).
Proof.
  intros Hd u (v & -> & Hv)%list_elem_of_fmap Hadmin.
  destruct (bool_decide (User.id v = uid)); simpl in *; [done | by apply Hd].
Qed.

(** Blocking the account a primary key finds, when that account is no
    administrator, blocks no administrator. *)
Lemma block_keeps_admins_unblocked (uid : nat) (d : DB) (user : User.t) :
  NoDup (User.id <$> users d) →
  get_user uid d = Some user → User.is_admin user = false →
  admins_unblocked d → admins_unblocked (update_blocked uid true d).
Proof.
  intros Hpk [Huser Hid]%get_user_elem Hplain Hd u
         (v & -> & Hv)%list_elem_of_fmap Hadmin.
  case_bool_decide as Hv_id; [|by apply Hd].
  assert (v = user) as ->
    by (apply (NoDup_fmap_inj_on User.id (users d)); congruence).
  simpl in Hadmin. congruence.
Qed.
End AdminInvariants.

(** ** What each route leaves alone *)

Lemma save_image_frame `{Werkzeug} (file_storage : option FileStorage)
    (env : Env) (w w1 : World) (url : string) :
  save_image file_storage env w = Returns url w1 →
  db w1 = db w ∧ session w1 = session w ∧ flashes w1 = flashes w.
Proof.
  destruct (save_image_cases file_storage env w)
    as [-> | [-> | (fs & safe & _ & _ & ->)]]; [done| |];
    by intros [= _ <-].
Qed.

(** Unfolds the views and splits their branches. *)
Ltac view_cases :=
  unfold to_page, index, about, register, login, login_check, logout, profile,
    upload_avatar, create_post, like_post, comment_post, admin,
    admin_block_user, admin_unblock_user, admin_delete_post,
    admin_restore_post, uploaded_file, login_required, unauthorized,
    get_or_404, add_user, add_like;
  repeat (first [progress cbn [fst snd] | case_match]; try done);
  simplify_eq/=; try done.

Lemma create_post_frame `{Werkzeug} (req : Request) (env : Env) (w : World) :
  let w' := (create_post req env w).2 in
  users (db w') = users (db w) ∧ comments (db w') = comments (db w)
  ∧ likes (db w') = likes (db w) ∧ session w' = session w.
Proof.
  unfold create_post, login_required, unauthorized.
  destruct (current_user w); [|done].
  destruct (method req); [done|].
  destruct (bool_decide _ && negb _); [done|].
  destruct (truthy_file _); [|done].
  destruct (save_image _ env w) as [image_url w1|] eqn:Hsave; [|done].
  apply save_image_frame in Hsave as (Hdb & Hsession & _). simpl in *.
  by rewrite Hdb, Hsession.
Qed.

Lemma upload_avatar_frame `{Werkzeug} (req : Request) (env : Env)
    (w : World) :
  let w' := (upload_avatar req env w).2 in
  posts (db w') = posts (db w) ∧ comments (db w') = comments (db w)
  ∧ likes (db w') = likes (db w) ∧ session w' = session w.
Proof.
  unfold upload_avatar, login_required, unauthorized.
  destruct (current_user w); [|done].
  destruct (save_image _ env w) as [url w1|] eqn:Hsave; [|done].
  apply save_image_frame in Hsave as (Hdb & Hsession & _). simpl in *.
  case_bool_decide; simpl; by rewrite Hdb, Hsession.
Qed.

Lemma serve_writes_only `{Werkzeug} (cfg : Config) (c : Call) (w : World) :
  let w' := (serve cfg c w).2 in
  (writes_users c = false → users (db w') = users (db w))
  ∧ (writes_posts c = false → posts (db w') = posts (db w))
  ∧ (writes_comments c = false → comments (db w') = comments (db w))
  ∧ (writes_likes c = false → likes (db w') = likes (db w)).
Proof.
  pose proof (create_post_frame) as Hcreate.
  pose proof (upload_avatar_frame) as Havatar.
  destruct c; cbn [serve writes_users writes_posts writes_comments
                   writes_likes];
    split_and!; intros Hw; try discriminate Hw; clear Hw;
    try (by apply Hcreate); try (by apply Havatar); by view_cases.
Qed.

(** X1: a route changes a table, the upload directory or the session
    only if its view has a statement that writes there: the five
    GET-only routes and the four moderation routes never touch the
    likes, only [like_post] does; only [comment_post] adds comments;
    only [login] and [logout] change the session; and so on for users,
    posts and uploads. *)
Theorem serve_frame `{Werkzeug} (cfg : Config) (c : Call) (w : World) :
  let w' := (serve cfg c w).2 in
  (writes_users c = false → users (db w') = users (db w))
  ∧ (writes_posts c = false → posts (db w') = posts (db w))
  ∧ (writes_comments c = false → comments (db w') = comments (db w))
  ∧ (writes_likes c = false → likes (db w') = likes (db w))
  ∧ (writes_uploads c = false → uploads w' = uploads w)
  ∧ (writes_session c = false → session w' = session w).
Proof.
  pose proof (create_post_frame) as Hcreate.
  pose proof (upload_avatar_frame) as Havatar.
  destruct c; cbn [serve writes_users writes_posts writes_comments
                   writes_likes writes_uploads writes_session];
    split_and!; intros Hw; try discriminate Hw; clear Hw;
    try (by apply Hcreate); try (by apply Havatar); by view_cases.
Qed.

(** ** The invariant of the store *)

Section StoreInvariant.
Context `{Werkzeug} (cfg : Config).

Lemma upload_avatar_keeps_constraints (req : Request) (env : Env)
    (w : World) :
  db_constraints (db w) → db_constraints (db (upload_avatar req env w).2).
Proof.
  intros Hw. unfold upload_avatar, login_required, unauthorized.
  destruct (current_user w); [|done].
  destruct (save_image _ env w) as [url w1|] eqn:Hsave; [|done].
  apply save_image_frame in Hsave as (Hdb & _). simpl in *.
  case_bool_decide; simpl; rewrite Hdb; [done|].
  by apply update_avatar_url_keeps_constraints.
Qed.

Lemma serve_keeps_constraints (c : Call) (w : World) :
  db_constraints (db w) → db_constraints (db (serve cfg c w).2).
Proof.
  intros Hw. destruct c; cbn [serve to_page fst snd].
  - unfold index. by case_match.
  - done.
  - by apply register_keeps_constraints.
  - by apply login_keeps_constraints.
  - unfold logout, login_required, unauthorized. by case_match.
  - unfold profile, to_page, unauthorized. by case_match.
  - by apply upload_avatar_keeps_constraints.
  - by apply create_post_keeps_constraints.
  - by apply like_post_keeps_constraints.
  - by apply comment_post_keeps_constraints.
  - unfold admin, to_page, unauthorized. by repeat case_match.
  - by apply admin_block_user_keeps_constraints.
  - by apply admin_unblock_user_keeps_constraints.
  - by apply admin_delete_post_keeps_constraints.
  - by apply admin_restore_post_keeps_constraints.
  - unfold uploaded_file. by case_match.
Qed.

Lemma admins_named_users_eq (d d' : DB) :
  users d' = users d → admins_named cfg d → admins_named cfg d'.
Proof. unfold admins_named. by intros ->. Qed.

Lemma admins_unblocked_users_eq (d d' : DB) :
  users d' = users d → admins_unblocked d → admins_unblocked d'.
Proof. unfold admins_unblocked. by intros ->. Qed.

Lemma serve_keeps_admins_named (c : Call) (w : World) :
  admins_named cfg (db w) → admins_named cfg (db (serve cfg c w).2).
Proof.
  intros Hw. destruct (writes_users c) eqn:Hwrites.
  - destruct c; try discriminate Hwrites; cbn [serve to_page fst snd].
    + unfold register. repeat (case_match; try done). simpl.
      match goal with
      | Hadd : add_user _ _ _ _ _ _ = Committed _ _ |- _ =>
          exact (add_user_keeps_admins_named cfg _ _ _ _ _ _ _ _ Hw
                   (or_introl eq_refl) Hadd)
      end.
    + unfold login, login_check.
      repeat (first [progress simpl | case_match]; try done);
        match goal with
        | Hadd : add_user _ _ _ _ _ _ = Committed _ _ |- _ =>
            exact (add_user_keeps_admins_named cfg _ _ _ _ _ _ _ _ Hw
                     (or_intror eq_refl) Hadd)
        end.
    + unfold upload_avatar, login_required, unauthorized.
      destruct (current_user w); [|done].
      destruct (save_image _ env w) as [url w1|] eqn:Hsave; [|done].
      apply save_image_frame in Hsave as (Hdb & _). simpl in *.
      case_bool_decide; simpl; rewrite Hdb; [done|].
      by apply update_avatar_url_keeps_admins_named.
    + unfold admin_block_user, login_required, unauthorized.
      repeat (first [progress simpl | case_match]; try done).
      by apply update_blocked_keeps_admins_named.
    + unfold admin_unblock_user, login_required, unauthorized.
      repeat (first [progress simpl | case_match]; try done).
      by apply update_blocked_keeps_admins_named.
  - apply admins_named_users_eq with (db w); [|done].
    by apply (serve_writes_only cfg c w).
Qed.

Lemma serve_keeps_admins_unblocked (c : Call) (w : World) :
  db_constraints (db w) →
  admins_unblocked (db w) → admins_unblocked (db (serve cfg c w).2).
Proof.
  intros Hpk Hw. destruct (writes_users c) eqn:Hwrites.
  - destruct c; try discriminate Hwrites; cbn [serve to_page fst snd].
    + unfold register. repeat (case_match; try done). simpl.
      match goal with
      | Hadd : add_user _ _ _ _ _ _ = Committed _ _ |- _ =>
          exact (add_user_keeps_admins_unblocked _ _ _ _ _ _ _ _ Hw Hadd)
      end.
    + unfold login, login_check.
      repeat (first [progress simpl | case_match]; try done);
        match goal with
        | Hadd : add_user _ _ _ _ _ _ = Committed _ _ |- _ =>
            exact (add_user_keeps_admins_unblocked _ _ _ _ _ _ _ _ Hw Hadd)
        end.
    + unfold upload_avatar, login_required, unauthorized.
      destruct (current_user w); [|done].
      destruct (save_image _ env w) as [url w1|] eqn:Hsave; [|done].
      apply save_image_frame in Hsave as (Hdb & _). simpl in *.
      case_bool_decide; simpl; rewrite Hdb; [done|].
      by apply update_avatar_url_keeps_admins_unblocked.
    + unfold admin_block_user, login_required, unauthorized.
      repeat (first [progress simpl | case_match]; try done).
      eapply block_keeps_admins_unblocked;
        [by destruct Hpk | by eapply get_or_404_found | done | done].
    + unfold admin_unblock_user, login_required, unauthorized.
      repeat (first [progress simpl | case_match]; try done).
      by apply unblock_keeps_admins_unblocked.
  - apply admins_unblocked_users_eq with (db w); [|done].
    by apply (serve_writes_only cfg c w).
Qed.

Lemma serve_keeps_invariant (c : Call) (w : World) :
  store_invariant cfg (db w) → store_invariant cfg (db (serve cfg c w).2).
Proof.
  intros (Hc & Hn & Hu). split_and!.
  - by apply serve_keeps_constraints.
  - by apply serve_keeps_admins_named.
  - by apply serve_keeps_admins_unblocked.
Qed.

Lemma init_db_keeps_invariant (env : Env) (d d' : DB) :
  store_invariant cfg d → init_db cfg env d = Some d' →
  store_invariant cfg d'.
Proof.
  intros (Hc & Hn & Hu). unfold init_db.
  destruct (user_by_username _ d); [by intros [= <-]|].
  destruct (add_user _ _ _ _ _ d) as [row d1|] eqn:Hadd; [|done].
  intros [= <-]. split_and!.
  - exact (add_user_keeps_constraints _ _ _ _ _ _ _ _ Hc Hadd).
  - exact (add_user_keeps_admins_named cfg _ _ _ _ _ _ _ _ Hn
             (or_intror eq_refl) Hadd).
  - exact (add_user_keeps_admins_unblocked _ _ _ _ _ _ _ _ Hu Hadd).
Qed.

Lemma empty_db_invariant : store_invariant cfg empty_db.
Proof.
  split_and!; [apply empty_db_constraints | |];
    intros u Hu; by apply elem_of_nil in Hu.
Qed.
End StoreInvariant.

(** X2: in every world the application reaches from the empty store, by
    [init_db] and by any sequence of requests, the declared uniqueness
    constraints hold, every account with the admin flag carries the
    configured admin name, so that there is at most one administrator,
    and no administrator is blocked. *)
Theorem reachable_store_invariant `{Werkzeug} (cfg : Config) (w : World) :
  reachable cfg w →
  db_constraints (db w)
  ∧ (∀ u, u ∈ users (db w) → User.is_admin u = true →
          User.username u = ADMIN_USERNAME cfg ∧ User.blocked u = false)
  ∧ (∀ u v, u ∈ users (db w) → v ∈ users (db w) →
            User.is_admin u = true → User.is_admin v = true → u = v).
Proof.
  intros Hreach.
  assert (Hinv : store_invariant cfg (db w)).
  { induction Hreach as [|env w d _ IH Hinit|c w _ IH].
    - apply empty_db_invariant.
    - by apply (init_db_keeps_invariant cfg env (db w)).
    - by apply serve_keeps_invariant. }
  destruct Hinv as (Hc & Hn & Hu). split_and!; [done | |].
  - intros u Hin Hadmin. split; [by apply Hn | by apply Hu].
  - intros u v Hu_in Hv_in Hu_admin Hv_admin.
    apply (NoDup_fmap_inj_on User.username (users (db w)));
      [by destruct Hc | done | done |].
    by rewrite (Hn u), (Hn v).
Qed.

(** The worlds of the examples are reached by requests. *)
Lemma alice_world_reachable : reachable (H := Stub.werkzeug) default_config alice_world.
Proof.
  unfold alice_world.
  apply (reachable_serve default_config
           (call_create_post (post_request [("content", "hello")])
                             (at_time 3000000))).
  apply (reachable_serve default_config
           (call_login (post_request [("username", "alice");
                                      ("password", "pw1"); ("role", "user")])
                       (at_time 2000000))).
  apply (reachable_serve default_config
           (call_register (post_request [("username", "alice");
                                         ("email", "a@x.com");
                                         ("password", "pw1")])
                          (at_time 1000000))).
  apply reachable_empty.
Defined.

Lemma admin_session_world_reachable :
  reachable (H := Stub.werkzeug) default_config admin_session_world.
Proof.
  unfold admin_session_world.
  apply (reachable_serve default_config
           (call_login (admin_login_request "Admin@12345") (at_time 4000000))).
  apply (reachable_serve default_config
           (call_create_post (post_request [("content", "again")])
                             (at_time 3500000))).
  apply alice_world_reachable.
Defined.

Lemma alice_world_constraints : db_constraints (db alice_world).
Proof.
  unfold alice_world.
  apply (serve_keeps_constraints (H := Stub.werkzeug) default_config
           (call_create_post (post_request [("content", "hello")])
                             (at_time 3000000))).
  apply (serve_keeps_constraints (H := Stub.werkzeug) default_config
           (call_login (post_request [("username", "alice");
                                      ("password", "pw1"); ("role", "user")])
                       (at_time 2000000))).
  apply (serve_keeps_constraints (H := Stub.werkzeug) default_config
           (call_register (post_request [("username", "alice");
                                         ("email", "a@x.com");
                                         ("password", "pw1")])
                          (at_time 1000000))).
  apply empty_db_constraints.
Qed.

Lemma admin_session_world_constraints : db_constraints (db admin_session_world).
Proof.
  unfold admin_session_world.
  apply (serve_keeps_constraints (H := Stub.werkzeug) default_config
           (call_login (admin_login_request "Admin@12345") (at_time 4000000))).
  apply (serve_keeps_constraints (H := Stub.werkzeug) default_config
           (call_create_post (post_request [("content", "again")])
                             (at_time 3500000))).
  apply alice_world_constraints.
Qed.

(** Witness of X1: a like leaves users, posts, comments, uploads and
    session as they were. *)
Lemma serve_frame_witness :
  let w' := (serve (H := Stub.werkzeug) default_config
               (call_like_post 1 (at_time 4000000)) alice_world).2 in
  users (db w') = users (db alice_world)
  ∧ posts (db w') = posts (db alice_world)
  ∧ comments (db w') = comments (db alice_world)
  ∧ uploads w' = uploads alice_world
  ∧ session w' = session alice_world.
Proof.
  destruct (serve_frame (H := Stub.werkzeug) default_config
              (call_like_post 1 (at_time 4000000)) alice_world)
    as (Husers & Hposts & Hcomments & _ & Huploads & Hsession).
  split_and!;
    [apply Husers | apply Hposts | apply Hcomments | apply Huploads
     | apply Hsession]; reflexivity.
Defined.

(** Witness of X2: the world with alice, her posts and the provisioned
    administrator. *)
Lemma reachable_store_invariant_witness :
  db_constraints (db admin_session_world)
  ∧ (∀ u, u ∈ users (db admin_session_world) → User.is_admin u = true →
          User.username u = "admin" ∧ User.blocked u = false)
  ∧ (∀ u v, u ∈ users (db admin_session_world) →
            v ∈ users (db admin_session_world) →
            User.is_admin u = true → User.is_admin v = true → u = v).
Proof.
  apply (reachable_store_invariant (H := Stub.werkzeug) default_config
           admin_session_world).
  apply admin_session_world_reachable.
Defined.

(** ** Who is let in *)

Lemma serve_anonymous `{Werkzeug} (cfg : Config) (c : Call) (w : World) :
  current_user w = None →
  open_to_anonymous c = false →
  (serve cfg c w).1 = response (redirect "login")
  ∧ db (serve cfg c w).2 = db w
  ∧ uploads (serve cfg c w).2 = uploads w
  ∧ session (serve cfg c w).2 = session w.
Proof.
  intros Hanon Hopen.
  destruct c; try discriminate Hopen; cbn [serve];
    unfold to_page, index, logout, profile, upload_avatar, create_post,
      like_post, comment_post, admin, admin_block_user, admin_unblock_user,
      admin_delete_post, admin_restore_post, login_required, unauthorized;
    by rewrite Hanon.
Qed.

(** X3: an anonymous caller (no session, or a session whose user row
    does not exist) is redirected to the login page by every route but
    [about], [register], [login] and [uploaded_file]; the store, the
    uploads and the session stay as they are. [uploaded_file] asks for
    no login: whoever calls, it answers with the file that
    [send_from_directory] finds in the upload directory, or with 404,
    and it changes nothing. *)
Theorem anonymous_is_redirected `{Werkzeug} (cfg : Config) (c : Call)
    (w : World) :
  current_user w = None →
  (open_to_anonymous c = false →
     (serve cfg c w).1 = response (redirect "login")
     ∧ db (serve cfg c w).2 = db w
     ∧ uploads (serve cfg c w).2 = uploads w
     ∧ session (serve cfg c w).2 = session w)
  ∧ (∀ filename,
       c = call_uploaded_file filename →
       serve cfg c w =
         (match send_from_directory (uploads w) filename with
          | Some content => sent_file content
          | None => response (abort 404)
          end, w)
       ∧ ∀ who, (serve cfg c (set_session who w)).1 = (serve cfg c w).1).
Proof.
  intros Hanon. split.
  - intros Hopen.
    destruct c; try discriminate Hopen; cbn [serve];
      unfold to_page, index, logout, profile, upload_avatar, create_post,
        like_post, comment_post, admin, admin_block_user, admin_unblock_user,
        admin_delete_post, admin_restore_post, login_required, unauthorized;
      by rewrite Hanon.
  - intros name ->. cbn [serve]. unfold uploaded_file.
    cbn [uploads set_session].
    by destruct (send_from_directory (uploads w) name).
Qed.

(** Witness of X3: nobody is logged in on the empty world; a file that
    alice has uploaded is sent to whoever asks for it. *)
Lemma anonymous_is_redirected_witness :
  let w := set_session None
             (set_uploads (<["cat_5.png" := "bytes"]> ∅) alice_world) in
  (serve (H := Stub.werkzeug) default_config
         (call_create_post (post_request [("content", "hi")]) (at_time 1))
         empty_world).1 = response (redirect "login")
  ∧ db (serve (H := Stub.werkzeug) default_config
              (call_create_post (post_request [("content", "hi")]) (at_time 1))
              empty_world).2 = db empty_world
  ∧ serve (H := Stub.werkzeug) default_config (call_uploaded_file "cat_5.png")
          w = (sent_file "bytes", w)
  ∧ serve (H := Stub.werkzeug) default_config (call_uploaded_file "dog.png")
          w = (response (abort 404), w).
Proof.
  intros w.
  destruct (proj1 (anonymous_is_redirected (H := Stub.werkzeug)
                     default_config
                     (call_create_post (post_request [("content", "hi")])
                                       (at_time 1))
                     empty_world eq_refl) eq_refl)
    as (Hpage & Hdb & _).
  destruct (proj2 (anonymous_is_redirected (H := Stub.werkzeug)
                     default_config (call_uploaded_file "cat_5.png") w
                     eq_refl) "cat_5.png" eq_refl) as [Hcat _].
  destruct (proj2 (anonymous_is_redirected (H := Stub.werkzeug)
                     default_config (call_uploaded_file "dog.png") w
                     eq_refl) "dog.png" eq_refl) as [Hdog _].
  split_and!; [exact Hpage | exact Hdb | exact Hcat | exact Hdog].
Defined.

(** X4: a logged-in caller without the admin flag gets 403 with
    ok=false from each of the four moderation routes, and is sent to the
    index with "Admin only." by the admin page; in both cases nothing in
    the store changes. *)
Theorem moderation_refuses_members `{Werkzeug} (cfg : Config) (c : Call)
    (w : World) (cu : User.t) :
  current_user w = Some cu →
  User.is_admin cu = false →
  (moderation_route c = true →
     serve cfg c w = (response (jsonify [("ok", JBool false)] 403), w))
  ∧ serve cfg call_admin w =
      (response (redirect "index"), flash "Admin only." "error" w).
Proof.
  intros Hcu Hplain. split.
  - intros Hroute. destruct c; try discriminate Hroute; cbn [serve];
      unfold to_page, admin_block_user, admin_unblock_user, admin_delete_post,
        admin_restore_post, login_required, admin_only;
      by rewrite Hcu, Hplain.
  - cbn [serve]. unfold admin, admin_only. by rewrite Hcu, Hplain.
Qed.

(** Witness of X4: alice is a member, not an administrator. *)
Lemma moderation_refuses_members_witness :
  serve (H := Stub.werkzeug) default_config (call_admin_delete_post 1)
        alice_world
    = (response (jsonify [("ok", JBool false)] 403), alice_world)
  ∧ serve (H := Stub.werkzeug) default_config call_admin alice_world
    = (response (redirect "index"), flash "Admin only." "error" alice_world).
Proof.
  destruct (moderation_refuses_members (H := Stub.werkzeug) default_config
              (call_admin_delete_post 1) alice_world
              (User.mk 1 "alice" "a@x.com" "plain$s$pw1" false false ""
                       1000000) eq_refl eq_refl) as [Hroute Hpage].
  split; [by apply Hroute | exact Hpage].
Defined.

(** ** Unhandled errors *)






(** ** Comments *)

(** X6: for a logged-in caller, [comment_post] adds no comment when the
    post is missing (404 for an id up to [MAX_INTEGER], the unhandled
    [OverflowError] and so 500 for a larger one), soft-deleted ("Post
    removed.") or the trimmed text is empty ("Comment cannot be
    empty."). Otherwise it appends
    exactly one comment, with the trimmed text, the caller as author and
    the post as parent; the comments of the post grow by that one, and
    the comments of every other post are the same. *)
Theorem comment_post_adds_one_comment
    (pid : nat) (req : Request) (env : Env) (w : World) (cu : User.t) :
  current_user w = Some cu →
  let content := form_field "content" req in
  let result := comment_post pid req env w in
  (get_post pid (db w) = None → Z.of_nat pid ≤ MAX_INTEGER →
     result = (abort 404, w))
  ∧ (get_post pid (db w) = None → MAX_INTEGER < Z.of_nat pid →
     result = (abort 500, w))
  ∧ (∀ post, get_post pid (db w) = Some post →
       (Post.is_deleted post = true →
          result = (redirect "index", flash "Post removed." "error" w))
       ∧ (Post.is_deleted post = false → content = "" →
          result = (redirect "index",
                    flash "Comment cannot be empty." "error" w))
       ∧ (Post.is_deleted post = false → content ≠ "" →
          let row := Comment.mk (fresh_id (Comment.id <$> comments (db w)))
                                content (User.id cu) pid (utcnow env) false in
          result.1 = redirect "index"
          ∧ comments (db result.2) = (comments (db w) ++ [row])%list
          ∧ post_comments pid (db result.2)
            = (post_comments pid (db w) ++ [row])%list
          ∧ (∀ other, other ≠ pid →
               post_comments other (db result.2)
               = post_comments other (db w))
          ∧ flashes result.2
            = (flashes w ++ [("Comment added.", "success")])%list)).
Proof.
  intros Hcu content result. subst result.
  unfold comment_post, login_required. rewrite Hcu. fold content.
  split_and!.
  - intros -> Hle. by rewrite get_or_404_missing.
  - intros -> Hlt. by rewrite get_or_404_overflow.
  - intros post ->. cbn [get_or_404]. split_and!.
    + by intros ->.
    + intros -> ->. by rewrite bool_decide_eq_true_2.
    + intros -> Hcontent. rewrite bool_decide_eq_false_2 by done.
      cbn [add_comment fst snd db set_db comments set_comments flashes flash].
      unfold post_comments. cbn [comments set_comments].
      split_and!; try done.
      * rewrite filter_app, filter_cons_True by done. by rewrite filter_nil.
      * intros other Hother. rewrite filter_app, filter_cons_False by done.
        by rewrite filter_nil, app_nil_r.
Qed.

(** Witness of X6: alice comments on her post; a blank comment and a
    comment on a missing post are refused. *)
Lemma comment_post_adds_one_comment_witness :
  comment_post 9 (post_request [("content", "nice")]) (at_time 6000000)
               alice_world = (abort 404, alice_world)
  ∧ comment_post 1 (post_request [("content", "  ")]) (at_time 6000000)
                 alice_world
    = (redirect "index",
       flash "Comment cannot be empty." "error" alice_world)
  ∧ comments (db (comment_post 1 (post_request [("content", " nice ")])
                               (at_time 6000000) alice_world).2)
    = [Comment.mk 1 "nice" 1 1 6000000 false].
Proof.
  pose (alice := User.mk 1 "alice" "a@x.com" "plain$s$pw1" false false ""
                         1000000).
  pose (hello := Post.mk 1 "hello" "" 1 3000000 false).
  assert (H9 : Z.of_nat 9 ≤ MAX_INTEGER) by (unfold MAX_INTEGER; lia).
  split_and!.
  - apply (proj1 (comment_post_adds_one_comment 9
                    (post_request [("content", "nice")]) (at_time 6000000)
                    alice_world alice eq_refl)); [reflexivity | exact H9].
  - apply (proj1 (proj2 (proj2 (proj2 (comment_post_adds_one_comment 1
                    (post_request [("content", "  ")]) (at_time 6000000)
                    alice_world alice eq_refl)) hello eq_refl)));
      reflexivity.
  - assert (Hcontent : form_field "content"
                         (post_request [("content", " nice ")]) ≠ "")
      by discriminate.
    destruct (proj2 (proj2 (proj2 (proj2 (comment_post_adds_one_comment 1
                (post_request [("content", " nice ")]) (at_time 6000000)
                alice_world alice eq_refl)) hello eq_refl))
                eq_refl Hcontent) as (_ & Hcomments & _).
    exact Hcomments.
Defined.

(** ** Sessions *)

Lemma login_check_sound `{Werkzeug} (user : option User.t) (pw : string)
    (w0 : World) :
  ((login_check user pw w0).1 = redirect "index" →
     ∃ u, user = Some u
          ∧ check_password_hash (User.password_hash u) pw = true
          ∧ (User.blocked u = false ∨ User.is_admin u = true)
          ∧ (login_check user pw w0).2
            = flash "Login successful." "success" (login_user u w0))
  ∧ ((login_check user pw w0).1 ≠ redirect "index" →
     session (login_check user pw w0).2 = session w0
     ∧ db (login_check user pw w0).2 = db w0).
Proof.
  unfold login_check. destruct user as [u|]; [|by split].
  destruct (check_password_hash _ pw) eqn:Hpw; [|by split].
  destruct (User.blocked u) eqn:Hblocked;
    destruct (User.is_admin u) eqn:Hadmin; cbn [andb negb fst snd];
    split; try done; intros _; exists u; auto.
Qed.

(** X7: [login] binds the session only after it has checked the
    password. Whenever it answers with the redirect to the index, the
    session holds the id of an account of the store that has the
    submitted (trimmed) name, whose digest fits the submitted password,
    and that is not blocked unless it is an administrator; under the
    primary key that account is then the current user. Whenever it
    answers anything else, the session is the one before. *)
Theorem login_binds_session_only_after_check `{Werkzeug} (cfg : Config)
    (req : Request) (env : Env) (w : World) :
  let result := login cfg req env w in
  (result.1 = redirect "index" →
     ∃ u, u ∈ users (db result.2)
          ∧ session result.2 = Some (User.id u)
          ∧ User.username u = form_field "username" req
          ∧ check_password_hash (User.password_hash u)
                                (or_else (form_get "password" req) "") = true
          ∧ (User.blocked u = false ∨ User.is_admin u = true)
          ∧ (NoDup (User.id <$> users (db result.2)) →
             current_user result.2 = Some u))
  ∧ (result.1 ≠ redirect "index" → session result.2 = session w).
Proof.
  intros result. subst result. unfold login.
  set (password := or_else (form_get "password" req) "").
  set (username := form_field "username" req).
  assert (Hbind : ∀ (u : User.t) (w0 : World),
            u ∈ users (db w0) → User.username u = username →
            check_password_hash (User.password_hash u) password = true →
            User.blocked u = false ∨ User.is_admin u = true →
            let w1 := flash "Login successful." "success" (login_user u w0) in
            ∃ v, v ∈ users (db w1) ∧ session w1 = Some (User.id v)
                 ∧ User.username v = username
                 ∧ check_password_hash (User.password_hash v) password = true
                 ∧ (User.blocked v = false ∨ User.is_admin v = true)
                 ∧ (NoDup (User.id <$> users (db w1)) →
                    current_user w1 = Some v)).
  { intros u w0 Hin Hname Hpw Hok w1. exists u. split_and!; try done.
    intros Hpk. unfold current_user, w1. simpl. unfold load_user. simpl.
    by apply get_user_unique. }
  destruct (method req); [by split|].
  case_bool_decide as Hrole.
  - case_bool_decide as Hname; cbn [negb]; [|by split].
    destruct (user_by_username _ (db w)) as [user|] eqn:Huser.
    + destruct (login_check_sound (Some user) password w) as [Hyes Hno].
      split; [|by intros Hne; apply Hno].
      intros (u & [= <-] & Hpw & Hok & ->)%Hyes.
      apply find_some_elem in Huser as [Hin Huname%bool_decide_eq_true].
      apply Hbind; try done. congruence.
    + destruct (add_user _ _ _ _ _ (db w)) as [row d|] eqn:Hadd; [|by split].
      destruct (login_check_sound (Some row) password (set_db d w))
        as [Hyes Hno].
      split; [|by intros Hne; apply Hno].
      intros (u & [= <-] & Hpw & Hok & ->)%Hyes.
      unfold add_user in Hadd. destruct (existsb _ _); [done|].
      injection Hadd as <- <-.
      apply Hbind; try done.
      cbn [db set_db users set_users]. apply elem_of_app. right.
      apply list_elem_of_here.
  - destruct (login_check_sound (user_by_username username (db w)) password w)
      as [Hyes Hno].
    split; [|by intros Hne; apply Hno].
    intros (u & Huser & Hpw & Hok & ->)%Hyes.
    apply find_some_elem in Huser as [Hin Huname%bool_decide_eq_true].
    by apply Hbind.
Qed.

(** Witness of X7: alice logs in after her registration. *)
Lemma login_binds_session_only_after_check_witness :
  let result := run_login alice_login_request (at_time 2000000)
                          alice_registered_world in
  ∃ u, u ∈ users (db result.2)
       ∧ session result.2 = Some (User.id u)
       ∧ User.username u = "alice"
       ∧ Stub.check_password_hash (User.password_hash u) "pw1" = true
       ∧ (User.blocked u = false ∨ User.is_admin u = true)
       ∧ (NoDup (User.id <$> users (db result.2)) →
          current_user result.2 = Some u).
Proof.
  apply (proj1 (login_binds_session_only_after_check (H := Stub.werkzeug)
                  default_config alice_login_request (at_time 2000000)
                  alice_registered_world)).
  reflexivity.
Defined.

(** X8: registration and login fit together. After a registration that
    succeeds, a login under another role than admin with the same
    (trimmed) name and the same password, for which
    [check_password_hash] accepts the digest [generate_password_hash]
    made, succeeds and binds the session to the new account. *)
Theorem register_then_login `{Werkzeug} (cfg : Config)
    (reg log : Request) (env env' : Env) (w : World) :
  method reg = POST → method log = POST →
  let username := form_field "username" reg in
  let email := Py.lower (form_field "email" reg) in
  let password := or_else (form_get "password" reg) "" in
  username ≠ "" → email ≠ "" → password ≠ "" →
  (∀ u, u ∈ users (db w) →
        User.username u ≠ username ∧ User.email u ≠ email) →
  form_field "username" log = username →
  or_else (form_get "password" log) "" = password →
  Py.strip (or_else (form_get "role" log) "user") ≠ "admin" →
  check_password_hash (generate_password_hash (salt env) password) password
    = true →
  let w1 := (register reg env w).2 in
  let row := User.mk (fresh_id (User.id <$> users (db w))) username email
                     (generate_password_hash (salt env) password)
                     false false "" (utcnow env) in
  login cfg log env' w1
    = (redirect "index", flash "Login successful." "success" (login_user row w1))
  ∧ session (login cfg log env' w1).2
    = Some (fresh_id (User.id <$> users (db w))).
Proof.
  intros Hreg Hlog username email password Hname Hmail Hpw Hfree Hsame_name
         Hsame_pw Hrole Hcheck w1 row.
  assert (Hw1 : w1 = flash "Registration successful. Please login." "success"
                       (set_db (set_users (users (db w) ++ [row]) (db w)) w)).
  { subst w1. by rewrite (register_success reg env w Hreg Hname Hmail Hpw
                            Hfree). }
  assert (Hfound : user_by_username username (db w1) = Some row).
  { rewrite Hw1. unfold user_by_username. cbn [db flash set_db users set_users].
    rewrite find_snoc_none.
    - simpl. by rewrite bool_decide_eq_true_2.
    - apply find_none_iff. intros u Hu. apply bool_decide_eq_false.
      by destruct (Hfree u Hu). }
  rewrite (login_as_user cfg log env' w1 Hlog Hrole).
  rewrite Hsame_name, Hsame_pw, Hfound.
  unfold login_check. cbn [User.password_hash User.blocked row andb].
  by rewrite Hcheck.
Qed.

(** Witness of X8: alice registers on the empty store and logs in. *)
Lemma register_then_login_witness :
  let reg := post_request [("username", "alice"); ("email", "a@x.com");
                           ("password", "pw1")] in
  let w1 := (run_register reg (at_time 1000000) empty_world).2 in
  run_login alice_login_request (at_time 2000000) w1
    = (redirect "index",
       flash "Login successful." "success" (login_user alice_account w1))
  ∧ session (run_login alice_login_request (at_time 2000000) w1).2
    = Some 1%nat.
Proof.
  intros reg w1.
  apply (register_then_login (H := Stub.werkzeug) default_config reg
           alice_login_request (at_time 1000000) (at_time 2000000)
           empty_world); try reflexivity; try discriminate.
  intros u Hu. by apply elem_of_nil in Hu.
Defined.

Lemma current_user_flash (message category : string) (w : World) :
  current_user (flash message category w) = current_user w.
Proof. done. Qed.

(** X9: after [logout], whoever called it, there is no current user:
    every route behind [@login_required] then redirects to the login
    page and leaves the store alone. The store itself is not touched by
    [logout]. *)
Theorem logout_ends_session `{Werkzeug} (cfg : Config) (w : World) :
  let w' := (logout w).2 in
  current_user w' = None
  ∧ db w' = db w
  ∧ ∀ c, open_to_anonymous c = false →
         (serve cfg c w').1 = response (redirect "login")
         ∧ db (serve cfg c w').2 = db w.
Proof.
  intros w'.
  assert (Hanon : current_user w' = None ∧ db w' = db w).
  { subst w'. unfold logout, login_required, unauthorized.
    destruct (current_user w) eqn:Hcu; by cbn [snd]. }
  destruct Hanon as [Hanon Hdb]. split_and!; [done | done |].
  intros c Hopen.
  destruct (serve_anonymous cfg c w' Hanon Hopen) as (Hr & Hd & _).
  split; [done | congruence].
Qed.

(** Witness of X9: alice logs out and asks for her profile. *)
Lemma logout_ends_session_witness :
  let w' := (logout alice_world).2 in
  (serve (H := Stub.werkzeug) default_config call_profile w').1
    = response (redirect "login")
  ∧ db (serve (H := Stub.werkzeug) default_config call_profile w').2
    = db alice_world.
Proof.
  intros w'.
  apply (proj2 (proj2 (logout_ends_session (H := Stub.werkzeug)
                         default_config alice_world))).
  reflexivity.
Defined.

(** ** Blocking and unblocking *)

Lemma find_fmap_same {A} (P : A → bool) (f : A → A) (l : list A) :
  (∀ x, P (f x) = P x) → find P (f <$> l) = f <$> find P l.
Proof.
  intros HP. induction l as [|a l IH]; [done|].
  rewrite fmap_cons. simpl. rewrite HP. by destruct (P a).
Qed.

Lemma get_user_update_blocked (uid uid' : nat) (b : bool) (d : DB) :
  get_user uid' (update_blocked uid b d) = blocked_as uid b <$> get_user uid' d.
Proof.
  unfold get_user, update_blocked. cbn [users set_users].
  apply (find_fmap_same _ (blocked_as uid b)).
  intros v. unfold blocked_as.
  by destruct (bool_decide (User.id v = uid)).
Qed.

Lemma user_by_username_update_blocked (uid : nat) (name : string) (b : bool)
    (d : DB) :
  user_by_username name (update_blocked uid b d)
  = blocked_as uid b <$> user_by_username name d.
Proof.
  unfold user_by_username, update_blocked. cbn [users set_users].
  apply (find_fmap_same _ (blocked_as uid b)).
  intros v. unfold blocked_as.
  by destruct (bool_decide (User.id v = uid)).
Qed.

Lemma current_user_update_blocked (uid : nat) (b : bool) (w : World) :
  current_user (set_db (update_blocked uid b (db w)) w)
  = blocked_as uid b <$> current_user w.
Proof.
  unfold current_user, load_user. cbn [session set_db db].
  destruct (session w) as [sid|]; [|done]. simpl.
  apply get_user_update_blocked.
Qed.

(** Under the primary key, setting the flag of an account back to what
    it was gives the table back. *)
Lemma update_blocked_undo (d : DB) (u : User.t) (b : bool) :
  NoDup (User.id <$> users d) → u ∈ users d →
  update_blocked (User.id u) (User.blocked u)
                 (update_blocked (User.id u) b d) = d.
Proof.
  intros Hpk Hin. unfold update_blocked. cbn [users set_users].
  destruct d as [us ps cs ls]. cbn [users] in *. unfold set_users. simpl.
  f_equal. rewrite <- list_fmap_compose.
  rewrite <- (list_fmap_id us) at 2. apply list_fmap_ext.
  intros i v Hv. simpl.
  destruct (decide (User.id v = User.id u)) as [Hid | Hid].
  - assert (v = u) as ->.
    { apply (NoDup_fmap_inj_on User.id us); try done.
      by eapply list_elem_of_lookup_2. }
    rewrite (bool_decide_eq_true_2 (User.id u = User.id u)) by done. simpl.
    rewrite (bool_decide_eq_true_2 (User.id u = User.id u)) by done.
    by destruct u.
  - rewrite (bool_decide_eq_false_2 _ Hid). simpl.
    by rewrite (bool_decide_eq_false_2 _ Hid).
Qed.

(** X10: for an administrator, [admin_block_user] answers 404 for a
    missing id up to [MAX_INTEGER], ends in the unhandled
    [OverflowError] (500) for a larger one, and refuses, with 400 and
    "Cannot block admin", an account with the admin flag, the caller's
    own account included; in these cases nothing changes. For any other
    account it sets the
    blocked flag of that account and leaves every other account, the
    posts, comments and likes, and the session as they are. *)
Theorem admin_block_user_outcomes (uid : nat) (w : World) (cu : User.t) :
  current_user w = Some cu →
  User.is_admin cu = true →
  let result := admin_block_user uid w in
  (get_user uid (db w) = None → Z.of_nat uid ≤ MAX_INTEGER →
     result = (abort 404, w))
  ∧ (get_user uid (db w) = None → MAX_INTEGER < Z.of_nat uid →
     result = (abort 500, w))
  ∧ (∀ target, get_user uid (db w) = Some target →
       (User.is_admin target = true →
          result = (jsonify [("ok", JBool false);
                             ("message", JStr "Cannot block admin")] 400, w))
       ∧ (User.is_admin target = false →
          result.1 = jsonify [("ok", JBool true)] 200
          ∧ get_user uid (db result.2) = Some (User.set_blocked true target)
          ∧ (∀ other, other ≠ uid →
               get_user other (db result.2) = get_user other (db w))
          ∧ posts (db result.2) = posts (db w)
          ∧ comments (db result.2) = comments (db w)
          ∧ likes (db result.2) = likes (db w)
          ∧ session result.2 = session w))
  ∧ admin_block_user (User.id cu) w
    = (jsonify [("ok", JBool false); ("message", JStr "Cannot block admin")]
               400, w).
Proof.
  intros Hcu Hadmin result. subst result.
  unfold admin_block_user, login_required, admin_only.
  rewrite Hcu, Hadmin. cbn [negb]. split_and!.
  - intros -> Hle. by rewrite get_or_404_missing.
  - intros -> Hlt. by rewrite get_or_404_overflow.
  - intros target Htarget. rewrite Htarget. cbn [get_or_404]. split.
    + by intros ->.
    + intros Hplain. rewrite Hplain. cbn [fst snd db set_db session].
      split_and!; try done.
      * rewrite get_user_update_blocked, Htarget. cbn [fmap option_fmap option_map].
        unfold blocked_as. apply get_user_elem in Htarget as [_ Hid].
        by rewrite bool_decide_eq_true_2.
      * intros other Hother. rewrite get_user_update_blocked.
        destruct (get_user other (db w)) as [v|] eqn:Hv; [|done].
        apply get_user_elem in Hv as [_ Hid]. simpl. unfold blocked_as.
        rewrite bool_decide_eq_false_2; [done | congruence].
  - assert (Hself : get_user (User.id cu) (db w) = Some cu).
    { unfold current_user, load_user in Hcu.
      destruct (session w) as [sid|]; [|done]. simpl in Hcu.
      destruct (get_user_elem _ _ _ Hcu) as [_ <-]. done. }
    rewrite Hself. cbn [get_or_404]. by rewrite Hadmin.
Qed.

(** Witness of X10: the administrator blocks alice, and cannot block
    the administrator. *)
Lemma admin_block_user_outcomes_witness :
  (admin_block_user 1 admin_session_world).1 = jsonify [("ok", JBool true)] 200
  ∧ get_user 1 (db (admin_block_user 1 admin_session_world).2)
    = Some (User.set_blocked true alice_account)
  ∧ admin_block_user 2 admin_session_world
    = (jsonify [("ok", JBool false); ("message", JStr "Cannot block admin")]
               400, admin_session_world)
  ∧ admin_block_user 7 admin_session_world = (abort 404, admin_session_world).
Proof.
  assert (H7 : Z.of_nat 7 ≤ MAX_INTEGER) by (unfold MAX_INTEGER; lia).
  destruct (admin_block_user_outcomes 1 admin_session_world admin_account
              eq_refl eq_refl) as (_ & _ & Htarget & _).
  destruct (Htarget alice_account eq_refl) as [_ Hplain].
  destruct (Hplain eq_refl) as (Hok & Hflag & _).
  destruct (admin_block_user_outcomes 7 admin_session_world admin_account
              eq_refl eq_refl) as (Hmissing & _ & _ & Hself).
  split_and!; [exact Hok | exact Hflag | exact Hself |].
  apply Hmissing; [reflexivity | exact H7].
Defined.

(** X11: blocking works on the login and unblocking undoes it. Let an
    administrator block a member [u] who was not blocked, in a store
    that meets the declared constraints. Then a login of [u] with the
    right password is refused with "Your account is blocked. Contact
    admin."; and after [admin_unblock_user] the world is again the one
    before the block, so that the same login succeeds. *)
Theorem block_then_unblock `{Werkzeug} (cfg : Config) (w : World)
    (cu u : User.t) (req : Request) (env : Env) :
  db_constraints (db w) →
  current_user w = Some cu → User.is_admin cu = true →
  u ∈ users (db w) → User.is_admin u = false → User.blocked u = false →
  method req = POST →
  form_field "username" req = User.username u →
  Py.strip (or_else (form_get "role" req) "user") ≠ "admin" →
  check_password_hash (User.password_hash u)
                      (or_else (form_get "password" req) "") = true →
  let blocked := (admin_block_user (User.id u) w).2 in
  let unblocked := (admin_unblock_user (User.id u) blocked).2 in
  login cfg req env blocked
    = (redirect "login",
       flash "Your account is blocked. Contact admin." "error" blocked)
  ∧ unblocked = w
  ∧ login cfg req env unblocked
    = (redirect "index", flash "Login successful." "success" (login_user u w)).
Proof.
  intros Hw Hcu Hadmin Hin Hplain Hfree Hmethod Hname Hrole Hpw blocked
         unblocked.
  assert (Hpk : NoDup (User.id <$> users (db w))) by by destruct Hw.
  assert (Hnames : NoDup (User.username <$> users (db w))) by by destruct Hw.
  assert (Htarget : get_user (User.id u) (db w) = Some u)
    by by apply get_user_unique.
  assert (Hblocked : blocked
                     = set_db (update_blocked (User.id u) true (db w)) w).
  { subst blocked. unfold admin_block_user, login_required, admin_only.
    rewrite Hcu, Hadmin, Htarget. cbn [negb get_or_404]. by rewrite Hplain. }
  clearbody blocked. subst blocked.
  set (w1 := set_db (update_blocked (User.id u) true (db w)) w) in *.
  assert (Hcu' : current_user w1 = Some (blocked_as (User.id u) true cu)).
  { unfold w1. by rewrite current_user_update_blocked, Hcu. }
  assert (Hunblocked : unblocked = w).
  { subst unblocked. unfold admin_unblock_user, login_required, admin_only.
    rewrite Hcu'.
    assert (User.is_admin (blocked_as (User.id u) true cu) = true) as ->.
    { unfold blocked_as. by case_bool_decide. }
    cbn [negb].
    assert (get_user (User.id u) (db w1)
            = Some (blocked_as (User.id u) true u)) as ->.
    { unfold w1. cbn [db set_db]. by rewrite get_user_update_blocked, Htarget. }
    cbn [get_or_404 snd]. unfold w1. cbn [db set_db].
    rewrite <- Hfree at 1. rewrite update_blocked_undo by done.
    by destruct w. }
  split_and!.
  - rewrite (login_as_user cfg req env w1 Hmethod Hrole).
    rewrite Hname. unfold w1 at 1. cbn [db set_db].
    rewrite user_by_username_update_blocked.
    rewrite (user_by_username_unique (db w) u Hnames Hin).
    cbn [fmap option_fmap option_map]. unfold blocked_as.
    rewrite bool_decide_eq_true_2 by done.
    by rewrite login_check_blocked.
  - done.
  - rewrite Hunblocked.
    rewrite (login_as_user cfg req env w Hmethod Hrole).
    rewrite Hname, (user_by_username_unique (db w) u Hnames Hin).
    unfold login_check. by rewrite Hpw, Hfree.
Qed.

(** Witness of X11: the administrator blocks alice and unblocks her. *)
Lemma block_then_unblock_witness :
  let blocked := (admin_block_user 1 admin_session_world).2 in
  let unblocked := (admin_unblock_user 1 blocked).2 in
  run_login alice_login_request (at_time 5000000) blocked
    = (redirect "login",
       flash "Your account is blocked. Contact admin." "error" blocked)
  ∧ unblocked = admin_session_world
  ∧ run_login alice_login_request (at_time 5000000) unblocked
    = (redirect "index",
       flash "Login successful." "success"
             (login_user alice_account admin_session_world)).
Proof.
  apply (block_then_unblock (H := Stub.werkzeug) default_config
           admin_session_world admin_account alice_account
           alice_login_request (at_time 5000000)
           admin_session_world_constraints);
    try reflexivity.
  - apply list_elem_of_here.
  - discriminate.
Defined.

(** ** Soft deletion and restoration, composed *)

Lemma update_is_deleted_undo (d : DB) (p : Post.t) (b : bool) :
  NoDup (Post.id <$> posts d) → p ∈ posts d →
  update_is_deleted (Post.id p) (Post.is_deleted p)
                    (update_is_deleted (Post.id p) b d) = d.
Proof.
  intros Hpk Hin. unfold update_is_deleted. cbn [posts set_posts].
  destruct d as [us ps cs ls]. cbn [posts] in *. unfold set_posts. simpl.
  f_equal. rewrite <- list_fmap_compose.
  rewrite <- (list_fmap_id ps) at 2. apply list_fmap_ext.
  intros i q Hq. simpl.
  destruct (decide (Post.id q = Post.id p)) as [Hid | Hid].
  - assert (q = p) as ->.
    { apply (NoDup_fmap_inj_on Post.id ps); try done.
      by eapply list_elem_of_lookup_2. }
    rewrite (bool_decide_eq_true_2 (Post.id p = Post.id p)) by done. simpl.
    rewrite (bool_decide_eq_true_2 (Post.id p = Post.id p)) by done.
    by destruct p.
  - rewrite (bool_decide_eq_false_2 _ Hid). simpl.
    by rewrite (bool_decide_eq_false_2 _ Hid).
Qed.

Lemma update_is_deleted_twice (pid : nat) (b b' : bool) (d : DB) :
  update_is_deleted pid b (update_is_deleted pid b' d)
  = update_is_deleted pid b d.
Proof.
  unfold update_is_deleted. cbn [posts set_posts]. unfold set_posts. simpl.
  f_equal. rewrite <- list_fmap_compose. apply list_fmap_ext.
  intros i q _. simpl.
  destruct (decide (Post.id q = pid)) as [Hid | Hid].
  - rewrite (bool_decide_eq_true_2 _ Hid). simpl.
    by rewrite (bool_decide_eq_true_2 _ Hid).
  - rewrite (bool_decide_eq_false_2 _ Hid). simpl.
    by rewrite (bool_decide_eq_false_2 _ Hid).
Qed.

Lemma get_post_elem (pid : nat) (d : DB) (p : Post.t) :
  get_post pid d = Some p → p ∈ posts d ∧ Post.id p = pid.
Proof.
  unfold get_post. intros [Hin Hid]%find_some_elem.
  by apply bool_decide_eq_true in Hid.
Qed.

(** X12: soft deletion is undone by restoration and is idempotent. For
    an administrator and a post that is not soft-deleted, in a store
    where post ids are unique: after [admin_delete_post] the post is out
    of the feed; [admin_restore_post] then gives back the world before
    the deletion, feed included; and a second [admin_delete_post]
    changes nothing more. *)
Theorem soft_delete_then_restore (pid : nat) (w : World) (cu : User.t)
    (post : Post.t) :
  NoDup (Post.id <$> posts (db w)) →
  current_user w = Some cu → User.is_admin cu = true →
  get_post pid (db w) = Some post → Post.is_deleted post = false →
  let deleted := (admin_delete_post pid w).2 in
  (∀ p, p ∈ feed_query (db deleted) → Post.id p ≠ pid)
  ∧ (admin_restore_post pid deleted).2 = w
  ∧ feed_query (db (admin_restore_post pid deleted).2) = feed_query (db w)
  ∧ (admin_delete_post pid deleted).2 = deleted.
Proof.
  intros Hpk Hcu Hadmin Hpost Hlive deleted.
  assert (Hdeleted : deleted = set_db (update_is_deleted pid true (db w)) w).
  { subst deleted.
    by rewrite (admin_delete_post_ok pid w cu post Hcu Hadmin Hpost). }
  clearbody deleted. subst deleted.
  set (w1 := set_db (update_is_deleted pid true (db w)) w).
  assert (Hcu1 : current_user w1 = Some cu) by done.
  assert (Hpost1 : get_post pid (db w1) = Some (Post.set_is_deleted true post)).
  { unfold w1. cbn [db set_db]. by rewrite get_post_update_is_deleted, Hpost. }
  destruct (get_post_elem _ _ _ Hpost) as [Hin Hid].
  assert (Hrestored : (admin_restore_post pid w1).2 = w).
  { rewrite (admin_restore_post_ok pid w1 cu _ Hcu1 Hadmin Hpost1).
    cbn [snd]. unfold w1. cbn [db set_db]. subst pid.
    rewrite <- Hlive at 1. rewrite update_is_deleted_undo by done.
    by destruct w. }
  split_and!.
  - intros p [Hp Hp_live]%elem_of_feed_query Hp_id.
    unfold w1, update_is_deleted in Hp. cbn [db set_db posts set_posts] in Hp.
    apply list_elem_of_fmap in Hp as (q & -> & Hq).
    destruct (decide (Post.id q = pid)) as [Hq_id | Hq_id].
    + rewrite (bool_decide_eq_true_2 _ Hq_id) in Hp_live. done.
    + rewrite (bool_decide_eq_false_2 _ Hq_id) in Hp_id. done.
  - done.
  - by rewrite Hrestored.
  - rewrite (admin_delete_post_ok pid w1 cu _ Hcu1 Hadmin Hpost1).
    cbn [snd]. unfold w1. cbn [db set_db].
    by rewrite update_is_deleted_twice.
Qed.

(** Witness of X12: the administrator removes and restores alice's
    first post. *)
Lemma soft_delete_then_restore_witness :
  let deleted := (admin_delete_post 1 admin_session_world).2 in
  (∀ p, p ∈ feed_query (db deleted) → Post.id p ≠ 1%nat)
  ∧ (admin_restore_post 1 deleted).2 = admin_session_world
  ∧ feed_query (db (admin_restore_post 1 deleted).2)
    = feed_query (db admin_session_world)
  ∧ (admin_delete_post 1 deleted).2 = deleted.
Proof.
  apply (soft_delete_then_restore 1 admin_session_world admin_account
           (Post.mk 1 "hello" "" 1 3000000 false)); try reflexivity.
  by destruct admin_session_world_constraints.
Defined.

(** ** Start-up *)

Lemma user_by_username_snoc (name : string) (d : DB) (row : User.t) :
  user_by_username name d = None → User.username row = name →
  user_by_username name (set_users (users d ++ [row]) d) = Some row.
Proof.
  intros Hnone Hname. unfold user_by_username in *. cbn [users set_users].
  rewrite (find_snoc_none _ _ row Hnone). simpl.
  by rewrite bool_decide_eq_true_2.
Qed.

Lemma init_db_creates `{Werkzeug} (cfg : Config) (env : Env) (d d' : DB) :
  user_by_username (ADMIN_USERNAME cfg) d = None →
  init_db cfg env d = Some d' →
  d' = set_users (users d ++ [admin_row cfg env d]) d
  ∧ user_by_username (ADMIN_USERNAME cfg) d' = Some (admin_row cfg env d).
Proof.
  intros Hnone. unfold init_db. rewrite Hnone.
  destruct (add_user _ _ _ _ _ d) as [row d1|] eqn:Hadd; [|done].
  intros [= <-]. unfold add_user in Hadd.
  destruct (existsb _ (users d)); [done|]. injection Hadd as <- <-.
  split; [done|]. by apply user_by_username_snoc.
Qed.

(** X13: [init_db] makes sure an account with the admin name exists.
    When it returns, such an account is there, the users before it are
    kept in place, the other tables are untouched, and running it again
    changes nothing; when no account had the name, the one found
    afterwards is the new administrator row. It raises exactly when no
    account has the admin name while some account holds the admin
    address. *)
Theorem init_db_outcomes `{Werkzeug} (cfg : Config) (env : Env) (d : DB) :
  (∀ d', init_db cfg env d = Some d' →
     is_Some (user_by_username (ADMIN_USERNAME cfg) d')
     ∧ users d `prefix_of` users d'
     ∧ posts d' = posts d ∧ comments d' = comments d ∧ likes d' = likes d
     ∧ (∀ env', init_db cfg env' d' = Some d')
     ∧ (user_by_username (ADMIN_USERNAME cfg) d = None →
        user_by_username (ADMIN_USERNAME cfg) d' = Some (admin_row cfg env d)))
  ∧ (init_db cfg env d = None ↔
     user_by_username (ADMIN_USERNAME cfg) d = None
     ∧ ∃ u, u ∈ users d ∧ User.email u = ADMIN_EMAIL cfg).
Proof.
  split.
  - intros d' Hinit.
    destruct (user_by_username (ADMIN_USERNAME cfg) d) as [a|] eqn:Huser.
    + unfold init_db in *. rewrite Huser in Hinit. injection Hinit as <-.
      rewrite Huser. by split_and!.
    + destruct (init_db_creates cfg env d d' Huser Hinit) as [-> Hfound].
      split_and!; try done; try (by eexists); try (by apply prefix_app_r).
      intros env'. unfold init_db. by rewrite Hfound.
  - unfold init_db.
    destruct (user_by_username (ADMIN_USERNAME cfg) d) as [a|] eqn:Huser.
    + split; [done | by intros [? _]].
    + destruct (add_user _ _ _ _ _ d) as [row d1|] eqn:Hadd.
      * split; [done|]. intros (_ & u & Hin & Hmail).
        by rewrite (add_user_clash _ _ _ _ _ _ u) in Hadd by auto.
      * split; [|done]. intros _. split; [done|].
        unfold add_user in Hadd.
        destruct (existsb _ (users d)) eqn:Hclash; [|done].
        apply existsb_user_clash_true in Hclash as (u & Hin & [Hu | Hu]).
        -- rewrite user_by_username_none in Huser. by destruct (Huser u Hin).
        -- by exists u.
Qed.

(** Witness of X13: on the empty store the administrator is created; on
    the store where bob holds the admin address [init_db] raises. *)
Lemma init_db_outcomes_witness :
  (∃ d', init_db (H := Stub.werkzeug) default_config (at_time 500000) empty_db
         = Some d'
         ∧ user_by_username "admin" d'
           = Some (User.mk 1 "admin" "admin@amrita.edu" "plain$s$Admin@12345"
                           true false "" 500000)
         ∧ init_db (H := Stub.werkzeug) default_config (at_time 900000) d'
           = Some d')
  ∧ init_db (H := Stub.werkzeug) default_config (at_time 500000)
            (db admin_email_taken_world) = None.
Proof.
  destruct (init_db_outcomes (H := Stub.werkzeug) default_config
              (at_time 500000) empty_db) as [Hsome _].
  destruct (init_db_outcomes (H := Stub.werkzeug) default_config
              (at_time 500000) (db admin_email_taken_world)) as [_ Hnone].
  split.
  - eexists. split; [reflexivity|].
    destruct (Hsome _ eq_refl) as (_ & _ & _ & _ & _ & Hagain & Hrow).
    split; [by apply Hrow | apply Hagain].
  - apply Hnone. split; [reflexivity|].
    exists (User.mk 1 "bob" "admin@amrita.edu" "plain$s$pw2" false false ""
                    1000000).
    split; [apply list_elem_of_here | reflexivity].
Defined.

(** X14: [init_db] and the admin login fit together. When [init_db] has
    created the administrator, an admin login under the configured name
    with the configured password, for which [check_password_hash]
    accepts the digest made at start-up, succeeds as that administrator
    and adds no account. *)
Theorem init_db_then_admin_login `{Werkzeug} (cfg : Config) (env env' : Env)
    (w : World) (d' : DB) (req : Request) :
  user_by_username (ADMIN_USERNAME cfg) (db w) = None →
  init_db cfg env (db w) = Some d' →
  method req = POST →
  Py.strip (or_else (form_get "role" req) "user") = "admin" →
  form_field "username" req = ADMIN_USERNAME cfg →
  or_else (form_get "password" req) "" = ADMIN_PASSWORD cfg →
  check_password_hash
    (generate_password_hash (salt env) (ADMIN_PASSWORD cfg))
    (ADMIN_PASSWORD cfg) = true →
  let w' := set_db d' w in
  let result := login cfg req env' w' in
  result = (redirect "index",
            flash "Login successful." "success"
                  (login_user (admin_row cfg env (db w)) w'))
  ∧ users (db result.2) = users d'
  ∧ User.is_admin (admin_row cfg env (db w)) = true.
Proof.
  intros Hnone Hinit Hmethod Hrole Hname Hpw Hcheck w' result.
  destruct (init_db_creates cfg env (db w) d' Hnone Hinit) as [_ Hrow].
  subst result.
  rewrite (login_as_admin_existing cfg req env' w' Hmethod
             (admin_row cfg env (db w)) Hrole Hname Hrow).
  rewrite Hpw. unfold login_check.
  cbn [admin_row User.password_hash User.is_admin User.blocked andb negb].
  rewrite Hcheck. by cbn [fst snd].
Qed.

(** Witness of X14: start-up on the empty store, then the admin login. *)
Lemma init_db_then_admin_login_witness :
  let w' := set_db booted_db empty_world in
  let result := run_login (admin_login_request "Admin@12345")
                          (at_time 2000000) w' in
  result = (redirect "index",
            flash "Login successful." "success"
                  (login_user (admin_row (H := Stub.werkzeug) default_config
                                         (at_time 500000) empty_db) w'))
  ∧ users (db result.2) = users booted_db
  ∧ User.is_admin (admin_row (H := Stub.werkzeug) default_config
                             (at_time 500000) empty_db) = true.
Proof.
  apply (init_db_then_admin_login (H := Stub.werkzeug) default_config
           (at_time 500000) (at_time 2000000) empty_world booted_db
           (admin_login_request "Admin@12345")); reflexivity.
Defined.

(** ** Avatars *)

Lemma current_user_get_user (w : World) (cu : User.t) :
  current_user w = Some cu →
  get_user (User.id cu) (db w) = Some cu ∧ session w = Some (User.id cu).
Proof.
  unfold current_user, load_user. destruct (session w) as [sid|]; [|done].
  simpl. intros Hcu. destruct (get_user_elem _ _ _ Hcu) as [_ <-]. done.
Qed.

Lemma get_user_update_avatar_url (uid uid' : nat) (url : string) (d : DB) :
  get_user uid' (update_avatar_url uid url d)
  = avatar_as uid url <$> get_user uid' d.
Proof.
  unfold get_user, update_avatar_url. cbn [users set_users].
  apply (find_fmap_same _ (avatar_as uid url)).
  intros v. unfold avatar_as.
  by destruct (bool_decide (User.id v = uid)).
Qed.

Lemma save_image_empty_path `{Werkzeug} (file_storage : option FileStorage)
    (env : Env) (w w1 : World) :
  save_image file_storage env w = Returns "" w1 → w1 = w.
Proof.
  destruct (save_image_cases file_storage env w)
    as [-> | [-> | (fs & safe & _ & _ & ->)]]; [done| |].
  - by intros [= <-].
  - intros [= Hurl _].
Qed.

(** X15: for a logged-in caller, [upload_avatar] follows [save_image].
    When [file_storage.save] raises, the request ends in the unhandled
    [OSError] (500) and nothing changes. When [save_image] returns the
    empty string the view answers "Invalid image format." and neither
    the store nor the uploads change. Otherwise the file is in the
    uploads, the caller's [avatar_url] is the path [save_image]
    returned, the caller stays logged in, and no other account is
    touched. *)
Theorem upload_avatar_outcomes `{Werkzeug} (req : Request) (env : Env)
    (w : World) (cu : User.t) :
  current_user w = Some cu →
  let saved := save_image (files_get "avatar" req) env w in
  let result := upload_avatar req env w in
  (saved = OSError → result = (abort 500, w))
  ∧ (∀ w1, saved = Returns "" w1 →
       result = (redirect "profile", flash "Invalid image format." "error" w))
  ∧ (∀ url w1, saved = Returns url w1 → url ≠ "" →
       result.1 = redirect "profile"
       ∧ uploads result.2 = uploads w1
       ∧ get_user (User.id cu) (db result.2)
         = Some (User.set_avatar_url url cu)
       ∧ current_user result.2 = Some (User.set_avatar_url url cu)
       ∧ (∀ other, other ≠ User.id cu →
            get_user other (db result.2) = get_user other (db w))
       ∧ posts (db result.2) = posts (db w)).
Proof.
  intros Hcu saved result. subst result.
  unfold upload_avatar, login_required. rewrite Hcu. fold saved.
  destruct (current_user_get_user w cu Hcu) as [Hself Hsid].
  split_and!.
  - by intros ->.
  - intros w1 Hsaved. rewrite Hsaved.
    apply save_image_empty_path in Hsaved as ->.
    by rewrite bool_decide_eq_true_2.
  - intros url w1 Hsaved Hurl. rewrite Hsaved.
    apply save_image_frame in Hsaved as (Hdb & Hsession & _).
    rewrite bool_decide_eq_false_2 by done.
    cbn [fst snd db set_db uploads flash]. rewrite Hdb.
    assert (Hnew : get_user (User.id cu)
                     (update_avatar_url (User.id cu) url (db w))
                   = Some (User.set_avatar_url url cu)).
    { rewrite get_user_update_avatar_url, Hself. simpl. unfold avatar_as.
      by rewrite bool_decide_eq_true_2. }
    split_and!; try done.
    + unfold current_user, load_user. cbn [session flash set_db db].
      rewrite Hsession, Hsid. simpl. exact Hnew.
    + intros other Hother. rewrite get_user_update_avatar_url.
      destruct (get_user other (db w)) as [v|] eqn:Hv; [|done].
      apply get_user_elem in Hv as [_ Hid]. simpl. unfold avatar_as.
      rewrite bool_decide_eq_false_2; [done | congruence].
Qed.

(** The names of the examples that the file system of [utc_host] does
    not take: 260 letters and an extension. *)
Lemma long_name_raises :
  run_save_image (Some {| filename := long_name +:+ ".png"; stream := "x" |})
                 (at_time 6000000) alice_world = OSError.
Proof. vm_compute. reflexivity. Qed.

(** Witness of X15: alice uploads a picture, then a text file, then a
    picture whose name is too long for the file system. *)
Lemma upload_avatar_outcomes_witness :
  let picture := upload_request [] "avatar"
                                {| filename := "me.jpg"; stream := "JFIF" |} in
  let notes := upload_request [] "avatar"
                              {| filename := "me.txt"; stream := "hi" |} in
  let long := upload_request [] "avatar"
                             {| filename := long_name +:+ ".png";
                                stream := "x" |} in
  get_user 1 (db (@upload_avatar Stub.werkzeug picture (at_time 6000000)
                                 alice_world).2)
    = Some (User.set_avatar_url "/static/uploads/me_6.jpg" alice_account)
  ∧ @upload_avatar Stub.werkzeug notes (at_time 6000000) alice_world
    = (redirect "profile",
       flash "Invalid image format." "error" alice_world)
  ∧ @upload_avatar Stub.werkzeug long (at_time 6000000) alice_world
    = (abort 500, alice_world).
Proof.
  intros picture notes long.
  destruct (upload_avatar_outcomes (H := Stub.werkzeug) picture
              (at_time 6000000) alice_world alice_account eq_refl)
    as (_ & _ & Hstored).
  destruct (upload_avatar_outcomes (H := Stub.werkzeug) notes
              (at_time 6000000) alice_world alice_account eq_refl)
    as (_ & Hrefused & _).
  destruct (upload_avatar_outcomes (H := Stub.werkzeug) long
              (at_time 6000000) alice_world alice_account eq_refl)
    as (Hraised & _ & _).
  split_and!.
  - assert (Hpath : "/static/uploads/me_6.jpg" ≠ "") by discriminate.
    destruct (Hstored "/static/uploads/me_6.jpg"
                (set_uploads (<["me_6.jpg" := "JFIF"]> (uploads alice_world))
                             alice_world) eq_refl Hpath)
      as (_ & _ & Hrow & _).
    exact Hrow.
  - apply (Hrefused alice_world). reflexivity.
  - apply Hraised. reflexivity.
Defined.

(** ** What a toggle touches *)

Lemma find_snoc_false {A} (P : A → bool) (l : list A) (x : A) :
  P x = false → find P (l ++ [x]) = find P l.
Proof.
  intros Hx. induction l as [|a l IH]; simpl; [by rewrite Hx|].
  by destruct (P a).
Qed.

Lemma find_remove_false {A} (P : A → bool) (l1 l2 : list A) (x : A) :
  P x = false → find P (l1 ++ l2) = find P (l1 ++ x :: l2).
Proof.
  intros Hx. induction l1 as [|a l1 IH]; simpl; [by rewrite Hx|].
  by destruct (P a).
Qed.

Lemma like_pair_false (uid uid' pid pid' : nat) (l : Like.t) :
  Like.user_id l = uid → Like.post_id l = pid →
  (uid', pid') ≠ (uid, pid) →
  bool_decide (Like.user_id l = uid') && bool_decide (Like.post_id l = pid')
  = false.
Proof.
  intros <- <- Hne. apply andb_false_iff.
  destruct (decide (Like.user_id l = uid')) as [<-|];
    [|left; by apply bool_decide_eq_false].
  right. apply bool_decide_eq_false. congruence.
Qed.

(** X16: a toggle touches one pair only. In a store that meets the
    declared constraints, whatever [like_post] answers to a logged-in
    caller, every other user's like on any post and the caller's like on
    every other post is found as before, and the likes of every other
    post are the same rows. *)
Theorem like_post_touches_one_pair (pid : nat) (env : Env) (w : World)
    (cu : User.t) :
  db_constraints (db w) →
  current_user w = Some cu →
  let w' := (like_post pid env w).2 in
  (∀ uid' pid', (uid', pid') ≠ (User.id cu, pid) →
     like_by uid' pid' (db w') = like_by uid' pid' (db w))
  ∧ (∀ pid', pid' ≠ pid → post_likes pid' (db w') = post_likes pid' (db w)).
Proof.
  intros Hw Hcu w'. subst w'. unfold like_post, login_required. rewrite Hcu.
  destruct (get_post pid (db w)) as [post|]; cbn [get_or_404];
    [|by case_bool_decide].
  destruct (Post.is_deleted post); [done|].
  destruct (like_by (User.id cu) pid (db w)) as [existing|] eqn:Hlike.
  - cbn [snd db set_db].
    pose proof Hlike as Hfound. unfold like_by in Hfound.
    apply find_some_elem in Hfound as [Hin Hpair].
    apply andb_true_iff in Hpair
      as [Hu%bool_decide_eq_true Hp%bool_decide_eq_true].
    destruct (delete_like_split existing (db w)) as (l1 & l2 & Hsplit & Hrest);
      [by destruct Hw | done |].
    split.
    + intros uid' pid' Hne. unfold like_by. rewrite Hrest, Hsplit.
      apply find_remove_false. by apply (like_pair_false (User.id cu) _ pid).
    + intros pid' Hne. unfold post_likes. rewrite Hrest, Hsplit.
      rewrite !filter_app, filter_cons_False; [done | congruence].
  - rewrite add_like_fresh by done. cbn [snd db set_db likes set_likes].
    split.
    + intros uid' pid' Hne. unfold like_by. cbn [likes set_likes].
      apply find_snoc_false. by apply (like_pair_false (User.id cu) _ pid).
    + intros pid' Hne. unfold post_likes. cbn [likes set_likes].
      rewrite filter_app, filter_cons_False by (simpl; congruence).
      by rewrite filter_nil, app_nil_r.
Qed.

Lemma liked_world_constraints : db_constraints (db liked_world).
Proof.
  unfold liked_world.
  apply (serve_keeps_constraints (H := Stub.werkzeug) default_config
           (call_like_post 1 (at_time 4000000))).
  apply alice_world_constraints.
Qed.

Lemma liked_carol_world_constraints : db_constraints (db liked_carol_world).
Proof.
  unfold liked_carol_world.
  apply (serve_keeps_constraints (H := Stub.werkzeug) default_config
           (call_login carol_login_request (at_time 4200000))).
  apply (serve_keeps_constraints (H := Stub.werkzeug) default_config
           (call_register carol_register_request (at_time 4100000))).
  apply liked_world_constraints.
Qed.

(** Witness of X16: carol toggles her like on alice's post; alice's own
    like on it is found as before. *)
Lemma like_post_touches_one_pair_witness :
  like_by 1 1 (db (like_post 1 (at_time 5000000) liked_carol_world).2)
  = like_by 1 1 (db liked_carol_world).
Proof.
  apply (proj1 (like_post_touches_one_pair 1 (at_time 5000000)
                  liked_carol_world carol_account
                  liked_carol_world_constraints eq_refl)).
  discriminate.
Defined.

(** Witness of X17: alice, who has liked her post, toggles twice. *)
Lemma toggle_like_twice_from_liked_witness :
  let first := like_post 1 (at_time 5000000) liked_world in
  let second := like_post 1 (at_time 6000000) first.2 in
  first.1 = jsonify [("ok", JBool true); ("liked", JBool false);
                     ("count", JNum 0)] 200
  ∧ second.1 = jsonify [("ok", JBool true); ("liked", JBool true);
                        ("count", JNum 1)] 200
  ∧ is_Some (like_by 1 1 (db second.2)).
Proof.
  apply (toggle_like_twice_from_liked 1 (at_time 5000000) (at_time 6000000)
           liked_world alice_account (Post.mk 1 "hello" "" 1 3000000 false)
           (Like.mk 1 1 1 4000000) liked_world_constraints);
    reflexivity.
Defined.

(** ** The profile page *)

Lemma current_user_ext (w w' : World) :
  session w' = session w → users (db w') = users (db w) →
  current_user w' = current_user w.
Proof.
  intros Hs Hu. unfold current_user, load_user, get_user. by rewrite Hs, Hu.
Qed.

Lemma profile_of (w : World) (cu : User.t) :
  current_user w = Some cu →
  (profile w).1 = profile_html (count_live_posts (User.id cu) (db w))
                               (count_live_comments (User.id cu) (db w))
                               (count_likes (User.id cu) (db w)).
Proof. intros Hcu. unfold profile. by rewrite Hcu. Qed.

(** X19: the totals of the profile page follow the caller's writes. For
    a logged-in caller the page shows the numbers of the caller's posts
    and comments that are not soft-deleted and of the caller's likes;
    a post the caller creates (a form with text whose file, if it has
    one, [save_image] can write) raises the first by one, a comment the
    caller adds raises the second by one, a like the caller gives raises
    the third by one, and each of these writes leaves the two other
    totals as they are. *)
Theorem profile_totals_follow_writes `{Werkzeug} (w : World) (cu : User.t) :
  current_user w = Some cu →
  let total_posts := count_live_posts (User.id cu) (db w) in
  let total_comments := count_live_comments (User.id cu) (db w) in
  let total_likes := count_likes (User.id cu) (db w) in
  profile w = (profile_html total_posts total_comments total_likes, w)
  ∧ (∀ req env, method req = POST → form_field "content" req ≠ "" →
       save_image (files_get "image" req) env w ≠ OSError →
       (profile (create_post req env w).2).1
       = profile_html (S total_posts) total_comments total_likes)
  ∧ (∀ pid req env post,
       get_post pid (db w) = Some post → Post.is_deleted post = false →
       form_field "content" req ≠ "" →
       (profile (comment_post pid req env w).2).1
       = profile_html total_posts (S total_comments) total_likes)
  ∧ (∀ pid env post,
       get_post pid (db w) = Some post → Post.is_deleted post = false →
       like_by (User.id cu) pid (db w) = None →
       (profile (like_post pid env w).2).1
       = profile_html total_posts total_comments (S total_likes)).
Proof.
  intros Hcu total_posts total_comments total_likes. split_and!.
  - unfold profile. by rewrite Hcu.
  - intros req env Hmethod Hcontent Hsaved.
    destruct (create_post_frame req env w) as (Husers & Hcomments & Hlikes
                                              & Hsession).
    destruct (create_post_persists_one req env w cu Hcu Hmethod
                (or_introl Hcontent) (λ _, Hsaved))
      as (image_url & Hposts & _).
    rewrite (profile_of _ cu)
      by (rewrite <- Hcu; by apply current_user_ext).
    unfold count_live_posts, count_live_comments, count_likes.
    rewrite Hposts, Hcomments, Hlikes.
    rewrite filter_app, filter_cons_True by done.
    rewrite filter_nil, length_app. simpl.
    subst total_posts. unfold count_live_posts. f_equal. lia.
  - intros pid req env post Hpost Hlive Hcontent.
    unfold comment_post, login_required. rewrite Hcu, Hpost.
    cbn [get_or_404]. rewrite Hlive.
    rewrite bool_decide_eq_false_2 by done.
    cbn [add_comment fst snd].
    rewrite (profile_of _ cu) by done.
    unfold count_live_posts, count_live_comments, count_likes.
    cbn [db set_db flash posts comments likes set_comments].
    rewrite filter_app, filter_cons_True by done.
    rewrite filter_nil, length_app. simpl.
    subst total_comments. unfold count_live_comments. f_equal. lia.
  - intros pid env post Hpost Hlive Hnone.
    rewrite (like_post_creates pid w cu post Hcu Hpost Hlive env Hnone).
    cbv zeta. cbn [snd].
    rewrite (profile_of _ cu) by done.
    unfold count_live_posts, count_live_comments, count_likes.
    cbn [db set_db posts comments likes set_likes].
    rewrite filter_app, filter_cons_True by done.
    rewrite filter_nil, length_app. simpl.
    subst total_likes. unfold count_likes. f_equal. lia.
Qed.

(** Witness of X19: alice's profile before and after a second post. *)
Lemma profile_totals_follow_writes_witness :
  profile alice_world = (profile_html 1 0 0, alice_world)
  ∧ (profile (run_create_post (post_request [("content", "again")])
                              (at_time 3500000) alice_world).2).1
    = profile_html 2 0 0.
Proof.
  destruct (profile_totals_follow_writes (H := Stub.werkzeug) alice_world
              alice_account eq_refl) as (Hnow & Hpost & _).
  split; [exact Hnow|].
  apply (Hpost (post_request [("content", "again")]) (at_time 3500000));
    [reflexivity | discriminate | discriminate].
Defined.

(** ** The admin page *)

Global Instance user_created_desc_total : Total user_created_desc.
Proof. intros u v. unfold user_created_desc. lia. Qed.

Global Instance user_created_desc_trans : Transitive user_created_desc.
Proof. intros u v x. unfold user_created_desc. lia. Qed.

(** X20: for an administrator the admin page lists every account and
    every post of the store, soft-deleted posts included, each once and
    newest first, and changes nothing. *)
Theorem admin_lists_everything (w : World) (cu : User.t) :
  current_user w = Some cu →
  User.is_admin cu = true →
  ∃ listed_users listed_posts,
    admin w = (admin_html listed_users listed_posts, w)
    ∧ listed_users ≡ₚ users (db w)
    ∧ listed_posts ≡ₚ posts (db w)
    ∧ StronglySorted (λ u v, User.created_at v ≤ User.created_at u)
                     listed_users
    ∧ StronglySorted (λ p q, Post.created_at q ≤ Post.created_at p)
                     listed_posts
    ∧ (∀ p, p ∈ posts (db w) → Post.is_deleted p = true → p ∈ listed_posts).
Proof.
  intros Hcu Hadmin.
  exists (merge_sort user_created_desc (users (db w))),
         (merge_sort created_desc (posts (db w))).
  split_and!.
  - unfold admin, admin_only. by rewrite Hcu, Hadmin.
  - apply merge_sort_Permutation.
  - apply merge_sort_Permutation.
  - apply (StronglySorted_merge_sort user_created_desc).
  - apply (StronglySorted_merge_sort created_desc).
  - intros p Hp _. by rewrite merge_sort_Permutation.
Qed.

(** Witness of X20: the administrator sees the soft-deleted post that
    the feed hides. *)
Lemma admin_lists_everything_witness :
  ∃ listed_users listed_posts,
    admin moderated_world
    = (admin_html listed_users listed_posts, moderated_world)
    ∧ listed_users ≡ₚ users (db moderated_world)
    ∧ listed_posts ≡ₚ posts (db moderated_world)
    ∧ StronglySorted (λ u v, User.created_at v ≤ User.created_at u)
                     listed_users
    ∧ StronglySorted (λ p q, Post.created_at q ≤ Post.created_at p)
                     listed_posts
    ∧ (∀ p, p ∈ posts (db moderated_world) → Post.is_deleted p = true →
            p ∈ listed_posts).
Proof.
  apply (admin_lists_everything moderated_world admin_account);
    reflexivity.
Defined.

(** ** Rows stay *)

Lemma add_user_appends (name mail pw_hash : string) (admin : bool) (now : Z)
    (d d' : DB) (row : User.t) :
  add_user name mail pw_hash admin now d = Committed row d' →
  users d' = (users d ++ [row])%list.
Proof.
  unfold add_user. destruct (existsb _ _); [done|]. by intros [= <- <-].
Qed.

Lemma user_core_update_blocked (uid : nat) (b : bool) (d : DB) :
  user_core <$> users (update_blocked uid b d) = user_core <$> users d.
Proof.
  unfold update_blocked. cbn [users set_users].
  apply fmap_key_unchanged. intros u.
  by destruct (bool_decide (User.id u = uid)).
Qed.

Lemma user_core_update_avatar_url (uid : nat) (url : string) (d : DB) :
  user_core <$> users (update_avatar_url uid url d) = user_core <$> users d.
Proof.
  unfold update_avatar_url. cbn [users set_users].
  apply fmap_key_unchanged. intros u.
  by destruct (bool_decide (User.id u = uid)).
Qed.

Lemma post_core_update_is_deleted (pid : nat) (b : bool) (d : DB) :
  post_core <$> posts (update_is_deleted pid b d) = post_core <$> posts d.
Proof.
  unfold update_is_deleted. cbn [posts set_posts].
  apply fmap_key_unchanged. intros p.
  by destruct (bool_decide (Post.id p = pid)).
Qed.

Section RowsStay.
Context `{Werkzeug} (cfg : Config) (c : Call) (w : World).

Lemma serve_keeps_users :
  user_core <$> users (db w)
  `prefix_of` user_core <$> users (db (serve cfg c w).2).
Proof.
  destruct (writes_users c) eqn:Hwrites;
    [|by rewrite (proj1 (serve_writes_only cfg c w) Hwrites)].
  destruct c; try discriminate Hwrites; cbn [serve to_page fst snd].
  - unfold register.
    repeat (first [progress cbn [fst snd db set_db flash] | case_match];
            try done).
    match goal with
    | Hadd : add_user _ _ _ _ _ _ = Committed _ _ |- _ =>
        rewrite (add_user_appends _ _ _ _ _ _ _ _ Hadd)
    end.
    rewrite fmap_app. by apply prefix_app_r.
  - unfold login, login_check.
    repeat (first [progress cbn [fst snd db set_db flash login_user
                                 set_session]
                  | case_match]; try done);
      match goal with
      | Hadd : add_user _ _ _ _ _ _ = Committed _ _ |- _ =>
          rewrite (add_user_appends _ _ _ _ _ _ _ _ Hadd)
      end;
      rewrite fmap_app; by apply prefix_app_r.
  - unfold upload_avatar, login_required, unauthorized.
    destruct (current_user w); [|done].
    destruct (save_image _ env w) as [url w1|] eqn:Hsave; [|done].
    apply save_image_frame in Hsave as (Hdb & _).
    case_bool_decide; cbn [fst snd db set_db flash]; rewrite Hdb; [done|].
    by rewrite user_core_update_avatar_url.
  - unfold admin_block_user, login_required, unauthorized.
    repeat (first [progress cbn [fst snd db set_db] | case_match]; try done).
    by rewrite user_core_update_blocked.
  - unfold admin_unblock_user, login_required, unauthorized.
    repeat (first [progress cbn [fst snd db set_db] | case_match]; try done).
    by rewrite user_core_update_blocked.
Qed.

Lemma serve_keeps_posts :
  post_core <$> posts (db w)
  `prefix_of` post_core <$> posts (db (serve cfg c w).2).
Proof.
  destruct (writes_posts c) eqn:Hwrites;
    [|by rewrite (proj1 (proj2 (serve_writes_only cfg c w)) Hwrites)].
  destruct c; try discriminate Hwrites; cbn [serve to_page fst snd].
  - unfold create_post, login_required, unauthorized.
    destruct (current_user w); [|done].
    destruct (method req); [done|].
    destruct (bool_decide _ && negb _); [done|].
    destruct (truthy_file _).
    + destruct (save_image _ env w) as [image_url w1|] eqn:Hsave; [|done].
      apply save_image_frame in Hsave as (Hdb & _). simpl in *.
      rewrite Hdb, fmap_app. by apply prefix_app_r.
    + simpl. rewrite fmap_app. by apply prefix_app_r.
  - unfold admin_delete_post, login_required, unauthorized.
    repeat (first [progress cbn [fst snd db set_db] | case_match]; try done).
    by rewrite post_core_update_is_deleted.
  - unfold admin_restore_post, login_required, unauthorized.
    repeat (first [progress cbn [fst snd db set_db] | case_match]; try done).
    by rewrite post_core_update_is_deleted.
Qed.

Lemma serve_keeps_comments :
  comments (db w) `prefix_of` comments (db (serve cfg c w).2).
Proof.
  destruct (writes_comments c) eqn:Hwrites;
    [|by rewrite (proj1 (proj2 (proj2 (serve_writes_only cfg c w))) Hwrites)].
  destruct c; try discriminate Hwrites; cbn [serve to_page fst snd].
  unfold comment_post, login_required, unauthorized.
  repeat (first [progress cbn [fst snd db set_db add_comment comments
                               set_comments flash]
                | case_match]; try done).
  by apply prefix_app_r.
Qed.
End RowsStay.

(** X21: no request removes or rewrites a row of users, posts or
    comments. After any sequence of requests every account is still at
    its place with the same id, name, address, password digest, admin
    flag and creation time; every post is still at its place with the
    same id, content, image reference, owner and creation time; and
    every comment is still at its place, unchanged. New rows only come
    after them. *)
Theorem rows_are_never_removed `{Werkzeug} (cfg : Config) (cs : list Call)
    (w : World) :
  let w' := serve_all cfg cs w in
  user_core <$> users (db w) `prefix_of` user_core <$> users (db w')
  ∧ post_core <$> posts (db w) `prefix_of` post_core <$> posts (db w')
  ∧ comments (db w) `prefix_of` comments (db w').
Proof.
  revert w. induction cs as [|c cs IH]; intros w; [done|].
  cbn [serve_all foldl]. specialize (IH (serve cfg c w).2).
  cbv zeta in IH. unfold serve_all in IH.
  destruct IH as (Husers & Hposts & Hcomments). split_and!.
  - etrans; [apply serve_keeps_users | exact Husers].
  - etrans; [apply serve_keeps_posts | exact Hposts].
  - etrans; [apply serve_keeps_comments | exact Hcomments].
Qed.

(** ** A new post in the feed *)

(** X22: a post shows up in the feed once it is created. When a
    logged-in caller posts a form with text, and [save_image] can write
    the file of the form if it has one, the index page served next
    lists a post with that text (trimmed), owned by the caller and
    stamped with the time of the request, and still lists every post it
    listed before. *)
Theorem create_post_then_index `{Werkzeug} (req : Request) (env : Env)
    (w : World) (cu : User.t) :
  current_user w = Some cu →
  method req = POST →
  form_field "content" req ≠ "" →
  save_image (files_get "image" req) env w ≠ OSError →
  let w' := (create_post req env w).2 in
  ∃ feed image_url,
    index w' = (render_template "index.html" feed, w')
    ∧ Post.mk (fresh_id (Post.id <$> posts (db w))) (form_field "content" req)
              image_url (User.id cu) (utcnow env) false ∈ feed
    ∧ ∀ p, p ∈ feed_query (db w) → p ∈ feed.
Proof.
  intros Hcu Hmethod Hcontent Hsaved w'.
  destruct (create_post_frame req env w) as (Husers & _ & _ & Hsession).
  destruct (create_post_persists_one req env w cu Hcu Hmethod
              (or_introl Hcontent) (λ _, Hsaved))
    as (image_url & Hposts & _).
  fold w' in Husers, Hsession, Hposts.
  exists (feed_query (db w')), image_url. split_and!.
  - unfold index. by rewrite (current_user_ext w w' Hsession Husers), Hcu.
  - apply elem_of_feed_query. split; [|done].
    rewrite Hposts. apply elem_of_app. right. apply list_elem_of_here.
  - intros p [Hp Hlive]%elem_of_feed_query. apply elem_of_feed_query.
    split; [|done]. rewrite Hposts. apply elem_of_app. by left.
Qed.

(** Witness of X22: alice's second post joins her first in the feed. *)
Lemma create_post_then_index_witness :
  let w' := (run_create_post (post_request [("content", " again ")])
                             (at_time 3500000) alice_world).2 in
  ∃ feed image_url,
    index w' = (render_template "index.html" feed, w')
    ∧ Post.mk 2 "again" image_url 1 3500000 false ∈ feed
    ∧ ∀ p, p ∈ feed_query (db alice_world) → p ∈ feed.
Proof.
  apply (create_post_then_index (H := Stub.werkzeug)
           (post_request [("content", " again ")]) (at_time 3500000)
           alice_world alice_account);
    [reflexivity | reflexivity | discriminate | discriminate].
Defined.

(** ** Sessions never dangle *)

Lemma serve_keeps_user_ids `{Werkzeug} (cfg : Config) (c : Call) (w : World)
    (sid : nat) :
  sid ∈ User.id <$> users (db w) →
  sid ∈ User.id <$> users (db (serve cfg c w).2).
Proof.
  intros (u & -> & Hu)%list_elem_of_fmap.
  assert (Hcore : user_core u ∈ user_core <$> users (db (serve cfg c w).2)).
  { destruct (serve_keeps_users cfg c w) as [k ->].
    apply elem_of_app. left. by apply list_elem_of_fmap_2. }
  apply list_elem_of_fmap in Hcore as (v & Hv & Hin).
  apply list_elem_of_fmap. exists v. split; [|done].
  unfold user_core in Hv. congruence.
Qed.

Lemma login_check_session_valid `{Werkzeug} (user : option User.t)
    (pw : string) (w0 : World) :
  session_valid w0 →
  (∀ u, user = Some u → u ∈ users (db w0)) →
  session_valid (login_check user pw w0).2.
Proof.
  intros Hvalid Huser. unfold login_check.
  repeat (first [progress cbn [fst snd] | case_match]; try done).
  intros sid [= <-]. cbn [db flash login_user set_session].
  apply list_elem_of_fmap_2. by apply Huser.
Qed.

Lemma login_keeps_session_valid `{Werkzeug} (cfg : Config) (req : Request)
    (env : Env) (w : World) :
  session_valid w → session_valid (login cfg req env w).2.
Proof.
  intros Hvalid. unfold login.
  destruct (method req); [done|].
  case_bool_decide.
  - case_bool_decide; cbn [negb]; [|done].
    destruct (user_by_username _ (db w)) as [user|] eqn:Huser.
    + apply login_check_session_valid; [done|].
      intros u [= <-]. unfold user_by_username in Huser.
      by apply find_some_elem in Huser as [? _].
    + destruct (add_user _ _ _ _ _ (db w)) as [row d|] eqn:Hadd; [|done].
      pose proof (add_user_appends _ _ _ _ _ _ _ _ Hadd) as Husers.
      apply login_check_session_valid.
      * intros sid Hsid. cbn [db set_db]. rewrite Husers, fmap_app.
        apply elem_of_app. left. by apply Hvalid.
      * intros u [= <-]. cbn [db set_db]. rewrite Husers.
        apply elem_of_app. right. apply list_elem_of_here.
  - apply login_check_session_valid; [done|].
    intros u Huser. unfold user_by_username in Huser.
    by apply find_some_elem in Huser as [? _].
Qed.

Lemma serve_keeps_session_valid `{Werkzeug} (cfg : Config) (c : Call)
    (w : World) :
  session_valid w → session_valid (serve cfg c w).2.
Proof.
  intros Hvalid.
  pose proof (create_post_frame) as Hcreate.
  pose proof (upload_avatar_frame) as Havatar.
  destruct c.
  4: { by apply login_keeps_session_valid. }
  4: { cbn [serve to_page snd]. unfold logout, login_required, unauthorized.
       destruct (current_user w); [done | exact Hvalid]. }
  all: intros sid Hsid; apply serve_keeps_user_ids; apply Hvalid;
    rewrite <- Hsid; symmetry; cbn [serve];
    try (by apply Hcreate); try (by apply Havatar); by view_cases.
Qed.

(** X23: a session never dangles. In every world the application
    reaches, a session that holds a user id holds the id of an account
    of the store, so that [load_user] finds the current user: accounts
    are never removed, and [login] stores the id of an account it has
    just read or inserted. *)
Theorem reachable_session_has_user `{Werkzeug} (cfg : Config) (w : World)
    (sid : nat) :
  reachable cfg w →
  session w = Some sid →
  ∃ u, current_user w = Some u ∧ User.id u = sid ∧ u ∈ users (db w).
Proof.
  intros Hreach Hsid.
  assert (Hvalid : session_valid w).
  { clear sid Hsid. induction Hreach as [|env w d _ IH Hinit|c w _ IH].
    - intros sid Hsid. done.
    - intros sid Hsid. cbn [db set_db session] in *.
      specialize (IH sid Hsid). unfold init_db in Hinit.
      destruct (user_by_username _ (db w)); [by injection Hinit as <-|].
      destruct (add_user _ _ _ _ _ (db w)) as [row d1|] eqn:Hadd; [|done].
      injection Hinit as <-.
      rewrite (add_user_appends _ _ _ _ _ _ _ _ Hadd), fmap_app.
      apply elem_of_app. by left.
    - by apply serve_keeps_session_valid. }
  specialize (Hvalid sid Hsid).
  apply list_elem_of_fmap in Hvalid as (v & -> & Hv).
  destruct (find_is_some (λ u, bool_decide (User.id u = User.id v))
              (users (db w)) v Hv) as [u Hu];
    [by apply bool_decide_eq_true_2|].
  exists u. unfold current_user, load_user. rewrite Hsid. simpl.
  fold (get_user (User.id v) (db w)) in Hu.
  destruct (get_user_elem _ _ _ Hu) as [Hin Hid]. by rewrite Hu.
Qed.

(** Witness of X23: alice's session after her login. *)
Lemma reachable_session_has_user_witness :
  ∃ u, current_user alice_world = Some u ∧ User.id u = 1%nat
       ∧ u ∈ users (db alice_world).
Proof.
  apply (reachable_session_has_user (H := Stub.werkzeug) default_config
           alice_world 1 alice_world_reachable).
  reflexivity.
Defined.

(** Witness of X18: an upper-case extension is accepted. *)
Lemma allowed_image_iff_witness : allowed_image "holiday.photo.JPEG" = true.
Proof.
  apply allowed_image_iff. exists "holiday.photo", "JPEG".
  split_and!; [reflexivity | reflexivity |].
  change ("jpeg" ∈ ALLOWED_IMAGE_EXTENSIONS).
  do 2 apply list_elem_of_further. apply list_elem_of_here.
Defined.

(** Witness of X21: three requests on alice's world keep her account and
    her post where they are. *)
Lemma rows_are_never_removed_witness :
  let w' := serve_all (H := Stub.werkzeug) default_config
              [call_register carol_register_request (at_time 4100000);
               call_login (admin_login_request "Admin@12345")
                          (at_time 4200000);
               call_admin_delete_post 1]
              alice_world in
  user_core <$> users (db alice_world) `prefix_of` user_core <$> users (db w')
  ∧ post_core <$> posts (db alice_world)
    `prefix_of` post_core <$> posts (db w')
  ∧ get_post 1 (db w') = Some (Post.mk 1 "hello" "" 1 3000000 true).
Proof.
  intros w'.
  destruct (rows_are_never_removed (H := Stub.werkzeug) default_config
              [call_register carol_register_request (at_time 4100000);
               call_login (admin_login_request "Admin@12345")
                          (at_time 4200000);
               call_admin_delete_post 1]
              alice_world) as (Husers & Hposts & _).
  split_and!; [exact Husers | exact Hposts | reflexivity].
Defined.

(** ** The image of a post *)

(** X24: the image reference of a new post points to a stored file.
    Let a logged-in caller post a form with a file whose name is not
    empty and whose sanitised name has an allowed extension; the stored
    name is the sanitised name with the integer timestamp of the host
    before the extension. Where the file system of the host takes that
    name, the post that is appended carries the path
    [/static/uploads/<name>], and the upload directory holds the bytes
    of the file under that name; the text may be empty. Where it does
    not, [file_storage.save] raises: the request ends in the unhandled
    [OSError] (500) and neither a post nor a file is stored. *)
Theorem create_post_image_is_stored `{Werkzeug} (req : Request) (env : Env)
    (w : World) (cu : User.t) (fs : FileStorage) :
  current_user w = Some cu →
  method req = POST →
  files_get "image" req = Some fs →
  filename fs ≠ "" →
  allowed_image (secure_filename (filename fs)) = true →
  let result := create_post req env w in
  let safe := safe_name (secure_filename (filename fs))
                        (int_timestamp (host env) (utcnow env)) in
  (can_save (host env) safe = true →
     posts (db result.2)
     = (posts (db w)
        ++ [Post.mk (fresh_id (Post.id <$> posts (db w)))
                    (form_field "content" req) ("/static/uploads/" +:+ safe)
                    (User.id cu) (utcnow env) false])%list
     ∧ uploads result.2 !! safe = Some (stream fs)
     ∧ (∀ other, other ≠ safe →
          uploads result.2 !! other = uploads w !! other))
  ∧ (can_save (host env) safe = false → result = (abort 500, w)).
Proof.
  intros Hcu Hmethod Hfile Hname Hext result safe. subst result.
  unfold create_post, login_required. rewrite Hcu, Hmethod, Hfile.
  unfold truthy_file. rewrite (bool_decide_eq_false_2 _ Hname).
  cbn [negb]. rewrite andb_false_r. split.
  - intros Hsave.
    rewrite (save_image_stored fs env w Hname Hext Hsave). fold safe.
    cbn [add_post fst snd db set_db set_uploads flash posts set_posts uploads].
    split_and!; [done | apply lookup_insert_eq |].
    intros other Hother. by apply lookup_insert_ne.
  - intros Hsave. by rewrite (save_image_raises fs env w Hname Hext Hsave).
Qed.

(** Witness of X24: alice posts a picture without text, and a picture
    whose name is too long for the file system. *)
Lemma create_post_image_is_stored_witness :
  let picture := {| filename := "sun set.png"; stream := "PNG" |} in
  let long := {| filename := long_name +:+ ".png"; stream := "x" |} in
  let w' := (run_create_post (upload_request [] "image" picture)
                             (at_time 7000000) alice_world).2 in
  (posts (db w')
   = (posts (db alice_world)
      ++ [Post.mk 2 "" "/static/uploads/sun_set_7.png" 1 7000000 false])%list
   ∧ uploads w' !! "sun_set_7.png" = Some "PNG"
   ∧ (∀ other, other ≠ "sun_set_7.png" →
        uploads w' !! other = uploads alice_world !! other))
  ∧ run_create_post (upload_request [("content", "pic")] "image" long)
                    (at_time 7000000) alice_world
    = (abort 500, alice_world).
Proof.
  intros picture long. split.
  - apply (proj1 (create_post_image_is_stored (H := Stub.werkzeug)
                    (upload_request [] "image" picture) (at_time 7000000)
                    alice_world alice_account picture
                    eq_refl eq_refl eq_refl ltac:(discriminate) eq_refl)).
    reflexivity.
  - apply (proj2 (create_post_image_is_stored (H := Stub.werkzeug)
                    (upload_request [("content", "pic")] "image" long)
                    (at_time 7000000) alice_world alice_account long
                    eq_refl eq_refl eq_refl ltac:(discriminate)
                    ltac:(vm_compute; reflexivity))).
    vm_compute. reflexivity.
Defined.
